(** * The response-directive execution core of the terminal agents

    A shallow embedding of the command classifier, the execution engine, the
    quick-command resolver, the response parser and the history / context
    managers of the agents, together with the properties proved about them.

    Text is a Rocq [string]: a Python [str] whose characters are the code
    points below 256.  The character classes ([str.isspace], the [\s] and
    [\w] of [re]) are the ones Python uses on those code points. *)

From Stdlib Require Import String Ascii List Bool Arith PeanoNat ZArith Lia DecimalString.
Import ListNotations.
Open Scope list_scope.
Open Scope string_scope.

(* ================================================================== *)
(** * Python's [str] operations used by the agents *)
(* ================================================================== *)

Module Py.

(** Outcome of a call that may raise. *)
Inductive exn : Type :=
| ValueError (msg : string)
| KeyError (key : string)
| IndexError (msg : string)
| OtherError (msg : string).

Inductive res (A : Type) : Type :=
| Ret (a : A)
| Raise (e : exn).
Arguments Ret {A} a.
Arguments Raise {A} e.

Definition bind {A B : Type} (m : res A) (f : A -> res B) : res B :=
  match m with
  | Ret a => f a
  | Raise e => Raise e
  end.

Definition chr (n : nat) : ascii := ascii_of_nat n.
Definition ord (c : ascii) : nat := nat_of_ascii c.

Definition in_range (lo hi : nat) (c : ascii) : bool :=
  Nat.leb lo (ord c) && Nat.leb (ord c) hi.

(** [str.isspace] on one character (also the class [\s] of [re]). *)
Definition isspace (c : ascii) : bool :=
  in_range 9 13 c || in_range 28 32 c || Nat.eqb (ord c) 133 || Nat.eqb (ord c) 160.

Definition isdigit (c : ascii) : bool := in_range 48 57 c.

(** The class [\w] of [re] on a [str] pattern. *)
Definition isword (c : ascii) : bool :=
  in_range 48 57 c || in_range 65 90 c || Nat.eqb (ord c) 95 || in_range 97 122 c
  || Nat.eqb (ord c) 170 || Nat.eqb (ord c) 178 || Nat.eqb (ord c) 179 || Nat.eqb (ord c) 181
  || Nat.eqb (ord c) 185 || Nat.eqb (ord c) 186 || in_range 188 190 c
  || in_range 192 214 c || in_range 216 246 c || in_range 248 255 c.

Definition is_empty (s : string) : bool :=
  match s with
  | EmptyString => true
  | String _ _ => false
  end.

Fixpoint lstrip (s : string) : string :=
  match s with
  | EmptyString => EmptyString
  | String c s' => if isspace c then lstrip s' else s
  end.

Fixpoint rstrip (s : string) : string :=
  match s with
  | EmptyString => EmptyString
  | String c s' =>
      match rstrip s' with
      | EmptyString => if isspace c then EmptyString else String c EmptyString
      | r => String c r
      end
  end.

(** [s.strip()] *)
Definition strip (s : string) : string := rstrip (lstrip s).

(** [s.startswith(p)] *)
Definition startswith (s p : string) : bool := String.prefix p s.

(** [s[n:]] *)
Fixpoint drop (n : nat) (s : string) : string :=
  match n, s with
  | O, _ => s
  | S n', String _ s' => drop n' s'
  | S _, EmptyString => EmptyString
  end.

(** [s[:n]] *)
Fixpoint take (n : nat) (s : string) : string :=
  match n, s with
  | O, _ => EmptyString
  | S n', String c s' => String c (take n' s')
  | S _, EmptyString => EmptyString
  end.

(** [sub in s] *)
Fixpoint contains (sub s : string) : bool :=
  String.prefix sub s ||
  match s with
  | EmptyString => false
  | String _ s' => contains sub s'
  end.

(** [s.replace(old, new, 1)] *)
Fixpoint replace_first (old new s : string) : string :=
  if String.prefix old s then new ++ drop (String.length old) s
  else match s with
       | EmptyString => EmptyString
       | String c s' => String c (replace_first old new s')
       end.

(** [s.split()]: the maximal runs of non-whitespace characters. *)
Fixpoint split_go (s tok : string) : list string :=
  match s with
  | EmptyString => if is_empty tok then [] else [tok]
  | String c s' =>
      if isspace c
      then (if is_empty tok then split_go s' "" else tok :: split_go s' "")
      else split_go s' (tok ++ String c "")
  end.

Definition split (s : string) : list string := split_go s "".

(** [sep.join(l)] *)
Fixpoint join (sep : string) (l : list string) : string :=
  match l with
  | [] => ""
  | [x] => x
  | x :: l' => x ++ sep ++ join sep l'
  end.

(** [x in l] for a list of strings. *)
Definition mem (x : string) (l : list string) : bool :=
  existsb (String.eqb x) l.

(** [l[-n:]] for a list [l] and an integer [n >= 0]: Python reads [-0] as
    [0], so [l[-0:]] is the whole list. *)
Definition last_n {A : Type} (n : nat) (l : list A) : list A :=
  match n with
  | O => l
  | S _ => skipn (List.length l - n) l
  end.

(** A [dict] keeps its keys in insertion order; [d[k] = v] updates an
    existing key in place and appends a new one. *)
Definition dict (V : Type) : Type := list (string * V).

Fixpoint dict_get {V : Type} (d : dict V) (k : string) : option V :=
  match d with
  | [] => None
  | (k', v) :: d' => if String.eqb k k' then Some v else dict_get d' k
  end.

Fixpoint dict_set {V : Type} (d : dict V) (k : string) (v : V) : dict V :=
  match d with
  | [] => [(k, v)]
  | (k', v') :: d' =>
      if String.eqb k k' then (k, v) :: d' else (k', v') :: dict_set d' k v
  end.

Definition dict_has {V : Type} (d : dict V) (k : string) : bool :=
  match dict_get d k with
  | Some _ => true
  | None => false
  end.

End Py.

(* ================================================================== *)
(** * [shlex.split] (POSIX mode, [whitespace_split], no comments) *)
(* ================================================================== *)

Module Shlex.
Import Py.

(** The lexer's [state]: [' '], ['a'], one of the quotes, or the escape
    character; in the escape state [escapedstate] is kept alongside. *)
Inductive state : Type :=
| InSpace
| InWord
| InQuote (q : ascii)
| InEscape (escapedstate : state).

Definition whitespace (c : ascii) : bool :=
  Ascii.eqb c " " || Ascii.eqb c "009" || Ascii.eqb c "013" || Ascii.eqb c "010".

Definition is_quote (c : ascii) : bool :=
  Ascii.eqb c "'" || Ascii.eqb c "034".

Definition is_escape (c : ascii) : bool := Ascii.eqb c "\".

Definition in_escapedquotes (c : ascii) : bool := Ascii.eqb c "034".

Definition snoc (tok : string) (c : ascii) : string := tok ++ String c "".

(** [read_token] run to the end of the input: [st] is [self.state], [tok]
    is [self.token], and the tokens already returned are consed in front of
    the result.  In the states ['a'], quote and escape the token is either
    non-empty or [quoted], so it is always emitted when it ends. *)
Fixpoint lex (st : state) (tok : string) (s : string) : res (list string) :=
  match s with
  | EmptyString =>
      match st with
      | InSpace => Ret []
      | InWord => Ret [tok]
      | InQuote _ => Raise (ValueError "No closing quotation")
      | InEscape _ => Raise (ValueError "No escaped character")
      end
  | String c s' =>
      match st with
      | InSpace =>
          if whitespace c then lex InSpace "" s'
          else if is_escape c then lex (InEscape InWord) "" s'
          else if is_quote c then lex (InQuote c) "" s'
          else lex InWord (String c "") s'
      | InQuote q =>
          if Ascii.eqb c q then lex InWord tok s'
          else if is_escape c && in_escapedquotes q
               then lex (InEscape (InQuote q)) tok s'
               else lex (InQuote q) (snoc tok c) s'
      | InEscape escapedstate =>
          let tok1 :=
            match escapedstate with
            | InQuote q =>
                if negb (is_escape c) && negb (Ascii.eqb c q)
                then snoc tok "\" else tok
            | _ => tok
            end in
          lex escapedstate (snoc tok1 c) s'
      | InWord =>
          if whitespace c then bind (lex InSpace "" s') (fun l => Ret (tok :: l))
          else if is_quote c then lex (InQuote c) tok s'
          else if is_escape c then lex (InEscape InWord) tok s'
          else lex InWord (snoc tok c) s'
      end
  end.

(** [shlex.split(s)] *)
Definition split (s : string) : res (list string) := lex InSpace "" s.

End Shlex.

(* ================================================================== *)
(** * The fragment of [re] that the agents' patterns use *)
(* ================================================================== *)

Module Re.
Import Py.

(** Patterns: literal characters, character classes, concatenation,
    numbered groups, the greedy [C+] and the lazy [C*?] over a class [C],
    and the greedy optional non-capturing group [(?: r )?]. *)
Inductive regex : Type :=
| Lit (c : ascii)
| Cls (p : ascii -> bool)
| Seq (r1 r2 : regex)
| Group (n : nat) (r : regex)
| Plus (p : ascii -> bool)
| LazyStar (p : ascii -> bool)
| Opt (r : regex).

(** The text captured by each group that took part in the match. *)
Definition groups : Type := list (nat * string).

Fixpoint group (g : groups) (n : nat) : option string :=
  match g with
  | [] => None
  | (m, s) :: g' => if Nat.eqb n m then Some s else group g' n
  end.

Section Matcher.
Variable R : Type.

(** [C*] greedy: as many characters of the class as possible, giving them
    back one at a time while the rest of the pattern fails. *)
Fixpoint greedy (p : ascii -> bool) (s : string) (k : string -> option R)
  : option R :=
  match s with
  | String c s' =>
      if p c
      then match greedy p s' k with
           | Some r => Some r
           | None => k s
           end
      else k s
  | EmptyString => k s
  end.

(** [C*?] lazy: as few characters of the class as possible. *)
Fixpoint lazy (p : ascii -> bool) (s : string) (k : string -> option R)
  : option R :=
  match k s with
  | Some r => Some r
  | None =>
      match s with
      | String c s' => if p c then lazy p s' k else None
      | EmptyString => None
      end
  end.

(** Backtracking matcher: [k] is the rest of the pattern, applied to the
    text left and the groups captured so far; the first success wins. *)
Fixpoint rmatch (r : regex) (s : string) (g : groups)
  (k : string -> groups -> option R) : option R :=
  match r with
  | Lit c =>
      match s with
      | String d s' => if Ascii.eqb d c then k s' g else None
      | EmptyString => None
      end
  | Cls p =>
      match s with
      | String d s' => if p d then k s' g else None
      | EmptyString => None
      end
  | Seq r1 r2 => rmatch r1 s g (fun s1 g1 => rmatch r2 s1 g1 k)
  | Group n r1 =>
      rmatch r1 s g
        (fun s1 g1 =>
           k s1 ((n, take (String.length s - String.length s1) s) :: g1))
  | Plus p =>
      match s with
      | String d s' => if p d then greedy p s' (fun s1 => k s1 g) else None
      | EmptyString => None
      end
  | LazyStar p => lazy p s (fun s1 => k s1 g)
  | Opt r1 =>
      match rmatch r1 s g k with
      | Some x => Some x
      | None => k s g
      end
  end.

End Matcher.

(** A match anchored at the start of [s]: its length and its groups. *)
Definition match_at (r : regex) (s : string) : option (nat * groups) :=
  rmatch (nat * groups) r s []
    (fun s1 g1 => Some (String.length s - String.length s1, g1)).

(** A match object: [m.start()], [m.end()] and the groups. *)
Record mtch : Type := Match { m_start : nat; m_end : nat; m_groups : groups }.

(** [re.finditer]: the leftmost match, then the leftmost match after its
    end, and so on.  [skip] counts the characters of the current match
    still to pass; an empty match moves on by one character. *)
Fixpoint finditer_go (r : regex) (s : string) (pos skip : nat) : list mtch :=
  match skip with
  | S skip' =>
      match s with
      | String _ s' => finditer_go r s' (S pos) skip'
      | EmptyString => []
      end
  | O =>
      match match_at r s with
      | Some (len, g) =>
          Match pos (pos + len) g ::
          match s with
          | String _ s' => finditer_go r s' (S pos) (Nat.pred len)
          | EmptyString => []
          end
      | None =>
          match s with
          | String _ s' => finditer_go r s' (S pos) 0
          | EmptyString => []
          end
      end
  end.

Definition finditer (r : regex) (s : string) : list mtch :=
  finditer_go r s 0 0.

(** [re.findall] for a pattern with one group: the text of group 1 of
    every match. *)
Definition findall (r : regex) (s : string) : list string :=
  map (fun m => match group (m_groups m) 1 with
                | Some x => x
                | None => ""
                end) (finditer r s).

(** [re.sub(r, "", s)]: the text outside the matches. *)
Fixpoint sub_go (r : regex) (s : string) (skip : nat) : string :=
  match skip with
  | S skip' =>
      match s with
      | String _ s' => sub_go r s' skip'
      | EmptyString => EmptyString
      end
  | O =>
      match match_at r s with
      | Some (S len, _) =>
          match s with
          | String _ s' => sub_go r s' len
          | EmptyString => EmptyString
          end
      | _ =>
          match s with
          | String c s' => String c (sub_go r s' 0)
          | EmptyString => EmptyString
          end
      end
  end.

Definition sub (r : regex) (s : string) : string := sub_go r s 0.

(** The literal text [t] as a pattern. *)
Fixpoint lits (t : string) (r : regex) : regex :=
  match t with
  | EmptyString => r
  | String c t' => Seq (Lit c) (lits t' r)
  end.

Definition any_char (c : ascii) : bool := true.
(** [.] without [re.DOTALL] *)
Definition not_newline (c : ascii) : bool := negb (Ascii.eqb c "010").
Definition dot (dotall : bool) : ascii -> bool :=
  if dotall then any_char else not_newline.
(** [[^\]]] *)
Definition not_rbracket (c : ascii) : bool := negb (Ascii.eqb c "]").
(** [[^}]] *)
Definition not_rbrace (c : ascii) : bool := negb (Ascii.eqb c "}").

End Re.

(* ================================================================== *)
(** * [os.path] on POSIX *)
(* ================================================================== *)

Module PosixPath.
Import Py.

(** [s.split(sep)] for a one-character separator. *)
Fixpoint split_on (sep : ascii) (s cur : string) : list string :=
  match s with
  | EmptyString => [cur]
  | String c s' =>
      if Ascii.eqb c sep then cur :: split_on sep s' ""
      else split_on sep s' (cur ++ String c "")
  end.

Definition isabs (s : string) : bool := startswith s "/".

Fixpoint endswith_char (s : string) (c : ascii) : bool :=
  match s with
  | EmptyString => false
  | String d EmptyString => Ascii.eqb d c
  | String _ s' => endswith_char s' c
  end.

(** [os.path.join(a, b)] *)
Definition join (a b : string) : string :=
  if startswith b "/" then b
  else if is_empty a || endswith_char a "/" then a ++ b
  else a ++ "/" ++ b.

Definition is_nil {A : Type} (l : list A) : bool :=
  match l with
  | [] => true
  | _ :: _ => false
  end.

Definition last_is_dotdot (l : list string) : bool :=
  match l with
  | [] => false
  | _ :: _ => String.eqb (last l "") ".."
  end.

(** The loop of [normpath] over the components. *)
Fixpoint norm_comps (initial_slashes : nat) (comps new_comps : list string)
  : list string :=
  match comps with
  | [] => new_comps
  | comp :: rest =>
      if String.eqb comp "" || String.eqb comp "."
      then norm_comps initial_slashes rest new_comps
      else if negb (String.eqb comp "..")
              || (Nat.eqb initial_slashes 0 && is_nil new_comps)
              || last_is_dotdot new_comps
      then norm_comps initial_slashes rest (new_comps ++ [comp])%list
      else norm_comps initial_slashes rest (removelast new_comps)
  end.

Fixpoint repeat_sep (n : nat) : string :=
  match n with
  | O => ""
  | S n' => String "/" (repeat_sep n')
  end.

(** [os.path.normpath(path)] *)
Definition normpath (path : string) : string :=
  if is_empty path then "."
  else
    let initial_slashes :=
      if startswith path "/"
      then (if startswith path "//" && negb (startswith path "///")
            then 2 else 1)
      else 0 in
    let comps := norm_comps initial_slashes (split_on "/" path "") [] in
    let path1 := repeat_sep initial_slashes ++ Py.join "/" comps in
    if is_empty path1 then "." else path1.

(** [os.path.abspath(path)], [cwd] being [os.getcwd()]. *)
Definition abspath (cwd path : string) : string :=
  normpath (if isabs path then path else join cwd path).

(** [path.find("/", 1)], or [len(path)] when there is none. *)
Fixpoint find_sep_from (s : string) (i : nat) : nat :=
  match s with
  | EmptyString => i
  | String c s' => if Ascii.eqb c "/" then i else find_sep_from s' (S i)
  end.

Fixpoint rstrip_sep (s : string) : string :=
  match s with
  | EmptyString => EmptyString
  | String c s' =>
      match rstrip_sep s' with
      | EmptyString =>
          if Ascii.eqb c "/" then EmptyString else String c EmptyString
      | r => String c r
      end
  end.

(** [os.path.expanduser(path)]: [userhome ""] is the home directory of the
    current user ([$HOME], else the password database) and [userhome name]
    the one of user [name]; [None] when the lookup fails. *)
Definition expanduser (userhome : string -> option string) (path : string)
  : string :=
  if negb (startswith path "~") then path
  else
    let i := find_sep_from (drop 1 path) 1 in
    match userhome (take (i - 1) (drop 1 path)) with
    | None => path
    | Some home =>
        let r := rstrip_sep home ++ drop i path in
        if is_empty r then "/" else r
    end.

End PosixPath.

(* ================================================================== *)
(** * The operating system and the operator, as the agents see them *)
(* ================================================================== *)

Module Sys.
Import Py.

(** One entry of the conversation history. *)
Record message : Type := Message { role : string; content : string }.

(** One context saved by the v04 agent. *)
Record context : Type := Context {
  c_history : list message;
  c_current_dir : string;
  c_system_message : string;
  c_timestamp : string
}.

(** The file of the saved contexts: missing, not readable as the mapping
    that [save_context] writes, or holding the contexts by name. *)
Inductive context_file : Type :=
| Missing
| Unreadable
| Stored (contexts : dict context).

(** What the agents read from the file system, and what the processes
    they start may change.  The log file is left out of the model. *)
Record fs_state : Type := FsState {
  isdir : string -> bool;                  (* os.path.isdir *)
  chdir_error : string -> option string;   (* Some msg: os.chdir raises *)
  write_error : string -> option string;   (* Some msg: open(path, 'w') raises *)
  userhome : string -> option string;      (* home directories, see expanduser *)
  entered : string -> string;              (* os.getcwd() once os.chdir(path) is done *)
  context_store : context_file             (* ~/.mistral_agent/context.json *)
}.

(** A yes/no question put to the operator. *)
Inductive question : Type :=
| ConfirmDangerous (command : string)
| RunScriptNow (filepath : string).

(** What a run does to the outside, in the order it happens. *)
Inductive event : Type :=
| Spawn (command cwd : string)        (* subprocess.Popen(command, cwd=cwd) *)
| Probe (command : string)            (* subprocess.run of collect_system_info *)
| Asked (q : question) (answer : bool)
| Chdir (dir : string)
| WriteFile (path content : string)
| Chmod (path : string)
| Tool (name : string) (args : list string).

(** What the agents hand to the console, through [console.print] of rich
    when it is installed and through [print] otherwise, named after the
    place that prints and with the texts that place puts in. *)
Inductive output : Type :=
| Warning (command : string)          (* the lines before the confirmation *)
| CommandReport (command result : string)
| ScriptReport (script_type filepath script_content : string)
| ScriptResult (result : string)
| TemplateReport (template_type result : string)
| QuickReport (cmd_name result : string)
| ToolReport (tool_name result : string)
| Panel (clean_response : string).

(** Outcome of starting a shell command and waiting for it. *)
Inductive proc : Type :=
| Exited (returncode : Z) (stdout stderr : string)
| Failed (msg : string).

(** The collaborators: the operator, whose prompt may raise instead of
    giving an answer (the end of the input; in the v04 agent the markup of
    the question), the console, which shows what it is handed or raises
    (rich reads the texts as markup), the shell, the clock, the built-in
    DevOps tools, and the parts of Python left open ([str.format] on a
    replacement field that is not a plain name, and [repr]).  Every
    property holds whatever they answer. *)
Record env : Type := Env {
  operator : list event -> question -> res bool;
  console : list output -> output -> option exn;
  shell : fs_state -> string -> string -> proc * fs_state;
  clock : list event -> string;
  tool : fs_state -> string -> list string -> string * fs_state;
  format_field : string -> dict string -> res string;
  repr : string -> string
}.

(** Accented letters of the messages, as code points. *)
Definition e_acute : string := String "233" "".
Definition e_grave : string := String "232" "".

(** [str(n)] for an integer. *)
Definition string_of_Z (n : Z) : string :=
  NilZero.string_of_int (Z.to_int n).

(** What the handling of [cd] returns. *)
Definition msg_current_dir (new_dir : string) : string :=
  "R" ++ e_acute ++ "pertoire courant : " ++ new_dir.
Definition msg_no_such_dir (new_dir : string) : string :=
  "Erreur: Le r" ++ e_acute ++ "pertoire " ++ new_dir ++ " n'existe pas.".
Definition msg_chdir_failed (msg : string) : string :=
  "Erreur lors du changement de r" ++ e_acute ++ "pertoire: " ++ msg.

End Sys.

(* ================================================================== *)
(** * [utils/safety.py] *)
(* ================================================================== *)

Module Safety.
Import Py.

Definition DANGEROUS_COMMANDS : list string :=
  ["rm -rf"; "rm -r"; "rmdir"; "mkfs"; "dd"; "shred";
   "fdisk"; "mkfs"; "format"; ">>"; ">"; "truncate";
   "drop database"; "drop table"; "delete from"; "wget"; "curl -O"].

Definition DANGEROUS_OPTIONS : list string :=
  ["--force"; "--no-preserve-root"; "-f"; "--delete"].

Definition system_paths : list string :=
  ["/etc/"; "/var/"; "/boot/"; "/lib/"; "/bin/"; "/sbin/"].

(** The body of the loop of [check_command_safety]: the value of [is_safe]
    when the command is filed. *)
Definition is_safe (command : string) : bool :=
  let is_safe := negb (existsb (fun dangerous => contains dangerous command)
                         DANGEROUS_COMMANDS) in
  let is_safe :=
    if is_safe
    then negb (existsb (fun option => contains option command)
                 DANGEROUS_OPTIONS)
    else is_safe in
  let is_safe :=
    if is_safe && (contains ">" command || contains ">>" command)
    then negb (existsb (fun path => contains path command) system_paths)
    else is_safe in
  is_safe.

(** [check_command_safety(commands)] returns [(safe_commands,
    unsafe_commands)]. *)
Fixpoint check_command_safety (commands : list string)
  : list string * list string :=
  match commands with
  | [] => ([], [])
  | command :: rest =>
      let (safe_commands, unsafe_commands) := check_command_safety rest in
      if is_safe command
      then (command :: safe_commands, unsafe_commands)
      else (safe_commands, command :: unsafe_commands)
  end.

End Safety.

(* ================================================================== *)
(** * [context_manager.py] *)
(* ================================================================== *)

Module ContextManager.
Import Py.

Record message : Type := Message {
  role : string;
  content : string;
  timestamp : string
}.

(** [add_message(role, content)] on [self.messages], [history_size] being
    the configured bound and [now] the time of the call. *)
Definition add_message (history_size : nat) (messages : list message)
  (role content now : string) : list message :=
  let messages := (messages ++ [Message role content now])%list in
  if Nat.ltb history_size (List.length messages)
  then last_n history_size messages
  else messages.

(** A run of [add_message] calls, oldest first. *)
Fixpoint add_messages (history_size : nat) (messages : list message)
  (new : list message) : list message :=
  match new with
  | [] => messages
  | m :: rest =>
      add_messages history_size
        (add_message history_size messages (role m) (content m) (timestamp m))
        rest
  end.

End ContextManager.

(* ================================================================== *)
(** * [mistral_api_agent_v05/mistral_agent.py] *)
(* ================================================================== *)

Module V05.
Import Py Sys.

Definition MAX_HISTORY_ENTRIES : nat := 20.

Definition DANGEROUS_COMMANDS : list string :=
  ["rm"; "mv"; "dd"; "mkfs"; "fdisk"; ">"; "2>"; "truncate"; "rmdir";
   "pkill"; "kill"; "shutdown"; "reboot"; "halt"; "systemctl stop";
   "systemctl restart"; "chown"; "chmod"; "userdel"; "groupdel"; "deluser";
   "passwd"; "parted"; "lvremove"; "vgremove"; "pvremove"; "iptables -F";
   "ufw disable"].

Definition SCRIPT_EXTENSIONS : dict string :=
  [("python", ".py"); ("bash", ".sh"); ("shell", ".sh"); ("yaml", ".yaml");
   ("yml", ".yml"); ("docker", ".dockerfile");
   ("dockerfile", ".dockerfile"); ("terraform", ".tf"); ("json", ".json");
   ("js", ".js"); ("ansible", ".yml"); ("php", ".php"); ("ruby", ".rb");
   ("go", ".go"); ("java", ".java"); ("c", ".c"); ("cpp", ".cpp");
   ("csharp", ".cs"); ("sql", ".sql"); ("kubernetes", ".yaml");
   ("k8s", ".yaml"); ("helm", ".yaml"); ("nginx", ".conf");
   ("apache", ".conf"); ("systemd", ".service"); ("prometheus", ".yml");
   ("grafana", ".json"); ("jenkins", "Jenkinsfile");
   ("gitlab-ci", ".gitlab-ci.yml"); ("github-workflow", ".yml")].

Definition QUICK_COMMANDS : dict string :=
  [("service-status", "systemctl status {service}");
   ("service-start", "systemctl start {service}");
   ("service-stop", "systemctl stop {service}");
   ("service-restart", "systemctl restart {service}");
   ("service-enable", "systemctl enable {service}");
   ("service-disable", "systemctl disable {service}");
   ("service-list", "systemctl list-units --type=service");
   ("cpu-info", "lscpu");
   ("mem-info", "free -h");
   ("disk-usage", "df -h");
   ("top-processes", "ps aux | sort -nrk 3,3 | head -n 10");
   ("check-port", "ss -tuln | grep {port}");
   ("cpu-load", "mpstat 1 5");
   ("io-stats", "iostat -xz 1 5");
   ("ping-host", "ping -c 4 {host}");
   ("check-ip", "ip addr show");
   ("route-table", "ip route");
   ("dns-lookup", "dig {domain}");
   ("open-ports", "netstat -tuln");
   ("traceroute", "traceroute {host}");
   ("docker-ps", "docker ps");
   ("docker-images", "docker images");
   ("docker-stats", "docker stats --no-stream");
   ("docker-prune", "docker system prune -f");
   ("k8s-pods", "kubectl get pods");
   ("k8s-nodes", "kubectl get nodes");
   ("k8s-deployments", "kubectl get deployments");
   ("k8s-services", "kubectl get services");
   ("logs-system", "journalctl -xe");
   ("logs-service", "journalctl -u {service} -f");
   ("logs-auth", "tail -n 50 /var/log/auth.log");
   ("logs-kernel", "dmesg | tail -n 50");
   ("apt-update", "sudo apt update && sudo apt list --upgradable");
   ("apt-upgrade", "sudo apt upgrade -y");
   ("pkg-installed", "dpkg -l | grep {package}");
   ("find-large-files",
    "find {path} -type f -size +{size}M -exec ls -lh {} \;");
   ("tail-file", "tail -f {file}");
   ("find-modified", "find {path} -type f -mtime -{days} -ls");
   ("git-status", "git status");
   ("git-log", "git log --oneline --graph --decorate -n 10")].

Definition SYSTEM_INFO_COMMANDS : dict string :=
  [("os-version", "cat /etc/os-release");
   ("kernel-version", "uname -a");
   ("hostname", "hostname -f");
   ("uptime", "uptime");
   ("cpu-model",
    "cat /proc/cpuinfo | grep 'model name' | head -n 1 | cut -d ':' -f 2 | xargs");
   ("total-memory", "free -h | grep Mem | awk '{print $2}'");
   ("used-memory", "free -h | grep Mem | awk '{print $3}'");
   ("disk-usage-root", "df -h / | tail -n 1 | awk '{print $5}'");
   ("load-average", "cat /proc/loadavg | awk '{print $1, $2, $3}'");
   ("users-logged-in", "who | wc -l");
   ("process-count", "ps aux | wc -l");
   ("network-interfaces", "ip -br addr show")].

(** One entry of [config['command_history']]. *)
Record history_entry : Type := HistoryEntry {
  h_command : string;
  h_timestamp : string;
  h_directory : string
}.

(** The keys of [self.config] that the execution core reads or writes;
    [aliases] and [custom_commands] are read with [.get(key, {})], so a
    missing key and an empty mapping are the same. *)
Record config : Type := Config {
  custom_commands : dict string;
  aliases : dict string;
  command_history : option (list history_entry)
}.

Record agent : Type := Agent {
  config_file : string;          (* the path of the configuration file *)
  cfg : config;                  (* self.config *)
  current_dir : string;
  system_info : dict string;
  conversation_history : list message;
  system_message : string
}.

(** The operating system, the configuration file as last written, what
    has happened so far and what the console has shown. *)
Record world : Type := World {
  fs : fs_state;
  getcwd : string;                 (* os.getcwd() *)
  stored_config : option config;
  trace : list event;
  screen : list output
}.

Definition set_cfg (a : agent) (c : config) : agent :=
  Agent (config_file a) c (current_dir a) (system_info a)
    (conversation_history a) (system_message a).
Definition set_current_dir (a : agent) (d : string) : agent :=
  Agent (config_file a) (cfg a) d (system_info a) (conversation_history a)
    (system_message a).
Definition set_system_info (a : agent) (i : dict string) : agent :=
  Agent (config_file a) (cfg a) (current_dir a) i (conversation_history a)
    (system_message a).
Definition set_conversation_history (a : agent) (h : list message) : agent :=
  Agent (config_file a) (cfg a) (current_dir a) (system_info a) h
    (system_message a).

Definition set_fs (w : world) (f : fs_state) : world :=
  World f (getcwd w) (stored_config w) (trace w) (screen w).
Definition set_getcwd (w : world) (d : string) : world :=
  World (fs w) d (stored_config w) (trace w) (screen w).
Definition set_stored_config (w : world) (c : option config) : world :=
  World (fs w) (getcwd w) c (trace w) (screen w).
Definition emit (w : world) (e : event) : world :=
  World (fs w) (getcwd w) (stored_config w) (trace w ++ [e])%list (screen w).
Definition shown (w : world) (o : output) : world :=
  World (fs w) (getcwd w) (stored_config w) (trace w) (screen w ++ [o])%list.

Section Agent.
Variable E : env.

(** The console is handed [o]: it shows it, or the call raises. *)
Definition show (w : world) (o : output) : option exn * world :=
  match console E (screen w) o with
  | Some e => (Some e, w)
  | None => (None, shown w o)
  end.

(** The operator is asked [q]: the answer, or the exception that the
    prompt raises. *)
Definition ask (w : world) (q : question) : res bool * world :=
  match operator E (trace w) q with
  | Raise e => (Raise e, w)
  | Ret answer => (Ret answer, emit w (Asked q answer))
  end.

(** [save_config]: a failed write is logged and ignored. *)
Definition save_config (a : agent) (w : world) : world :=
  match write_error (fs w) (config_file a) with
  | None => set_stored_config w (Some (cfg a))
  | Some _ => w
  end.

(** [collect_system_info]: every command of [SYSTEM_INFO_COMMANDS] is run
    in the process's directory. *)
Fixpoint collect_loop (cmds : dict string) (a : agent) (w : world)
  : agent * world :=
  match cmds with
  | [] => (a, w)
  | (key, command) :: rest =>
      let w1 := emit w (Probe command) in
      let (p, o) := shell E (fs w) command (getcwd w) in
      let value :=
        match p with
        | Exited 0%Z stdout _ => strip stdout
        | Exited _ _ _ => "Non disponible"
        | Failed _ => "Erreur"
        end in
      collect_loop rest (set_system_info a (dict_set (system_info a) key value))
        (set_fs w1 o)
  end.

Definition collect_system_info (a : agent) (w : world) : agent * world :=
  collect_loop SYSTEM_INFO_COMMANDS a w.

(** [is_dangerous_command(command)] *)
Definition is_dangerous_command (command : string) : res bool :=
  bind (Shlex.split command) (fun command_parts =>
  match command_parts with
  | [] => Ret false
  | base_cmd :: _ =>
      if mem base_cmd DANGEROUS_COMMANDS then Ret true
      else if contains ">" command
              || (contains "|" command
                  && (contains "rm" command || contains "mv" command))
      then Ret true
      else if String.eqb base_cmd "rm" && mem "-rf" command_parts
      then Ret true
      else Ret false
  end).

(** The loop over [config.get("aliases", {}).items()]: the first alias that
    the command is, or starts with followed by a space, is replaced once. *)
Fixpoint expand_alias (al : dict string) (command : string) : string :=
  match al with
  | [] => command
  | (alias, cmd) :: rest =>
      if String.eqb (strip command) alias
         || startswith (strip command) (alias ++ " ")
      then replace_first alias cmd command
      else expand_alias rest command
  end.

(** The directory a [cd] command leads to: [new_dir] once resolved. *)
Definition cd_target (a : agent) (w : world) (command : string) : string :=
  let target_dir := strip (drop 3 (strip command)) in
  let new_dir :=
    if startswith target_dir "/" then target_dir
    else PosixPath.join (current_dir a) target_dir in
  PosixPath.abspath (getcwd w) new_dir.

(** The special handling of [cd], entered when the stripped command starts
    with [cd] and a space. *)
Definition change_directory (a : agent) (w : world) (command : string)
  : string * agent * world :=
  let new_dir := cd_target a w command in
  if isdir (fs w) new_dir
  then
    match chdir_error (fs w) new_dir with
    | Some msg => (msg_chdir_failed msg, a, w)
    | None =>
        let w1 :=
          emit (set_getcwd w (entered (fs w) new_dir)) (Chdir new_dir) in
        let a1 := set_current_dir a new_dir in
        let (a2, w2) := collect_system_info a1 w1 in
        (msg_current_dir new_dir, a2, w2)
    end
  else (msg_no_such_dir new_dir, a, w).

(** The entry added to [config['command_history']], the list being cut
    to its last 100 entries, and the configuration saved. *)
Definition record_command (a : agent) (w : world) (command : string)
  : agent * world :=
  if negb (mem command ["pwd"; "clear"]) && negb (startswith command "ls")
  then
    let h := match command_history (cfg a) with
             | None => []
             | Some h => h
             end in
    let h := (h ++ [HistoryEntry command (clock E (trace w)) (current_dir a)])%list in
    let h := if Nat.ltb 100 (List.length h) then last_n 100 h else h in
    let a1 := set_cfg a (Config (custom_commands (cfg a)) (aliases (cfg a))
                           (Some h)) in
    (a1, save_config a1 w)
  else (a, w).

Definition refresh_words : list string :=
  ["apt"; "yum"; "dnf"; "systemctl"; "docker"; "kubectl"].

(** The process started for [command] in [current_dir] and what is made of
    its outcome. *)
Definition run_process (a : agent) (w : world) (command : string)
  : string * agent * world :=
  let w1 := emit w (Spawn command (current_dir a)) in
  let (p, o) := shell E (fs w) command (current_dir a) in
  let w2 := set_fs w1 o in
  match p with
  | Failed msg => ("Erreur: " ++ msg, a, w2)
  | Exited returncode stdout stderr =>
      if negb (Z.eqb returncode 0)
      then ("Erreur (code " ++ string_of_Z returncode ++ "):"
              ++ String "010" "" ++ stderr, a, w2)
      else if existsb (fun cmd => contains cmd command) refresh_words
      then let (a3, w3) := collect_system_info a w2 in (stdout, a3, w3)
      else (stdout, a, w2)
  end.

Definition cancelled : string :=
  "Commande annul" ++ e_acute ++ "e par l'utilisateur.".

(** The warning and the question about a dangerous command, neither of
    them inside a [try]: the answer of the operator, or the exception that
    the console or the prompt raises. *)
Definition confirm_dangerous (w : world) (command : string)
  : res bool * world :=
  match show w (Warning command) with
  | (Some e, w1) => (Raise e, w1)
  | (None, w1) => ask w1 (ConfirmDangerous command)
  end.

(** [execute_command(command)]: the result (or the exception that leaves
    the method), the agent and the world afterwards. *)
Definition execute_command (a : agent) (w : world) (command : string)
  : res string * agent * world :=
  let command := expand_alias (aliases (cfg a)) command in
  if startswith (strip command) "cd "
  then let '(r, a1, w1) := change_directory a w command in (Ret r, a1, w1)
  else
    let (a1, w1) := record_command a w command in
    match is_dangerous_command command with
    | Raise e => (Raise e, a1, w1)
    | Ret dangerous =>
        if dangerous
        then
          match confirm_dangerous w1 command with
          | (Raise e, w2) => (Raise e, a1, w2)
          | (Ret confirm, w2) =>
              if confirm
              then let '(r, a3, w3) := run_process a1 w2 command in
                   (Ret r, a3, w3)
              else (Ret cancelled, a1, w2)
          end
        else let '(r, a3, w3) := run_process a1 w1 command in (Ret r, a3, w3)
    end.


(** ** Quick commands *)

(** [str.format] with keyword arguments [params], read character by character: in the text, just
    after an opening or a closing brace, or inside a replacement field. *)
Inductive format_state : Type :=
| InText
| AfterOpen
| AfterClose
| InField (name : string).

Definition field_special (c : ascii) : bool :=
  Ascii.eqb c ":" || Ascii.eqb c "!" || Ascii.eqb c "[" || Ascii.eqb c ".".

Fixpoint all_digits (s : string) : bool :=
  match s with
  | EmptyString => true
  | String c s' => isdigit c && all_digits s'
  end.

Definition cons_res (c : ascii) (r : res string) : res string :=
  bind r (fun t => Ret (String c t)).

Fixpoint format_go (params : dict string) (st : format_state) (s : string)
  : res string :=
  match s with
  | EmptyString =>
      match st with
      | InText => Ret ""
      | AfterOpen =>
          Raise (ValueError "Single '{' encountered in format string")
      | AfterClose =>
          Raise (ValueError "Single '}' encountered in format string")
      | InField _ => Raise (ValueError "expected '}' before end of string")
      end
  | String c s' =>
      match st with
      | InText =>
          if Ascii.eqb c "{" then format_go params AfterOpen s'
          else if Ascii.eqb c "}" then format_go params AfterClose s'
          else cons_res c (format_go params InText s')
      | AfterClose =>
          if Ascii.eqb c "}" then cons_res "}" (format_go params InText s')
          else Raise (ValueError "Single '}' encountered in format string")
      | AfterOpen =>
          if Ascii.eqb c "{" then cons_res "{" (format_go params InText s')
          else if Ascii.eqb c "}"
          then Raise (IndexError
                 "Replacement index 0 out of range for positional args tuple")
          else if field_special c then format_field E s params
          else format_go params (InField (String c "")) s'
      | InField name =>
          if Ascii.eqb c "}"
          then if all_digits name
               then format_field E (name ++ s) params
               else match dict_get params name with
                    | None => Raise (KeyError name)
                    | Some v =>
                        bind (format_go params InText s')
                          (fun t => Ret (v ++ t))
                    end
          else if Ascii.eqb c "{"
          then Raise (ValueError "unexpected '{' in field name")
          else if field_special c then format_field E (name ++ s) params
          else format_go params (InField (name ++ String c "")) s'
      end
  end.

(** [template.format] with the keyword arguments [params] *)
Definition format (template : string) (params : dict string) : res string :=
  format_go params InText template.

(** [r'\{([^}]+)\}'] *)
Definition param_pattern : Re.regex :=
  Re.Seq (Re.Lit "{") (Re.Seq (Re.Group 1 (Re.Plus Re.not_rbrace)) (Re.Lit "}")).

(** [params[name] = args[i]] for each name in turn. *)
Fixpoint bind_params (param_names args : list string) (params : dict string)
  : dict string :=
  match param_names, args with
  | name :: names, arg :: args' => bind_params names args' (dict_set params name arg)
  | _, _ => params
  end.

Fixpoint insert_sorted (x : string) (l : list string) : list string :=
  match l with
  | [] => [x]
  | y :: l' => if String.leb x y then x :: l else y :: insert_sorted x l'
  end.

(** [sorted(l)] for a list of strings. *)
Definition sorted (l : list string) : list string :=
  fold_right insert_sorted [] l.

Definition keys {V : Type} (d : dict V) : list string := map fst d.

(** What [execute_quick_command] hands to [execute_command], or the message
    it returns instead, or the exception that leaves it. *)
Inductive resolution : Type :=
| Resolved (cmd : string)
| Refused (message : string)
| Raised (e : exn).

(** The message returned when there are fewer arguments than parameters. *)
Definition msg_missing_parameters (cmd_name : string)
  (param_names : list string) : string :=
  "Erreur: La commande '" ++ cmd_name ++ "' n" ++ e_acute
    ++ "cessite les param" ++ e_grave ++ "tres suivants: "
    ++ join ", " param_names.

(** The template found for a name: the operator's own commands come
    before the built-in ones. *)
Definition lookup_template (a : agent) (cmd_name : string) : option string :=
  match dict_get (custom_commands (cfg a)) cmd_name with
  | Some t => Some t
  | None => dict_get QUICK_COMMANDS cmd_name
  end.

(** The replacement of the parameters in the template. *)
Definition expand_template (cmd_name cmd_template : string)
  (args : list string) : resolution :=
  if contains "{" cmd_template && contains "}" cmd_template
  then
    let param_names := Re.findall param_pattern cmd_template in
    if Nat.ltb (List.length args) (List.length param_names)
    then Refused (msg_missing_parameters cmd_name param_names)
    else
      match format cmd_template (bind_params param_names args []) with
      | Ret cmd => Resolved cmd
      | Raise (KeyError k) =>
          Refused ("Erreur: Param" ++ e_grave ++ "tre manquant: " ++ repr E k)
      | Raise e => Raised e
      end
  else Resolved cmd_template.

Definition resolve (a : agent) (cmd_name : string) (args : list string)
  : resolution :=
  match lookup_template a cmd_name with
  | None =>
      Refused ("Erreur: Commande '" ++ cmd_name
                 ++ "' non disponible. Commandes disponibles: "
                 ++ join ", "
                      (sorted (keys QUICK_COMMANDS
                               ++ keys (custom_commands (cfg a)))%list))
  | Some cmd_template => expand_template cmd_name cmd_template args
  end.

(** [execute_quick_command(cmd_name, args...)] *)
Definition execute_quick_command (a : agent) (w : world) (cmd_name : string)
  (args : list string) : res string * agent * world :=
  match resolve a cmd_name args with
  | Resolved cmd => execute_command a w cmd
  | Refused message => (Ret message, a, w)
  | Raised e => (Raise e, a, w)
  end.


(** ** Scripts, file models and tools *)

(** The table [TEMPLATES] of file models and the directory [SCRIPTS_DIR]
    ([~/tech/scripts], expanded when the module is loaded). *)
Variable TEMPLATES : dict string.
Variable SCRIPTS_DIR : string.

Definition lower_char (c : ascii) : ascii :=
  if in_range 65 90 c || in_range 192 214 c || in_range 216 222 c
  then chr (ord c + 32) else c.

(** [s.lower()] *)
Fixpoint lower (s : string) : string :=
  match s with
  | EmptyString => EmptyString
  | String c s' => String (lower_char c) (lower s')
  end.

Definition executable_kinds : list string :=
  ["bash"; "shell"; "python"; "sh"; "py"].

(** The extension added to a file name that has no dot. *)
Definition with_extension (kind filename : string) : string :=
  if negb (contains "." filename)
  then match dict_get SCRIPT_EXTENSIONS kind with
       | Some ext => filename ++ ext
       | None => filename
       end
  else filename.

(** [save_script(script_type, filename, content)]: the path written, or
    the message of the failure. *)
Definition save_script (w : world) (script_type filename content : string)
  : string * world :=
  let filename := with_extension (lower script_type) filename in
  let filepath := PosixPath.join SCRIPTS_DIR filename in
  match write_error (fs w) filepath with
  | Some msg => ("Erreur lors de la sauvegarde: " ++ msg, w)
  | None =>
      let w1 := emit w (WriteFile filepath content) in
      if mem (lower script_type) executable_kinds
      then (filepath, emit w1 (Chmod filepath))
      else (filepath, w1)
  end.

(** [create_from_template(template_type, filename)] *)
Definition create_from_template (a : agent) (w : world)
  (template_type filename : string) : string * world :=
  let template_type := lower template_type in
  match dict_get TEMPLATES template_type with
  | None =>
      ("Erreur: Mod" ++ e_grave ++ "le '" ++ template_type
         ++ "' non disponible. Templates disponibles: "
         ++ join ", " (keys TEMPLATES), w)
  | Some text =>
      let filename := with_extension template_type filename in
      let filepath := PosixPath.join (current_dir a) filename in
      match write_error (fs w) filepath with
      | Some msg => ("Erreur lors de la cr" ++ e_acute ++ "ation: " ++ msg, w)
      | None =>
          ("Fichier cr" ++ e_acute ++ e_acute ++ " " ++ String "224" ""
             ++ " partir du mod" ++ e_grave ++ "le " ++ template_type ++ ": "
             ++ filepath,
           emit w (WriteFile filepath text))
      end
  end.

(** [execute_devops_tool(tool_name, *args)]: the built-in tools are
    collaborators; the call is recorded and their answer returned. *)
Definition execute_devops_tool (w : world) (tool_name : string)
  (args : list string) : string * world :=
  let (r, o) := tool E (fs w) tool_name args in
  (r, set_fs (emit w (Tool tool_name args)) o).

(** ** The conversation history *)

(** The answer of the model endpoint to one request. *)
Inductive api_reply : Type :=
| ApiOk (assistant_message : string)
| ApiStatus (status_code : Z) (text : string)
| ApiException (msg : string).

(** [call_mistral_api(user_message)], the answer of the endpoint being
    [reply]. *)
Definition call_mistral_api (a : agent) (user_message : string)
  (reply : api_reply) : string * agent :=
  match reply with
  | ApiOk assistant_message =>
      let h := (conversation_history a
                  ++ [Message "user" user_message;
                      Message "assistant" assistant_message])%list in
      let h := if Nat.ltb (MAX_HISTORY_ENTRIES * 2) (List.length h)
               then last_n (MAX_HISTORY_ENTRIES * 2) h else h in
      (assistant_message, set_conversation_history a h)
  | ApiStatus status_code text =>
      ("Erreur lors de l'appel " ++ String "224" "" ++ " l'API Mistral: "
         ++ "Erreur API (" ++ string_of_Z status_code ++ "): " ++ text, a)
  | ApiException msg =>
      ("Erreur de connexion " ++ String "224" "" ++ " l'API Mistral: " ++ msg, a)
  end.

(** ** The response of the model *)

(** [r"\[EXEC\](.*?)\[\/EXEC\]"]; [dotall] is the flag [re.DOTALL]. *)
Definition exec_pattern (dotall : bool) : Re.regex :=
  Re.lits "[EXEC]"
    (Re.Seq (Re.Group 1 (Re.LazyStar (Re.dot dotall)))
       (Re.lits "[/EXEC" (Re.Lit "]"))).

(** [r"\[SCRIPT\s+(\w+)\s+([^\]]+)\](.*?)\[\/SCRIPT\]"] *)
Definition script_pattern (dotall : bool) : Re.regex :=
  Re.lits "[SCRIPT"
    (Re.Seq (Re.Plus isspace)
    (Re.Seq (Re.Group 1 (Re.Plus isword))
    (Re.Seq (Re.Plus isspace)
    (Re.Seq (Re.Group 2 (Re.Plus Re.not_rbracket))
    (Re.Seq (Re.Lit "]")
    (Re.Seq (Re.Group 3 (Re.LazyStar (Re.dot dotall)))
       (Re.lits "[/SCRIPT" (Re.Lit "]")))))))).

(** [r"\[TEMPLATE\s+(\w+)\s+([^\]]+)\]"] *)
Definition template_pattern : Re.regex :=
  Re.lits "[TEMPLATE"
    (Re.Seq (Re.Plus isspace)
    (Re.Seq (Re.Group 1 (Re.Plus isword))
    (Re.Seq (Re.Plus isspace)
    (Re.Seq (Re.Group 2 (Re.Plus Re.not_rbracket))
       (Re.Lit "]"))))).

(** [\[KEYWORD\s+(\w+)(?:\s+([^\]]+))?\]] *)
Definition call_pattern (keyword : string) : Re.regex :=
  Re.lits keyword
    (Re.Seq (Re.Plus isspace)
    (Re.Seq (Re.Group 1 (Re.Plus isword))
    (Re.Seq (Re.Opt (Re.Seq (Re.Plus isspace)
                       (Re.Group 2 (Re.Plus Re.not_rbracket))))
       (Re.Lit "]")))).

(** [r"\[QUICKCMD\s+(\w+)(?:\s+([^\]]+))?\]"] *)
Definition quickcmd_pattern : Re.regex := call_pattern "[QUICKCMD".

(** [r"\[DEVOPS\s+(\w+)(?:\s+([^\]]+))?\]"] *)
Definition devops_pattern : Re.regex := call_pattern "[DEVOPS".

(** [match.group(n)], the empty text standing for a group that took no
    part in the match. *)
Definition grp (m : Re.mtch) (n : nat) : string :=
  match Re.group (Re.m_groups m) n with
  | Some s => s
  | None => ""
  end.

(** [match.group(2).strip().split() if match.group(2) else []] *)
Definition call_args (m : Re.mtch) : list string :=
  match Re.group (Re.m_groups m) 2 with
  | Some s => if is_empty s then [] else split (strip s)
  | None => []
  end.

(** What the body of one of the loops of [process_response] is called on. *)
Inductive directive : Type :=
| Exec (command : string)
| Script (script_type script_name script_content : string)
| Template (template_type filename : string)
| QuickCmd (cmd_name : string) (args : list string)
| DevOps (tool_name : string) (args : list string).

Definition exec_directives (response : string) : list directive :=
  map (fun m => Exec (strip (grp m 1)))
    (Re.finditer (exec_pattern true) response).

Definition script_directives (response : string) : list directive :=
  map (fun m => Script (strip (grp m 1)) (strip (grp m 2)) (strip (grp m 3)))
    (Re.finditer (script_pattern true) response).

Definition template_directives (response : string) : list directive :=
  map (fun m => Template (strip (grp m 1)) (strip (grp m 2)))
    (Re.finditer template_pattern response).

Definition quickcmd_directives (response : string) : list directive :=
  map (fun m => QuickCmd (strip (grp m 1)) (call_args m))
    (Re.finditer quickcmd_pattern response).

Definition devops_directives (response : string) : list directive :=
  map (fun m => DevOps (strip (grp m 1)) (call_args m))
    (Re.finditer devops_pattern response).

(** [result = call(...)], then the lines that show it: what the call
    raises leaves the loop, and so does what the console raises. *)
Definition reported (x : res string * agent * world)
  (report : string -> output) : res string * agent * world :=
  match x with
  | (Raise e, a1, w1) => (Raise e, a1, w1)
  | (Ret result, a1, w1) =>
      match show w1 (report result) with
      | (Some e, w2) => (Raise e, a1, w2)
      | (None, w2) => (Ret result, a1, w2)
      end
  end.

(** The body of the loop of each family: the call and what is shown of
    it.  The script is shown once saved; the operator is asked about a
    script of an executable kind, and the result of its run is shown. *)
Definition run_directive (a : agent) (w : world) (d : directive)
  : res string * agent * world :=
  match d with
  | Exec command =>
      reported (execute_command a w command) (CommandReport command)
  | Script script_type script_name script_content =>
      let (filepath, w1) :=
        save_script w script_type script_name script_content in
      match show w1 (ScriptReport script_type filepath script_content) with
      | (Some e, w2) => (Raise e, a, w2)
      | (None, w2) =>
          if mem (lower script_type) executable_kinds
          then
            match ask w2 (RunScriptNow filepath) with
            | (Raise e, w3) => (Raise e, a, w3)
            | (Ret run, w3) =>
                if run
                then
                  let cmd := if mem (lower script_type) ["python"; "py"]
                             then "python3 " ++ filepath else filepath in
                  reported (execute_command a w3 cmd) ScriptResult
                else (Ret filepath, a, w3)
            end
          else (Ret filepath, a, w2)
      end
  | Template template_type filename =>
      let (r, w1) := create_from_template a w template_type filename in
      reported (Ret r, a, w1) (TemplateReport template_type)
  | QuickCmd cmd_name args =>
      reported (execute_quick_command a w cmd_name args) (QuickReport cmd_name)
  | DevOps tool_name args =>
      let (r, w1) := execute_devops_tool w tool_name args in
      reported (Ret r, a, w1) (ToolReport tool_name)
  end.

(** One [for] loop: the bodies in turn, until one raises. *)
Fixpoint for_each (ds : list directive) (a : agent) (w : world)
  : option exn * agent * world :=
  match ds with
  | [] => (None, a, w)
  | d :: rest =>
      match run_directive a w d with
      | (Raise e, a1, w1) => (Some e, a1, w1)
      | (Ret _, a1, w1) => for_each rest a1 w1
      end
  end.

(** The text shown to the operator: [re.sub] of each pattern in turn,
    without [re.DOTALL], then [strip]. *)
Definition clean_response (response : string) : string :=
  let clean_response := Re.sub (exec_pattern false) response in
  let clean_response := Re.sub (script_pattern false) clean_response in
  let clean_response := Re.sub template_pattern clean_response in
  let clean_response := Re.sub quickcmd_pattern clean_response in
  let clean_response := Re.sub devops_pattern clean_response in
  strip clean_response.

(** The end of [process_response]: the text left is shown in a panel,
    unless it is empty. *)
Definition show_prose (a : agent) (w : world) (response : string)
  : option exn * agent * world :=
  if is_empty (clean_response response) then (None, a, w)
  else let (r, w1) := show w (Panel (clean_response response)) in (r, a, w1).

(** [process_response(response)]: the five loops one after the other, then
    the text shown.  The method returns nothing: the outcome is the
    exception that leaves it, if any. *)
Definition process_response (a : agent) (w : world) (response : string)
  : option exn * agent * world :=
  match for_each (exec_directives response) a w with
  | (Some e, a1, w1) => (Some e, a1, w1)
  | (None, a1, w1) =>
  match for_each (script_directives response) a1 w1 with
  | (Some e, a2, w2) => (Some e, a2, w2)
  | (None, a2, w2) =>
  match for_each (template_directives response) a2 w2 with
  | (Some e, a3, w3) => (Some e, a3, w3)
  | (None, a3, w3) =>
  match for_each (quickcmd_directives response) a3 w3 with
  | (Some e, a4, w4) => (Some e, a4, w4)
  | (None, a4, w4) =>
  match for_each (devops_directives response) a4 w4 with
  | (Some e, a5, w5) => (Some e, a5, w5)
  | (None, a5, w5) => show_prose a5 w5 response
  end end end end end.

(** The calls of [process_response] in the order it makes them. *)
Definition directives (response : string) : list directive :=
  (exec_directives response ++ script_directives response
   ++ template_directives response ++ quickcmd_directives response
   ++ devops_directives response)%list.

End Agent.
End V05.

(* ================================================================== *)
(** * [mistral_api_agent_v04/mistral_agent.py] *)
(* ================================================================== *)

Module V04.
Import Py Sys.

Definition MAX_HISTORY_ENTRIES : nat := 50.

Definition DANGEROUS_COMMANDS : list string :=
  ["rm"; "mv"; "dd"; "mkfs"; "fdisk"; ">"; "2>"; "truncate"; "rmdir";
   "pkill"; "kill"; ":(){:|:&};:"].

(** The keys of [self.config] that the execution core reads. *)
Record config : Type := Config {
  max_history : nat;
  dangerous_commands : list string
}.

Record agent : Type := Agent {
  cfg : config;
  aliases : dict string;
  current_dir : string;
  conversation_history : list message;
  system_message : string
}.

(** The operating system, what has happened so far and what the console
    has shown. *)
Record world : Type := World {
  fs : fs_state;
  getcwd : string;                 (* os.getcwd() *)
  trace : list event;
  screen : list output
}.

(** The file [CONTEXT_FILE] as it is on the disk. *)
Definition contexts (w : world) : context_file := context_store (fs w).


Definition set_current_dir (a : agent) (d : string) : agent :=
  Agent (cfg a) (aliases a) d (conversation_history a) (system_message a).
Definition set_conversation_history (a : agent) (h : list message) : agent :=
  Agent (cfg a) (aliases a) (current_dir a) h (system_message a).

Definition set_fs (w : world) (f : fs_state) : world :=
  World f (getcwd w) (trace w) (screen w).
Definition set_getcwd (w : world) (d : string) : world :=
  World (fs w) d (trace w) (screen w).
Definition emit (w : world) (e : event) : world :=
  World (fs w) (getcwd w) (trace w ++ [e])%list (screen w).
Definition shown (w : world) (o : output) : world :=
  World (fs w) (getcwd w) (trace w) (screen w ++ [o])%list.

Section Agent.
Variable E : env.

(** The console is handed [o]: it shows it, or the call raises. *)
Definition show (w : world) (o : output) : option exn * world :=
  match console E (screen w) o with
  | Some e => (Some e, w)
  | None => (None, shown w o)
  end.

(** The operator is asked [q]: the answer, or the exception that the
    prompt raises. *)
Definition ask (w : world) (q : question) : res bool * world :=
  match operator E (trace w) q with
  | Raise e => (Raise e, w)
  | Ret answer => (Ret answer, emit w (Asked q answer))
  end.

(** [is_dangerous_command(command)] *)
Definition is_dangerous_command (a : agent) (command : string) : res bool :=
  bind (if is_empty command then Ret [] else Shlex.split command)
    (fun command_parts =>
  match command_parts with
  | [] => Ret false
  | base_cmd :: _ =>
      if mem base_cmd (dangerous_commands (cfg a)) then Ret true
      else if contains ">" command
              || (contains "|" command
                  && (contains "rm" command || contains "mv" command))
      then Ret true
      else if String.eqb base_cmd "rm"
              && (mem "-rf" command_parts || mem "-fr" command_parts)
      then Ret true
      else Ret false
  end).

(** The first word of the command replaced by the alias it names;
    [command.strip().split()[0]] raises on a blank command. *)
Definition expand_alias (a : agent) (command : string) : res string :=
  match split (strip command) with
  | [] => Raise (IndexError "list index out of range")
  | alias_name :: _ =>
      match dict_get (aliases a) alias_name with
      | Some alias_value => Ret (replace_first alias_name alias_value command)
      | None => Ret command
      end
  end.

(** The directory a [cd] command leads to: [new_dir] once resolved. *)
Definition cd_target (a : agent) (w : world) (command : string) : string :=
  let target_dir := strip (drop 3 (strip command)) in
  let new_dir :=
    if startswith target_dir "/" then target_dir
    else if startswith target_dir "~"
    then PosixPath.expanduser (userhome (fs w)) target_dir
    else PosixPath.join (current_dir a) target_dir in
  PosixPath.abspath (getcwd w) new_dir.

(** The special handling of [cd]. *)
Definition change_directory (a : agent) (w : world) (command : string)
  : string * agent * world :=
  let new_dir := cd_target a w command in
  if isdir (fs w) new_dir
  then
    match chdir_error (fs w) new_dir with
    | Some msg => (msg_chdir_failed msg, a, w)
    | None =>
        (msg_current_dir new_dir,
         set_current_dir a new_dir,
         emit (set_getcwd w (entered (fs w) new_dir)) (Chdir new_dir))
    end
  else (msg_no_such_dir new_dir, a, w).

Definition run_process (a : agent) (w : world) (command : string)
  : string * agent * world :=
  let w1 := emit w (Spawn command (current_dir a)) in
  let (p, o) := shell E (fs w) command (current_dir a) in
  let w2 := set_fs w1 o in
  match p with
  | Failed msg => ("Erreur: " ++ msg, a, w2)
  | Exited returncode stdout stderr =>
      if negb (Z.eqb returncode 0)
      then ("Erreur (code " ++ string_of_Z returncode ++ "):"
              ++ String "010" "" ++ stderr, a, w2)
      else (stdout, a, w2)
  end.

Definition cancelled : string :=
  "Commande annul" ++ e_acute ++ "e par l'utilisateur.".

(** [execute_command(command)]; the question about a dangerous command
    holds the command, and is not inside a [try]. *)
Definition execute_command (a : agent) (w : world) (command : string)
  : res string * agent * world :=
  match expand_alias a command with
  | Raise e => (Raise e, a, w)
  | Ret command =>
      if startswith (strip command) "cd "
      then let '(r, a1, w1) := change_directory a w command in (Ret r, a1, w1)
      else
        match is_dangerous_command a command with
        | Raise e => (Raise e, a, w)
        | Ret dangerous =>
            if dangerous
            then
              match ask w (ConfirmDangerous command) with
              | (Raise e, w1) => (Raise e, a, w1)
              | (Ret confirm, w1) =>
                  if confirm
                  then let '(r, a2, w2) := run_process a w1 command in
                       (Ret r, a2, w2)
                  else (Ret cancelled, a, w1)
              end
            else let '(r, a2, w2) := run_process a w command in (Ret r, a2, w2)
        end
  end.




(** The update of the history in [call_mistral_api] when the endpoint
    answers [assistant_message]. *)
Definition update_history (a : agent) (user_message assistant_message : string)
  : agent :=
  let h := (conversation_history a
              ++ [Message "user" user_message;
                  Message "assistant" assistant_message])%list in
  let max_entries := max_history (cfg a) in
  set_conversation_history a
    (if Nat.ltb (max_entries * 2) (List.length h)
     then last_n (max_entries * 2) h else h).

(** [call_mistral_api(user_message)], the answer of the endpoint being
    [reply]: every exception raised after the request was prepared is
    caught, and the history is updated as the last step of a call that
    succeeds. *)
Definition call_mistral_api (a : agent) (user_message : string)
  (reply : V05.api_reply) : string * agent :=
  match reply with
  | V05.ApiOk assistant_message =>
      (assistant_message, update_history a user_message assistant_message)
  | V05.ApiStatus status_code text =>
      ("Erreur lors de l'appel " ++ String "224" "" ++ " l'API Mistral: "
         ++ "Erreur API (" ++ string_of_Z status_code ++ "): " ++ text, a)
  | V05.ApiException msg =>
      ("Erreur de connexion " ++ String "224" "" ++ " l'API Mistral: " ++ msg, a)
  end.

(** [call_mistral_api_streaming(user_message)]: [ApiOk] holds the
    fragments of the answer put together, [full_response]; an exception
    raised while the fragments are read or shown is caught like any
    other. *)
Definition call_mistral_api_streaming (a : agent) (user_message : string)
  (reply : V05.api_reply) : string * agent :=
  match reply with
  | V05.ApiOk full_response =>
      (full_response, update_history a user_message full_response)
  | V05.ApiStatus status_code text =>
      ("Erreur lors de l'appel " ++ String "224" "" ++ " l'API Mistral: "
         ++ "Erreur API (" ++ string_of_Z status_code ++ "): " ++ text, a)
  | V05.ApiException msg =>
      ("Erreur de connexion " ++ String "224" "" ++ " l'API Mistral: " ++ msg, a)
  end.

End Agent.
End V04.

(* ================================================================== *)
(** * Sample collaborators and states *)
(* ================================================================== *)

Module Sample.
Import Py Sys.

(** A file system in which [/a] and [/a/b] are the only directories, no
    path is a symbolic link and no context has been saved. *)
Definition fs0 : fs_state :=
  FsState (fun d => String.eqb d "/a" || String.eqb d "/a/b")
    (fun _ => None) (fun _ => None) (fun _ => None) (fun d => d) Missing.

(** An operator who declines, a console that shows everything, a shell
    whose commands print nothing and succeed, a stopped clock, silent
    tools. *)
Definition env0 : env :=
  Env (fun _ _ => Ret false)
    (fun _ _ => None)
    (fun f _ _ => (Exited 0%Z "" "", f))
    (fun _ => "2024-01-01T00:00:00")
    (fun f _ _ => ("", f))
    (fun _ _ => Raise (OtherError "format"))
    (fun k => k).

Definition agent05 : V05.agent :=
  V05.Agent "/cfg.json" (V05.Config [] [] None) "/a/b" [] [] "system".

Definition world05 : V05.world := V05.World fs0 "/a/b" None [] [].

Definition agent04 : V04.agent :=
  V04.Agent (V04.Config 50 V04.DANGEROUS_COMMANDS) [] "/a/b" [] "system".

Definition world04 : V04.world := V04.World fs0 "/a/b" [] [].

(** The same collaborators with an operator who agrees. *)
Definition env_yes : env :=
  Env (fun _ _ => Ret true) (console env0) (shell env0) (clock env0)
    (tool env0) (format_field env0) (repr env0).

(** An agent with a quick command of its own and an alias. *)
Definition agent_wipe : V05.agent :=
  V05.Agent "/cfg.json"
    (V05.Config [("wipe", "rm -rf {dir}")] [("ll", "ls -l")] None)
    "/a/b" [] [] "system".

(** An agent with two quick commands of its own: one with two
    parameters, one with the empty braces of [find -exec]. *)
Definition agent_copy : V05.agent :=
  V05.Agent "/cfg.json"
    (V05.Config [("copy", "cp {src} {dst}");
                 ("purge", "find . -name core -exec rm {} +")] [] None)
    "/a/b" [] [] "system".

(** Twenty messages. *)
Definition twenty : list message :=
  repeat (Message "user" "hello") 20.

End Sample.

(* ================================================================== *)
(** * The vocabulary of the properties *)
(* ================================================================== *)

(** ** Classes of characters over a text *)

Module Strings.
Import Py.

(** Every character of [s] is in the class [p]. *)
Fixpoint all (p : ascii -> bool) (s : string) : bool :=
  match s with
  | EmptyString => true
  | String c s' => p c && all p s'
  end.

(** [s] does not go on with a character of the class [p]. *)
Definition stops (p : ascii -> bool) (s : string) : bool :=
  match s with
  | EmptyString => true
  | String c _ => negb (p c)
  end.

End Strings.

(** ** Places where a pattern does not match *)

Module Scan.
Import Py Re.

(** The match fails wherever it is tried inside [x], [rest] following. *)
Definition misses (r : regex) (x rest : string) : Prop :=
  forall x1 c x2, x = x1 ++ String c x2 ->
                  match_at r (String c (x2 ++ rest)) = None.

End Scan.

(** ** The most recent entries of a history *)

Module History.
Import Py.

(** The [n] most recent entries of [l]. *)
Definition most_recent {A : Type} (n : nat) (l : list A) : list A :=
  skipn (List.length l - n) l.

End History.

(** ** The events of the system information *)

Module Engine.
Import Py Sys.

(** The events of [collect_system_info]. *)
Definition probes (cmds : dict string) : list event :=
  map (fun kc => Probe (snd kc)) cmds.

End Engine.

(** ** What the gate lets through *)

Module Gate.
Import Py Sys.

(** No process is started for a command. *)
Definition no_spawn (evs : list event) : Prop :=
  forall x d, ~ In (Spawn x d) evs.

(** One process, for [c] itself in the tracked directory, and after it
    the probes of the system information at most. *)
Definition started (a : V05.agent) (c : string) (evs : list event) : Prop :=
  exists tail, evs = Spawn c (V05.current_dir a) :: tail /\ no_spawn tail.

(** What [execute_command] adds to the trace for the command [c] it is
    left with once the alias is replaced, [c] being no [cd]: nothing when
    [c] cannot be classified; the process of [c] when it is not
    dangerous; and when it is, nothing if the warning cannot be shown or
    the prompt raises, the question about [c] alone if the operator
    declines, and the question about [c] followed by the process of [c] if
    the operator agrees. *)
Definition gated (E : env) (a : V05.agent) (w : V05.world) (c : string)
  (evs : list event) : Prop :=
  match V05.is_dangerous_command c with
  | Raise _ => evs = []
  | Ret false => started a c evs
  | Ret true =>
      match console E (V05.screen w) (Warning c) with
      | Some _ => evs = []
      | None =>
          match operator E (V05.trace w) (ConfirmDangerous c) with
          | Raise _ => evs = []
          | Ret false => evs = [Asked (ConfirmDangerous c) false]
          | Ret true =>
              exists evs',
                evs = Asked (ConfirmDangerous c) true :: evs'
                /\ started a c evs'
          end
      end
  end.

End Gate.

(** ** States and texts of the lexer *)

Module Classifier.
Import Py Shlex.

(** The states in which a token has been started. *)
Fixpoint in_token (st : state) : Prop :=
  match st with
  | InSpace => False
  | InWord => True
  | InQuote _ => True
  | InEscape st' => in_token st'
  end.

(** No quote and no backslash in [s]. *)
Definition plain (s : string) : Prop :=
  contains "'" s = false
  /\ contains (String "034" "") s = false
  /\ contains "\" s = false.

End Classifier.

(** ** Templates read as pieces *)

Module Template.
Import Py Strings.

(** A template read as pieces: text without braces, and placeholders. *)
Inductive piece : Type :=
| Text (t : string)
| Hole (name : string).

Definition not_brace (c : ascii) : bool :=
  negb (Ascii.eqb c "{") && negb (Ascii.eqb c "}").

(** The characters of a plain placeholder name. *)
Definition name_char (c : ascii) : bool :=
  not_brace c && negb (V05.field_special c).

Definition piece_ok (p : piece) : bool :=
  match p with
  | Text t => all not_brace t
  | Hole name =>
      negb (is_empty name) && all name_char name
      && negb (V05.all_digits name)
  end.

Fixpoint render (ps : list piece) : string :=
  match ps with
  | [] => ""
  | Text t :: rest => t ++ render rest
  | Hole name :: rest => String "{" (name ++ String "}" (render rest))
  end.

Fixpoint holes (ps : list piece) : list string :=
  match ps with
  | [] => []
  | Text _ :: rest => holes rest
  | Hole name :: rest => name :: holes rest
  end.

(** The template with every placeholder replaced by the value bound to its
    name. *)
Fixpoint fill (params : dict string) (ps : list piece) : string :=
  match ps with
  | [] => ""
  | Text t :: rest => t ++ fill params rest
  | Hole name :: rest =>
      match dict_get params name with
      | Some v => v
      | None => ""
      end ++ fill params rest
  end.

End Template.

(** ** Responses read as prose and tags *)

Module Response.
Import Py Re Strings.

Definition not_lbracket (c : ascii) : bool := negb (Ascii.eqb c "[").
Definition no_bracket (c : ascii) : bool := not_lbracket c && not_rbracket c.
Definition not_space (c : ascii) : bool := negb (isspace c).

(** The first character of [s] is in the class [p]. *)
Definition starts (p : ascii -> bool) (s : string) : bool :=
  match s with
  | EmptyString => false
  | String c _ => p c
  end.

(** A run of white space, a word, and the rest of a tag up to its closing
    bracket: a text that starts with no white space. *)
Definition blank_ok (ws : string) : bool := starts isspace ws && all isspace ws.
Definition word_ok (w : string) : bool := starts isword w && all isword w.
Definition tail_ok (t : string) : bool := starts not_space t && all no_bracket t.

(** Every opening bracket of [x] is followed, in [x], by another character
    than [K]. *)
Fixpoint no_open (K : ascii) (x : string) : bool :=
  match x with
  | EmptyString => true
  | String c x' =>
      (if Ascii.eqb c "["
       then match x' with
            | EmptyString => false
            | String d _ => negb (Ascii.eqb d K)
            end
       else true)
      && no_open K x'
  end.

(** No tag opens in [x]: no opening bracket of [x] is followed by the
    first letter of [EXEC], [SCRIPT], [TEMPLATE], [QUICKCMD] or
    [DEVOPS]. *)
Definition tag_free (x : string) : bool :=
  no_open "E" x && no_open "S" x && no_open "T" x && no_open "Q" x
  && no_open "D" x.

(** The body of a tag: no tag opens in it, and no closing tag. *)
Definition body_ok (x : string) : bool := tag_free x && no_open "/" x.

(** The pieces of a response: prose in which no tag opens, and the five
    tags, written with the white space they hold. *)
Inductive segment : Type :=
| Prose (t : string)
| ExecTag (body : string)
| ScriptTag (ws1 kind ws2 name body : string)
| TemplateTag (ws1 kind ws2 name : string)
| QuickTag (ws1 name : string) (args : option (string * string))
| DevopsTag (ws1 name : string) (args : option (string * string)).

Definition render_args (args : option (string * string)) : string :=
  match args with
  | Some (ws2, text) => ws2 ++ text
  | None => ""
  end.

Definition render_segment (s : segment) : string :=
  match s with
  | Prose t => t
  | ExecTag body => "[EXEC]" ++ body ++ "[/EXEC]"
  | ScriptTag ws1 kind ws2 name body =>
      "[SCRIPT" ++ ws1 ++ kind ++ ws2 ++ name ++ "]" ++ body ++ "[/SCRIPT]"
  | TemplateTag ws1 kind ws2 name =>
      "[TEMPLATE" ++ ws1 ++ kind ++ ws2 ++ name ++ "]"
  | QuickTag ws1 name args => "[QUICKCMD" ++ ws1 ++ name ++ render_args args ++ "]"
  | DevopsTag ws1 name args => "[DEVOPS" ++ ws1 ++ name ++ render_args args ++ "]"
  end.

Fixpoint render (doc : list segment) : string :=
  match doc with
  | [] => ""
  | s :: rest => render_segment s ++ render rest
  end.

Definition args_ok (args : option (string * string)) : bool :=
  match args with
  | Some (ws2, text) => blank_ok ws2 && tail_ok text
  | None => true
  end.

Definition segment_ok (s : segment) : bool :=
  match s with
  | Prose t => tag_free t
  | ExecTag body => body_ok body
  | ScriptTag ws1 kind ws2 name body =>
      blank_ok ws1 && word_ok kind && blank_ok ws2 && tail_ok name
      && body_ok body
  | TemplateTag ws1 kind ws2 name =>
      blank_ok ws1 && word_ok kind && blank_ok ws2 && tail_ok name
  | QuickTag ws1 name args => blank_ok ws1 && word_ok name && args_ok args
  | DevopsTag ws1 name args => blank_ok ws1 && word_ok name && args_ok args
  end.

(** No line break inside the body of an [EXEC] or a [SCRIPT] tag. *)
Definition single_line (s : segment) : bool :=
  match s with
  | ExecTag body => all not_newline body
  | ScriptTag _ _ _ _ body => all not_newline body
  | _ => true
  end.

Inductive family : Type := FProse | FExec | FScript | FTemplate | FQuick | FDevops.

Definition family_of (s : segment) : family :=
  match s with
  | Prose _ => FProse
  | ExecTag _ => FExec
  | ScriptTag _ _ _ _ _ => FScript
  | TemplateTag _ _ _ _ => FTemplate
  | QuickTag _ _ _ => FQuick
  | DevopsTag _ _ _ => FDevops
  end.

Definition family_eqb (f g : family) : bool :=
  match f, g with
  | FProse, FProse | FExec, FExec | FScript, FScript
  | FTemplate, FTemplate | FQuick, FQuick | FDevops, FDevops => true
  | _, _ => false
  end.

Definition args_of (args : option (string * string)) : list string :=
  match args with
  | Some (_, text) => split (strip text)
  | None => []
  end.

(** What a tag asks for. *)
Definition directive_of (s : segment) : list V05.directive :=
  match s with
  | Prose _ => []
  | ExecTag body => [V05.Exec (strip body)]
  | ScriptTag _ kind _ name body =>
      [V05.Script (strip kind) (strip name) (strip body)]
  | TemplateTag _ kind _ name => [V05.Template (strip kind) (strip name)]
  | QuickTag _ name args => [V05.QuickCmd (strip name) (args_of args)]
  | DevopsTag _ name args => [V05.DevOps (strip name) (args_of args)]
  end.

(** The tags of one family, in the order of the document. *)
Definition of_family (f : family) (doc : list segment) : list segment :=
  filter (fun s => family_eqb (family_of s) f) doc.

Definition without_family (f : family) (doc : list segment) : list segment :=
  filter (fun s => negb (family_eqb (family_of s) f)) doc.

Definition asked (doc : list segment) : list V05.directive :=
  flat_map directive_of doc.

(** The groups of a [QUICKCMD] or [DEVOPS] tag. *)
Definition call_groups (name : string) (args : option (string * string))
  : groups :=
  match args with
  | Some (_, text) => [(2, text); (1, name)]
  | None => [(1, name)]
  end.

(** The groups a tag leaves in the match of its pattern. *)
Definition groups_of (s : segment) : groups :=
  match s with
  | Prose _ => []
  | ExecTag body => [(1, body)]
  | ScriptTag _ kind _ name body => [(3, body); (2, name); (1, kind)]
  | TemplateTag _ kind _ name => [(2, name); (1, kind)]
  | QuickTag _ name args => call_groups name args
  | DevopsTag _ name args => call_groups name args
  end.

Definition pattern_of (f : family) (dotall : bool) : regex :=
  match f with
  | FProse => Lit "000"
  | FExec => V05.exec_pattern dotall
  | FScript => V05.script_pattern dotall
  | FTemplate => V05.template_pattern
  | FQuick => V05.quickcmd_pattern
  | FDevops => V05.devops_pattern
  end.

Definition opener (f : family) : ascii :=
  match f with
  | FProse => "000"
  | FExec => "E"
  | FScript => "S"
  | FTemplate => "T"
  | FQuick => "Q"
  | FDevops => "D"
  end.

(** The tags of a document. *)
Definition tags (doc : list segment) : list segment :=
  without_family FProse doc.

(** A response with prose, a [cd], a quick command and a second command. *)
Definition sample_document : list segment :=
  [Prose "Going up. ";
   ExecTag " cd .. ";
   Prose " Then the route: ";
   QuickTag " " "traceroute" (Some (" ", "host1"));
   ExecTag "pwd"].

(** A response whose prose and whose command hold brackets that open no
    tag. *)
Definition bracketed_document : list segment :=
  [Prose "Files [a to c]: ";
   ExecTag " ls [a-c]* ";
   Prose " (see [1])"].

End Response.

(* ================================================================== *)
(** * [config.py] *)
(* ================================================================== *)

Module Config.
Import Py.

(** A configuration value as [yaml.safe_load] gives it: a mapping, or
    anything else ([a]: text, number, truth value, sequence, nothing),
    which the class only stores and hands back.  The keys of a mapping are
    texts, and no mapping is shared between two places. *)
#[local] Unset Elimination Schemes.
Inductive value (A : Type) : Type :=
| Leaf (a : A)
| Dict (d : list (string * value A)).
#[local] Set Elimination Schemes.
Arguments Leaf {A} a.
Arguments Dict {A} d.

Section Values.
Variable A : Type.

(** [_merge_configs(default, user)], the mapping [default] afterwards, the
    argument [user] being [Dict u]: for every entry of [u] in turn, a
    mapping met by a mapping is merged into it, anything else is stored
    over what was there. *)
Fixpoint merge_into (user : value A) (default : dict (value A))
  : dict (value A) :=
  match user with
  | Leaf _ => default
  | Dict u =>
      (fix items (u : list (string * value A)) (default : dict (value A))
         : dict (value A) :=
         match u with
         | [] => default
         | (key, value) :: rest =>
             items rest
               match value, dict_get default key with
               | Dict _, Some (Dict d) =>
                   dict_set default key (Dict (merge_into value d))
               | _, _ => dict_set default key value
               end
         end) u default
  end.

Definition _merge_configs (default user : dict (value A)) : dict (value A) :=
  merge_into (Dict user) default.

(** [get] on [self.config], called with the keys [keys] and [default]. *)
Fixpoint get (config : value A) (keys : list string) (default : value A)
  : value A :=
  match keys with
  | [] => config
  | key :: rest =>
      match config with
      | Dict d =>
          match dict_get d key with
          | Some v => get v rest default
          | None => default
          end
      | Leaf _ => default
      end
  end.

(** Induction over a value and the entries of its mappings. *)
Section Induction.
Variable P : value A -> Prop.
Variable Q : list (string * value A) -> Prop.
Hypothesis HLeaf : forall a, P (Leaf a).
Hypothesis HDict : forall d, Q d -> P (Dict d).
Hypothesis HNil : Q [].
Hypothesis HCons : forall k v d, P v -> Q d -> Q ((k, v) :: d).

Fixpoint value_ind (v : value A) : P v :=
  match v with
  | Leaf a => HLeaf a
  | Dict d =>
      HDict d
        ((fix items (d : list (string * value A)) : Q d :=
            match d with
            | [] => HNil
            | (k, v) :: rest => HCons k v rest (value_ind v) (items rest)
            end) d)
  end.

End Induction.

End Values.

Arguments merge_into {A} user default.
Arguments _merge_configs {A} default user.
Arguments get {A} config keys default.

End Config.

(** ** Paths of keys in a configuration *)

Module Paths.
Import Py Config.

Section Values.
Variable A : Type.

(** The value at the end of a path of keys, when the path exists. *)
Fixpoint find (config : value A) (keys : list string) : option (value A) :=
  match keys with
  | [] => Some config
  | key :: rest =>
      match config with
      | Dict d =>
          match dict_get d key with
          | Some v => find v rest
          | None => None
          end
      | Leaf _ => None
      end
  end.

(** No key twice in a mapping, at any depth: what a Python [dict] is. *)
Fixpoint unique_keys (v : value A) : bool :=
  match v with
  | Leaf _ => true
  | Dict d =>
      (fix entries (d : list (string * value A)) : bool :=
         match d with
         | [] => true
         | (k, v) :: rest =>
             negb (dict_has rest k) && unique_keys v && entries rest
         end) d
  end.

(** The path leaves the user's configuration: one of its keys is missing
    at the place where it is looked up. *)
Fixpoint untouched (user : value A) (keys : list string) : bool :=
  match keys with
  | [] => false
  | key :: rest =>
      match user with
      | Dict u =>
          match dict_get u key with
          | Some v => untouched v rest
          | None => true
          end
      | Leaf _ => false
      end
  end.

(** What an entry [v] of the user's configuration leaves under its key,
    [old] being what the key held before. *)
Definition merged (v : value A) (old : option (value A)) : value A :=
  match v, old with
  | Dict u, Some (Dict d) => Dict (_merge_configs d u)
  | _, _ => v
  end.

End Values.

Arguments merged {A} v old.
Arguments find {A} config keys.
Arguments unique_keys {A} v.
Arguments untouched {A} user keys.

End Paths.

(** ** Sample configurations *)

Module Settings.
Import Py Config.

(** Defaults with two sections, and a user's file that sets one value of
    the first; the values that are not mappings are numbers here. *)
Definition defaults : dict (value Z) :=
  [("behavior", Dict [("history_size", Leaf 100%Z); ("safety_checks", Leaf 1%Z)]);
   ("ollama", Dict [("timeout", Leaf 60%Z)])].

Definition user : dict (value Z) :=
  [("behavior", Dict [("history_size", Leaf 5%Z)])].

End Settings.

(** ** The words that make a command unsafe *)

Module Words.
Import Py.

(** The command contains one of the listed commands or options. *)
Definition listed (command : string) : bool :=
  existsb (fun word => contains word command)
    (Safety.DANGEROUS_COMMANDS ++ Safety.DANGEROUS_OPTIONS)%list.

End Words.

(** ** What the execution core keeps *)

Module Frame.
Import Py Sys.

(** The tracked directory is an absolute path. *)
Definition rooted (a : V05.agent) : Prop :=
  PosixPath.isabs (V05.current_dir a) = true.

(** The commands recorded in the configuration. *)
Definition recorded (a : V05.agent) : list V05.history_entry :=
  match V05.command_history (V05.cfg a) with
  | Some h => h
  | None => []
  end.

(** The conversation, the instructions, the place of the configuration
    file, the aliases and the quick commands of the operator are the
    same. *)
Definition same_session (a a' : V05.agent) : Prop :=
  V05.conversation_history a' = V05.conversation_history a
  /\ V05.system_message a' = V05.system_message a
  /\ V05.config_file a' = V05.config_file a
  /\ V05.aliases (V05.cfg a') = V05.aliases (V05.cfg a)
  /\ V05.custom_commands (V05.cfg a') = V05.custom_commands (V05.cfg a).

(** What holds between the state before and the state after every call
    of the execution core. *)
Definition kept (a : V05.agent) (w : V05.world) (a' : V05.agent)
  (w' : V05.world) : Prop :=
  (rooted a -> rooted a')
  /\ same_session a a'
  /\ (exists evs, V05.trace w' = (V05.trace w ++ evs)%list)
  /\ (List.length (recorded a) <= 100 -> List.length (recorded a') <= 100).

End Frame.

(** ** Words of a command line *)

Module Lexing.
Import Py Shlex.

(** A character that [shlex] adds to the word it is reading. *)
Definition word_char (c : ascii) : bool :=
  negb (whitespace c) && negb (is_quote c) && negb (is_escape c).

(** A word written without quotes or escapes. *)
Definition bare_word (w : string) : bool :=
  negb (is_empty w) && Strings.all word_char w.

End Lexing.

(** ** Conversations made of exchanges *)

Module Exchanges.
Import Py Sys.

(** The history is a run of exchanges: a message of the user, then the
    answer of the assistant. *)
Fixpoint exchanges (h : list message) : bool :=
  match h with
  | [] => true
  | u :: rest =>
      match rest with
      | [] => false
      | a :: rest' =>
          String.eqb (role u) "user" && String.eqb (role a) "assistant"
          && exchanges rest'
      end
  end.

End Exchanges.

Module Exchanges20.
Import Py Sys.

(** Twenty exchanges: forty messages. *)
Definition history : list message :=
  flat_map (fun _ => [Message "user" "q"; Message "assistant" "r"])
    (repeat tt 20).

End Exchanges20.

(* ================================================================== *)
(** * The files of the agents *)
(* ================================================================== *)

(** ** The history file of the v05 agent *)

Module V05Files.
Import Py Sys.

(** The file [HISTORY_FILE]: missing, not readable as JSON, or holding a
    list of messages. *)
Inductive history_file : Type :=
| Missing
| Unreadable
| Stored (history : list message).

(** [HISTORY_FILE], the home directory being expanded. *)
Definition HISTORY_FILE (f : fs_state) : string :=
  PosixPath.expanduser (userhome f) "~/.ia_agent_history.json".

(** [load_history()] *)
Definition load_history (a : V05.agent) (file : history_file) : V05.agent :=
  match file with
  | Missing => a
  | Unreadable => V05.set_conversation_history a []
  | Stored history =>
      V05.set_conversation_history a
        (if Nat.ltb V05.MAX_HISTORY_ENTRIES (List.length history)
         then last_n V05.MAX_HISTORY_ENTRIES history
         else history)
  end.

(** [save_history()]: a failed write is logged and ignored. *)
Definition save_history (f : fs_state) (a : V05.agent) (file : history_file)
  : history_file :=
  match write_error f (HISTORY_FILE f) with
  | None => Stored (V05.conversation_history a)
  | Some _ => file
  end.

End V05Files.

(** ** The history and configuration files of the v04 agent *)

Module V04Files.
Import Py Sys.

Inductive history_file : Type :=
| Missing
| Unreadable
| Stored (history : list message).

Definition HISTORY_FILE (f : fs_state) : string :=
  PosixPath.expanduser (userhome f) "~/.mistral_agent/history.json".

Definition CONFIG_FILE (f : fs_state) : string :=
  PosixPath.expanduser (userhome f) "~/.mistral_agent/config.json".

(** [load_history()], the bound being [config["max_history"]]. *)
Definition load_history (a : V04.agent) (file : history_file) : V04.agent :=
  match file with
  | Missing => a
  | Unreadable => V04.set_conversation_history a []
  | Stored history =>
      V04.set_conversation_history a
        (if Nat.ltb (V04.max_history (V04.cfg a)) (List.length history)
         then last_n (V04.max_history (V04.cfg a)) history
         else history)
  end.

(** [save_history()] *)
Definition save_history (f : fs_state) (a : V04.agent) (file : history_file)
  : history_file :=
  match write_error f (HISTORY_FILE f) with
  | None => Stored (V04.conversation_history a)
  | Some _ => file
  end.

Section Configuration.

(** The values of the configuration are JSON values of any kind; the
    table [DEFAULT_CONFIG] holds one for each of its keys. *)
Variable V : Type.
Variable DEFAULT_CONFIG : dict V.

(** The file [CONFIG_FILE]: missing, not readable as a JSON object, or
    holding one. *)
Inductive config_file : Type :=
| NoConfig
| BadConfig
| GoodConfig (config : dict V).

(** The loop of [load_config] over the entries of [DEFAULT_CONFIG]: a key
    that the file does not have is given its default. *)
Fixpoint fill_defaults (defaults config : dict V) : dict V :=
  match defaults with
  | [] => config
  | (key, value) :: rest =>
      fill_defaults rest
        (if dict_has config key then config else dict_set config key value)
  end.

(** [load_config()]: the configuration returned and the file afterwards.
    A file that cannot be read is written again with the defaults, like a
    missing one. *)
Definition load_config (f : fs_state) (file : config_file)
  : dict V * config_file :=
  match file with
  | GoodConfig config => (fill_defaults DEFAULT_CONFIG config, file)
  | _ =>
      (DEFAULT_CONFIG,
       match write_error f (CONFIG_FILE f) with
       | None => GoodConfig DEFAULT_CONFIG
       | Some _ => file
       end)
  end.

End Configuration.

Arguments NoConfig {V}.
Arguments BadConfig {V}.
Arguments GoodConfig {V} config.

End V04Files.

(* ================================================================== *)
(** * [context_manager.py], the class as a whole *)
(* ================================================================== *)

Module Session.
Import Py Sys.

(** What [context_data] holds under a key, and what the mapping returned
    by [get_context_data] holds: nothing, a text, or the messages. *)
Inductive data : Type :=
| NoData
| Text (s : string)
| Messages (l : list ContextManager.message).

Record manager : Type := Manager {
  messages : list ContextManager.message;
  context_data : dict data;
  history_size : nat;
  session_dir : string
}.

(** The two files of the session directory, as last written. *)
Record files : Type := Files {
  history_json : option (list ContextManager.message);
  context_json : option (dict data)
}.

(** The context of a new manager, and of one that was cleared. *)
Definition no_context : dict data :=
  [("ticket", NoData); ("alert", NoData); ("current_task", NoData)].

(** [__init__], the bound and the session directory being given. *)
Definition __init__ (history_size : nat) (session_dir : string) : manager :=
  Manager [] no_context history_size session_dir.

(** [_save_history()]: the history, then the context; the first write
    that fails ends the method, the failure being logged. *)
Definition _save_history (f : fs_state) (m : manager) (d : files) : files :=
  match write_error f (PosixPath.join (session_dir m) "history.json") with
  | Some _ => d
  | None =>
      let d1 := Files (Some (messages m)) (context_json d) in
      match write_error f (PosixPath.join (session_dir m) "context.json") with
      | Some _ => d1
      | None => Files (history_json d1) (Some (context_data m))
      end
  end.

(** [add_message(role, content)] at the time [now]; [session_history] is
    the truth value of the setting of that name. *)
Definition add_message (f : fs_state) (session_history : bool) (m : manager)
  (d : files) (role content now : string) : manager * files :=
  let m1 :=
    Manager
      (ContextManager.add_message (history_size m) (messages m) role content now)
      (context_data m) (history_size m) (session_dir m) in
  (m1, if session_history then _save_history f m1 d else d).

(** [get_history()] *)
Definition get_history (m : manager) : list ContextManager.message :=
  messages m.

(** [set_context_data(key, value)] *)
Definition set_context_data (m : manager) (key : string) (value : data)
  : manager :=
  Manager (messages m) (dict_set (context_data m) key value) (history_size m)
    (session_dir m).

(** [get_context_data()]: a copy of the context with the messages under
    the key [history]. *)
Definition get_context_data (m : manager) : dict data :=
  dict_set (context_data m) "history" (Messages (messages m)).

(** [clear_context()] *)
Definition clear_context (m : manager) : manager :=
  Manager (messages m) no_context (history_size m) (session_dir m).

End Session.

(* ================================================================== *)
(** * [command_handler.py] *)
(* ================================================================== *)

Module CommandHandler.
Import Py Sys.

(** What [ollama.generate] hands back: a text, or an object that is not a
    text. *)
Inductive reply : Type :=
| Said (response : string)
| NotText.

(** The model client: [get_system_prompt(context)] and
    [generate(prompt, system_prompt)]. *)
Record client : Type := Client {
  get_system_prompt : dict Session.data -> string;
  generate : string -> string -> reply
}.

(** [OllamaClient.generate(prompt, system_prompt)]: the body of the
    method holds a [yield], so a call runs none of it and hands back a
    generator, whatever its arguments. *)
Definition ollama_generate (prompt system_prompt : string) : reply := NotText.

(** The client of the repository, its [get_system_prompt] left open. *)
Definition OllamaClient (get_system_prompt : dict Session.data -> string)
  : client :=
  Client get_system_prompt ollama_generate.

(** The terminal of the assistant: [print_info(message)] and
    [display_assistant_response(response)] hand a text to rich, which
    shows it or raises. *)
Record terminal : Type := Terminal {
  print_info : string -> option exn;
  display_assistant_response : string -> option exn
}.

(** The pattern of a command between backticks: a backtick, [(.*?)], a
    backtick. *)
Definition backtick : ascii := "`".

Definition pattern : Re.regex :=
  Re.Seq (Re.Lit backtick)
    (Re.Seq (Re.Group 1 (Re.LazyStar Re.not_newline)) (Re.Lit backtick)).

(** [_extract_commands(text)] *)
Definition _extract_commands (text : string) : bool * list string :=
  let commands := Re.findall pattern text in
  let commands :=
    filter (fun cmd => contains " " cmd || contains "/" cmd) commands in
  (negb (PosixPath.is_nil commands), commands).

Section Handler.

(** The first line of the warning starts with a warning sign, a character
    beyond the code points of the texts modelled here: [SIGN] stands for
    it. *)
Variable SIGN : string.
Variable ui : terminal.
Variable ollama : client.
Variable f : fs_state.
Variable session_history : bool.

Definition newline : string := String "010" "".

(** The lines added to a response for its unsafe commands. *)
Fixpoint warning_lines (unsafe_commands : list string) : string :=
  match unsafe_commands with
  | [] => ""
  | cmd :: rest =>
      "- " ++ String backtick cmd ++ String backtick newline
        ++ warning_lines rest
  end.

Definition warning (unsafe_commands : list string) : string :=
  newline ++ SIGN ++ " Attention: Certaines commandes propos" ++ e_acute
    ++ "es peuvent " ++ String "234" "tre destructrices:" ++ newline
    ++ warning_lines unsafe_commands
    ++ "V" ++ e_acute ++ "rifiez attentivement avant ex" ++ e_acute
    ++ "cution!" ++ newline.

(** The response as it is shown and recorded: with the warning when one of
    its commands is unsafe. *)
Definition checked (response : string) : string :=
  let (has_commands, commands) := _extract_commands response in
  if has_commands
  then
    let (safe_commands, unsafe_commands) :=
      Safety.check_command_safety commands in
    if negb (PosixPath.is_nil unsafe_commands)
    then response ++ warning unsafe_commands
    else response
  else response.

(** The message shown while the answer is awaited. *)
Definition generating : string :=
  "G" ++ e_acute ++ "n" ++ e_acute ++ "ration de la r" ++ e_acute
    ++ "ponse...".

(** [_handle_conversation(user_input)]: the message that the answer is
    on its way, the answer of the model, its commands checked, the answer
    shown and then recorded, at the time [now].  A reply that is not a
    text makes [re.findall] raise; what the terminal raises leaves the
    method as well, so an answer that cannot be shown is not recorded. *)
Definition _handle_conversation (m : Session.manager) (d : Session.files)
  (user_input now : string) : res unit * Session.manager * Session.files :=
  let context_data := Session.get_context_data m in
  let system_prompt := get_system_prompt ollama context_data in
  match print_info ui generating with
  | Some e => (Raise e, m, d)
  | None =>
      match generate ollama user_input system_prompt with
      | NotText =>
          (Raise (OtherError "expected string or bytes-like object"), m, d)
      | Said response =>
          let response := checked response in
          match display_assistant_response ui response with
          | Some e => (Raise e, m, d)
          | None =>
              let (m1, d1) :=
                Session.add_message f session_history m d "assistant"
                  response now in
              (Ret tt, m1, d1)
          end
      end
  end.

(** The handling of the inputs that start with a slash, which calls the
    specialised modules, is left open. *)
Variable _handle_command :
  Session.manager -> Session.files -> string ->
  res unit * Session.manager * Session.files.

(** [process_input(user_input)]: the input is recorded at the time
    [now], what comes of it at the time [later]. *)
Definition process_input (m : Session.manager) (d : Session.files)
  (user_input now later : string)
  : res unit * Session.manager * Session.files :=
  let (m1, d1) :=
    Session.add_message f session_history m d "user" user_input now in
  if startswith user_input "/"
  then _handle_command m1 d1 user_input
  else _handle_conversation m1 d1 user_input later.

End Handler.

End CommandHandler.

(** ** Responses with commands between backticks *)

Module Spans.
Import Py.

(** A response read as prose and commands between backticks. *)
Inductive span : Type :=
| Prose (t : string)
| Code (c : string).

Definition not_backtick (c : ascii) : bool :=
  negb (Ascii.eqb c CommandHandler.backtick).

(** Prose has no backtick; a command has none either, and no line
    break. *)
Definition span_ok (s : span) : bool :=
  match s with
  | Prose t => Strings.all not_backtick t
  | Code c => Strings.all not_backtick c && Strings.all Re.not_newline c
  end.

Definition render_span (s : span) : string :=
  match s with
  | Prose t => t
  | Code c =>
      String CommandHandler.backtick (c ++ String CommandHandler.backtick "")
  end.

Fixpoint render (doc : list span) : string :=
  match doc with
  | [] => ""
  | s :: rest => render_span s ++ render rest
  end.

(** The texts between backticks, in the order of the response. *)
Fixpoint codes (doc : list span) : list string :=
  match doc with
  | [] => []
  | Prose _ :: rest => codes rest
  | Code c :: rest => c :: codes rest
  end.

(** What [_extract_commands] takes for a shell command. *)
Definition likely_command (cmd : string) : bool :=
  contains " " cmd || contains "/" cmd.

(** The commands of a response that the safety check does not let
    through. *)
Definition flagged (doc : list span) : list string :=
  filter Words.listed (filter likely_command (codes doc)).

(** A response with three commands, one of them without a space or a
    slash, one of them unsafe. *)
Definition advice : list span :=
  [Prose "Clean up with "; Code "rm -rf /tmp/x"; Prose " after ";
   Code "ls"; Prose " and "; Code "df -h"; Prose "."].

(** A client that gives this advice whatever it is asked, a terminal that
    shows everything, and a manager that keeps ten messages. *)
Definition adviser : CommandHandler.client :=
  CommandHandler.Client (fun _ => "system")
    (fun _ _ => CommandHandler.Said (render advice)).

Definition terminal0 : CommandHandler.terminal :=
  CommandHandler.Terminal (fun _ => None) (fun _ => None).

Definition manager0 : Session.manager := Session.__init__ 10 "/session".

Definition files0 : Session.files := Session.Files None None.

End Spans.

(** ** A world in which no file can be written *)

Module Readonly.
Import Py Sys.

Definition fs : fs_state :=
  FsState (isdir Sample.fs0) (chdir_error Sample.fs0)
    (fun _ => Some "Permission denied") (userhome Sample.fs0)
    (entered Sample.fs0) (context_store Sample.fs0).

Definition world : V05.world := V05.World fs "/a/b" None [] [].

End Readonly.

(** ** The alias a command names *)

Module Aliases.
Import Py.

(** The test of the loop over the aliases of the v05 agent: the command is
    the alias, or starts with it and a space. *)
Definition names (command alias : string) : bool :=
  String.eqb (strip command) alias
  || startswith (strip command) (alias ++ " ").

End Aliases.

(* ================================================================== *)
(** * The response of the model in the v04 agent *)
(* ================================================================== *)

Module V04Response.
Import Py Sys.

(** The table [extensions] of [save_script]. *)
Definition extensions : dict string :=
  [("python", ".py"); ("bash", ".sh"); ("shell", ".sh"); ("yaml", ".yaml");
   ("yml", ".yml"); ("docker", ".dockerfile");
   ("dockerfile", ".dockerfile"); ("terraform", ".tf"); ("json", ".json");
   ("js", ".js"); ("ansible", ".yml"); ("php", ".php"); ("ruby", ".rb");
   ("go", ".go"); ("java", ".java"); ("c", ".c"); ("cpp", ".cpp");
   ("csharp", ".cs"); ("sql", ".sql")].

Definition executable_kinds : list string := ["bash"; "shell"; "python"].

Definition with_extension (kind filename : string) : string :=
  if negb (contains "." filename)
  then match dict_get extensions kind with
       | Some ext => filename ++ ext
       | None => filename
       end
  else filename.

Section Agent.
Variable E : env.

(** The settings read from [self.config]: the directory of the scripts, and
    the truth values of [auto_execute_scripts] and [use_streaming]. *)
Variable scripts_dir : string.
Variable auto_execute_scripts : bool.
Variable use_streaming : bool.

(** [save_script(script_type, filename, content)]: the path written, or
    the message of the failure. *)
Definition save_script (w : V04.world) (script_type filename content : string)
  : string * V04.world :=
  let filename := with_extension (V05.lower script_type) filename in
  let filepath := PosixPath.join scripts_dir filename in
  match write_error (V04.fs w) filepath with
  | Some msg => ("Erreur lors de la sauvegarde: " ++ msg, w)
  | None =>
      let w1 := V04.emit w (WriteFile filepath content) in
      if mem (V05.lower script_type) executable_kinds
      then (filepath, V04.emit w1 (Chmod filepath))
      else (filepath, w1)
  end.

(** [result = call(...)], then the lines that show it: what the call
    raises leaves the loop, and so does what the console raises. *)
Definition reported (x : res string * V04.agent * V04.world)
  (report : string -> output) : res string * V04.agent * V04.world :=
  match x with
  | (Raise e, a1, w1) => (Raise e, a1, w1)
  | (Ret result, a1, w1) =>
      match V04.show E w1 (report result) with
      | (Some e, w2) => (Raise e, a1, w2)
      | (None, w2) => (Ret result, a1, w2)
      end
  end.

(** The body of the loop over the [EXEC] tags, and of the loop over the
    [SCRIPT] tags, each with what it shows. *)
Definition run_directive (a : V04.agent) (w : V04.world) (d : V05.directive)
  : res string * V04.agent * V04.world :=
  match d with
  | V05.Exec command =>
      reported (V04.execute_command E a w command) (CommandReport command)
  | V05.Script script_type script_name script_content =>
      let (filepath, w1) :=
        save_script w script_type script_name script_content in
      match V04.show E w1 (ScriptReport script_type filepath script_content)
      with
      | (Some e, w2) => (Raise e, a, w2)
      | (None, w2) =>
          if mem (V05.lower script_type) executable_kinds
             && auto_execute_scripts
          then
            match V04.ask E w2 (RunScriptNow filepath) with
            | (Raise e, w3) => (Raise e, a, w3)
            | (Ret run, w3) =>
                if run
                then
                  let cmd := if String.eqb (V05.lower script_type) "python"
                             then "python3 " ++ filepath else filepath in
                  reported (V04.execute_command E a w3 cmd) ScriptResult
                else (Ret filepath, a, w3)
            end
          else (Ret filepath, a, w2)
      end
  | _ => (Ret "", a, w)
  end.

(** One [for] loop: the bodies in turn, until one raises. *)
Fixpoint for_each (ds : list V05.directive) (a : V04.agent) (w : V04.world)
  : option exn * V04.agent * V04.world :=
  match ds with
  | [] => (None, a, w)
  | d :: rest =>
      match run_directive a w d with
      | (Raise e, a1, w1) => (Some e, a1, w1)
      | (Ret _, a1, w1) => for_each rest a1 w1
      end
  end.

(** The text shown when the answer was not streamed. *)
Definition clean_response (response : string) : string :=
  let clean_response := Re.sub (V05.exec_pattern false) response in
  let clean_response := Re.sub (V05.script_pattern false) clean_response in
  strip clean_response.

(** [process_response(response)]: nothing for an empty response; else the
    two loops, then, unless the answer was streamed, the text left, shown
    in a panel if it is not empty.  The method returns nothing: the
    outcome is the exception that leaves it, if any. *)
Definition process_response (a : V04.agent) (w : V04.world)
  (response : string) : option exn * V04.agent * V04.world :=
  if is_empty response then (None, a, w)
  else
    match for_each (V05.exec_directives response) a w with
    | (Some e, a1, w1) => (Some e, a1, w1)
    | (None, a1, w1) =>
        match for_each (V05.script_directives response) a1 w1 with
        | (Some e, a2, w2) => (Some e, a2, w2)
        | (None, a2, w2) =>
            if use_streaming then (None, a2, w2)
            else if is_empty (clean_response response) then (None, a2, w2)
            else
              let (r, w3) := V04.show E w2 (Panel (clean_response response)) in
              (r, a2, w3)
        end
    end.

End Agent.


End V04Response.

(** ** What the execution core of the v04 agent keeps *)

Module Frame04.
Import Py Sys.

(** The agents differ by the tracked directory at most. *)
Definition same_session (a a' : V04.agent) : Prop :=
  V04.cfg a' = V04.cfg a
  /\ V04.aliases a' = V04.aliases a
  /\ V04.conversation_history a' = V04.conversation_history a
  /\ V04.system_message a' = V04.system_message a.

(** What holds between the state before and the state after every call
    of the execution core: the same session, and a trace that has grown. *)
Definition kept (a : V04.agent) (w : V04.world) (a' : V04.agent)
  (w' : V04.world) : Prop :=
  same_session a a'
  /\ exists evs, V04.trace w' = (V04.trace w ++ evs)%list.

End Frame04.

(** ** [utils/safety.py]: rewriting a command *)

Module Sanitizer.
Import Py Re.

(** [re.sub(r, repl, s)] for a pattern that matches no empty text, the
    replacement computed from the groups of the match: the text outside
    the matches is kept, each match gives way to its replacement, and the
    search goes on after the match.  [skip] counts the characters of the
    current match still to pass. *)
Fixpoint sub_with_go (r : regex) (repl : groups -> string) (s : string)
  (skip : nat) : string :=
  match s with
  | EmptyString => EmptyString
  | String c s' =>
      match skip with
      | S skip' => sub_with_go r repl s' skip'
      | O =>
          match match_at r (String c s') with
          | Some (S len, g) => repl g ++ sub_with_go r repl s' len
          | _ => String c (sub_with_go r repl s' 0)
          end
      end
  end.

Definition sub_with (r : regex) (repl : groups -> string) (s : string)
  : string :=
  sub_with_go r repl s 0.

(** [[^\s]] *)
Definition not_space (c : ascii) : bool := negb (isspace c).

(** [rm\s+-rf] *)
Definition rm_rf : regex :=
  lits "rm" (Seq (Plus isspace) (lits "-r" (Lit "f"))).

(** [>\s+(/[^\s]+)] *)
Definition redirection : regex :=
  Seq (Lit ">")
    (Seq (Plus isspace) (Group 1 (Seq (Lit "/") (Plus not_space)))).

(** The replacement of a redirection, [\1] being the path (the letter
    before the last is U+00E9). *)
Definition notice (path : string) : string :=
  "| less # ATTENTION: redirection vers " ++ path ++ " retir"
  ++ String "233" "e".

(** [sanitize_command(command)] *)
Definition sanitize_command (command : string) : string :=
  let command := sub_with rm_rf (fun _ => "rm -i") command in
  let command :=
    sub_with redirection
      (fun g => notice match group g 1 with
                       | Some path => path
                       | None => ""
                       end)
      command in
  command.

(** Somewhere in [s] the character [x] comes just before a character of
    the class [p]. *)
Fixpoint char_then (x : ascii) (p : ascii -> bool) (s : string) : bool :=
  match s with
  | EmptyString => false
  | String c s' =>
      match s' with
      | EmptyString => false
      | String d _ => (Ascii.eqb c x && p d) || char_then x p s'
      end
  end.

(** [>] before white space. *)
Definition spaced_redirection (s : string) : bool :=
  char_then ">" isspace s.

(** White space, at least one character. *)
Definition blank (ws : string) : bool :=
  negb (is_empty ws) && Strings.all isspace ws.

(** A slash and at least one more character, none of them white space. *)
Definition slash_word (path : string) : bool :=
  match path with
  | String c w => Ascii.eqb c "/" && negb (is_empty w) && Strings.all not_space w
  | EmptyString => false
  end.

End Sanitizer.

(* ================================================================== *)
(** * Properties *)
(* ================================================================== *)

(** ** The bounded history *)

Module HistoryFacts.
Import Py History.

Lemma last_n_most_recent {A : Type} (n : nat) (l : list A) :
  1 <= n -> last_n n l = most_recent n l.
Proof.
  intros Hn. destruct n as [|n]; [lia|]. reflexivity.
Qed.

Lemma most_recent_all {A : Type} (n : nat) (l : list A) :
  List.length l <= n -> most_recent n l = l.
Proof.
  intros H. unfold most_recent.
  replace (List.length l - n) with 0 by lia. reflexivity.
Qed.

Lemma most_recent_length {A : Type} (n : nat) (l : list A) :
  List.length (most_recent n l) = Nat.min n (List.length l).
Proof.
  unfold most_recent. rewrite length_skipn. lia.
Qed.

Lemma most_recent_suffix {A : Type} (n : nat) (l : list A) :
  (firstn (List.length l - n) l ++ most_recent n l)%list = l.
Proof.
  unfold most_recent. apply firstn_skipn.
Qed.

(** Trimming after each of two additions is trimming once at the end. *)
Lemma most_recent_app {A : Type} (n : nat) (l r : list A) :
  most_recent n (most_recent n l ++ r) = most_recent n (l ++ r).
Proof.
  unfold most_recent.
  assert (Hd : (skipn (List.length l - n) l ++ r)%list
               = skipn (List.length l - n) (l ++ r)%list).
  { rewrite skipn_app.
    replace (List.length l - n - List.length l) with 0 by lia.
    reflexivity. }
  rewrite Hd, skipn_skipn. f_equal.
  rewrite length_skipn, !length_app. lia.
Qed.

Lemma add_message_most_recent (N : nat)
  (messages : list ContextManager.message) (role content now : string) :
  1 <= N ->
  ContextManager.add_message N messages role content now
  = most_recent N (messages ++ [ContextManager.Message role content now]).
Proof.
  intros HN. unfold ContextManager.add_message.
  destruct (Nat.ltb_spec N
    (List.length (messages ++ [ContextManager.Message role content now]))).
  - apply last_n_most_recent; assumption.
  - symmetry. apply most_recent_all. assumption.
Qed.

Lemma add_messages_most_recent (N : nat)
  (new messages : list ContextManager.message) :
  1 <= N -> List.length messages <= N ->
  ContextManager.add_messages N messages new = most_recent N (messages ++ new).
Proof.
  intros HN. revert messages.
  induction new as [|m rest IH]; intros messages Hlen; simpl.
  - rewrite app_nil_r. symmetry. apply most_recent_all. assumption.
  - rewrite add_message_most_recent by assumption.
    destruct m as [r c t]; simpl.
    rewrite IH.
    + rewrite most_recent_app, <- app_assoc. reflexivity.
    + rewrite most_recent_length. lia.
Qed.

Lemma call_mistral_api_most_recent (a : V05.agent)
  (user_message assistant_message : string) :
  V05.conversation_history
    (snd (V05.call_mistral_api a user_message (V05.ApiOk assistant_message)))
  = most_recent (2 * V05.MAX_HISTORY_ENTRIES)
      (V05.conversation_history a
         ++ [Sys.Message "user" user_message;
             Sys.Message "assistant" assistant_message]).
Proof.
  unfold V05.call_mistral_api. cbn [snd V05.set_conversation_history
    V05.conversation_history].
  replace (V05.MAX_HISTORY_ENTRIES * 2) with (2 * V05.MAX_HISTORY_ENTRIES)
    by apply Nat.mul_comm.
  match goal with |- context [Nat.ltb ?n (List.length ?l)] =>
    destruct (Nat.ltb_spec n (List.length l)) end.
  - apply last_n_most_recent. unfold V05.MAX_HISTORY_ENTRIES. lia.
  - symmetry. apply most_recent_all. assumption.
Qed.

End HistoryFacts.

(** C6 (as amended).  With a bound [N] of at least one, [add_message]
    leaves the [N] most recent messages: at most [N] of them, the older
    ones dropped from the front, the order kept; [N + 5] messages added to
    an empty history leave exactly the last [N].  In the v05 agent, where a
    successful call adds the question and the answer together, the history
    is cut to the [2 * MAX_HISTORY_ENTRIES] most recent messages. *)
Theorem history_keeps_most_recent :
  forall (N : nat) (messages new : list ContextManager.message)
         (role content now : string),
    1 <= N ->
    let m := ContextManager.Message role content now in
    let h := ContextManager.add_message N messages role content now in
    h = History.most_recent N (messages ++ [m])
    /\ List.length h <= N
    /\ (exists evicted, (messages ++ [m] = evicted ++ h)%list)
    /\ ContextManager.add_messages N [] new = History.most_recent N new
    /\ (List.length new = N + 5 ->
        ContextManager.add_messages N [] new = skipn 5 new
        /\ List.length (ContextManager.add_messages N [] new) = N)
    /\ (forall (a : V05.agent) (user_message assistant_message : string),
          let h5 := V05.conversation_history
                      (snd (V05.call_mistral_api a user_message
                              (V05.ApiOk assistant_message))) in
          h5 = History.most_recent (2 * V05.MAX_HISTORY_ENTRIES)
                 (V05.conversation_history a
                    ++ [Sys.Message "user" user_message;
                        Sys.Message "assistant" assistant_message])
          /\ List.length h5 <= 2 * V05.MAX_HISTORY_ENTRIES).
Proof.
  intros N messages new role content now HN m h.
  assert (Hh : h = History.most_recent N (messages ++ [m])).
  { apply HistoryFacts.add_message_most_recent. assumption. }
  assert (Hnew : ContextManager.add_messages N [] new
                 = History.most_recent N new).
  { rewrite HistoryFacts.add_messages_most_recent; simpl; [reflexivity|lia|lia]. }
  split; [exact Hh|].
  split; [rewrite Hh, HistoryFacts.most_recent_length; lia|].
  split.
  { exists (firstn (List.length (messages ++ [m]) - N) (messages ++ [m])).
    rewrite Hh. symmetry. apply HistoryFacts.most_recent_suffix. }
  split; [exact Hnew|].
  split.
  { intros Hlen. rewrite Hnew. unfold History.most_recent.
    rewrite Hlen. replace (N + 5 - N) with 5 by lia.
    split; [reflexivity|]. rewrite length_skipn. lia. }
  intros a user_message assistant_message h5. subst h5.
  rewrite HistoryFacts.call_mistral_api_most_recent.
  split; [reflexivity|]. rewrite HistoryFacts.most_recent_length. lia.
Qed.

(** The amended C6 at the bound 2, with seven messages added. *)
Lemma history_keeps_most_recent_witness :
  let five := repeat (ContextManager.Message "user" "old" "t0") 5 in
  let two := [ContextManager.Message "user" "q" "t1";
              ContextManager.Message "assistant" "r" "t2"] in
  ContextManager.add_messages 2 [] (five ++ two) = two.
Proof.
  intros five two.
  destruct (history_keeps_most_recent 2 [] (five ++ two) "user" "x" "t"
              (le_S 1 1 (le_n 1)))
    as (_ & _ & _ & _ & H & _).
  destruct (H eq_refl) as [H1 _]. exact H1.
Defined.

(** C6 (as stated) fails: with the bound 0 [add_message] keeps the message
    it was given, and in the v05 agent a history of 20 messages, the value
    of [MAX_HISTORY_ENTRIES], grows to 22. *)
Lemma history_bound_counterexample :
  List.length (ContextManager.add_message 0 [] "user" "hi" "t") = 1
  /\ V05.MAX_HISTORY_ENTRIES = 20
  /\ List.length
       (V05.conversation_history
          (snd (V05.call_mistral_api
                  (V05.set_conversation_history Sample.agent05 Sample.twenty)
                  "question" (V05.ApiOk "answer")))) = 22.
Proof.
  repeat split.
Qed.

(** ** Saved contexts *)

Module DictFacts.
Import Py.

Lemma dict_get_set_same {V : Type} (d : dict V) (k : string) (v : V) :
  dict_get (dict_set d k v) k = Some v.
Proof.
  induction d as [|[k' v'] d IH]; simpl.
  - rewrite String.eqb_refl. reflexivity.
  - destruct (String.eqb k k') eqn:Hk; simpl.
    + rewrite String.eqb_refl. reflexivity.
    + rewrite Hk. exact IH.
Qed.

Lemma dict_get_set_other {V : Type} (d : dict V) (k k' : string) (v : V) :
  k' <> k -> dict_get (dict_set d k v) k' = dict_get d k'.
Proof.
  intros Hne. induction d as [|[k0 v0] d IH]; simpl.
  - destruct (String.eqb_spec k' k); [contradiction|reflexivity].
  - destruct (String.eqb_spec k k0) as [->|Hk]; simpl.
    + destruct (String.eqb_spec k' k0); [contradiction|reflexivity].
    + destruct (String.eqb_spec k' k0); [reflexivity|exact IH].
Qed.


End DictFacts.

Module ContextFacts.
Import Py Sys.



End ContextFacts.



(** ** The execution engine *)

Module EngineFacts.
Import Py Sys Engine.

Lemma collect_loop_spec (E : env) (cmds : dict string) :
  forall (a : V05.agent) (w : V05.world),
    let '(a', w') := V05.collect_loop E cmds a w in
    V05.trace w' = (V05.trace w ++ probes cmds)%list
    /\ V05.getcwd w' = V05.getcwd w
    /\ V05.stored_config w' = V05.stored_config w
    /\ V05.current_dir a' = V05.current_dir a
    /\ V05.cfg a' = V05.cfg a
    /\ V05.config_file a' = V05.config_file a
    /\ V05.conversation_history a' = V05.conversation_history a
    /\ V05.system_message a' = V05.system_message a
    /\ V05.screen w' = V05.screen w.
Proof.
  induction cmds as [|[key command] rest IH]; intros a w; simpl.
  - rewrite app_nil_r. repeat split.
  - destruct (shell E (V05.fs w) command (V05.getcwd w)) as [p o].
    match goal with |- context [V05.collect_loop E rest ?a1 ?w1] =>
      specialize (IH a1 w1); destruct (V05.collect_loop E rest a1 w1) as [a' w']
    end.
    simpl in IH. destruct IH as (Ht & Hc & Hs & Hd & Hg & Hf & Hh & Hm & Hsc).
    rewrite Ht, <- app_assoc. repeat split; assumption.
Qed.

(** [record_command] touches the configuration and its file only. *)
Lemma record_command_spec (E : env) (a : V05.agent) (w : V05.world)
  (command : string) :
  let '(a1, w1) := V05.record_command E a w command in
  V05.trace w1 = V05.trace w
  /\ V05.fs w1 = V05.fs w
  /\ V05.getcwd w1 = V05.getcwd w
  /\ V05.current_dir a1 = V05.current_dir a
  /\ V05.conversation_history a1 = V05.conversation_history a
  /\ V05.system_message a1 = V05.system_message a
  /\ V05.aliases (V05.cfg a1) = V05.aliases (V05.cfg a)
  /\ V05.custom_commands (V05.cfg a1) = V05.custom_commands (V05.cfg a)
  /\ V05.screen w1 = V05.screen w.
Proof.
  unfold V05.record_command.
  destruct (negb (mem command ["pwd"; "clear"])
            && negb (startswith command "ls")).
  - unfold V05.save_config. cbn [V05.config_file V05.set_cfg].
    destruct (write_error (V05.fs w) (V05.config_file a)); simpl;
      repeat split.
  - repeat split.
Qed.

(** [pwd], [clear] and what starts with [ls] are not recorded. *)
Lemma record_command_skipped (E : env) (a : V05.agent) (w : V05.world)
  (command : string) :
  mem command ["pwd"; "clear"] || startswith command "ls" = true ->
  V05.record_command E a w command = (a, w).
Proof.
  intros H. unfold V05.record_command.
  destruct (mem command ["pwd"; "clear"]); [reflexivity|].
  cbn [orb] in H. rewrite H. reflexivity.
Qed.

(** The three outcomes of the handling of [cd] in the v05 agent. *)
Lemma change_directory_v05 (E : env) (a : V05.agent) (w : V05.world)
  (c : string) :
  let new_dir := V05.cd_target a w c in
  let '(r, a', w') := V05.change_directory E a w c in
  match isdir (V05.fs w) new_dir, chdir_error (V05.fs w) new_dir with
  | true, None =>
      r = msg_current_dir new_dir
      /\ V05.current_dir a' = new_dir
      /\ V05.getcwd w' = entered (V05.fs w) new_dir
      /\ V05.trace w'
         = (V05.trace w ++ Chdir new_dir :: probes V05.SYSTEM_INFO_COMMANDS)%list
      /\ V05.cfg a' = V05.cfg a
      /\ V05.conversation_history a' = V05.conversation_history a
      /\ V05.stored_config w' = V05.stored_config w
      /\ V05.screen w' = V05.screen w
  | true, Some msg => r = msg_chdir_failed msg /\ a' = a /\ w' = w
  | false, _ => r = msg_no_such_dir new_dir /\ a' = a /\ w' = w
  end.
Proof.
  intros new_dir. unfold V05.change_directory. fold new_dir.
  destruct (isdir (V05.fs w) new_dir); [|repeat split].
  destruct (chdir_error (V05.fs w) new_dir) as [msg|]; [repeat split|].
  unfold V05.collect_system_info.
  match goal with |- context [V05.collect_loop E ?cmds ?a1 ?w1] =>
    pose proof (collect_loop_spec E cmds a1 w1) as H;
    destruct (V05.collect_loop E cmds a1 w1) as [a2 w2]
  end.
  simpl in H. destruct H as (Ht & Hc & Hs & Hd & Hg & Hf & Hh & Hm & Hsc).
  rewrite Ht, <- app_assoc. repeat split; assumption.
Qed.

(** The three outcomes of the handling of [cd] in the v04 agent. *)
Lemma change_directory_v04 (a : V04.agent) (w : V04.world) (c : string) :
  let new_dir := V04.cd_target a w c in
  let '(r, a', w') := V04.change_directory a w c in
  match isdir (V04.fs w) new_dir, chdir_error (V04.fs w) new_dir with
  | true, None =>
      r = msg_current_dir new_dir
      /\ a' = V04.set_current_dir a new_dir
      /\ V04.getcwd w' = entered (V04.fs w) new_dir
      /\ V04.trace w' = (V04.trace w ++ [Chdir new_dir])%list
      /\ V04.contexts w' = V04.contexts w
      /\ V04.screen w' = V04.screen w
  | true, Some msg => r = msg_chdir_failed msg /\ a' = a /\ w' = w
  | false, _ => r = msg_no_such_dir new_dir /\ a' = a /\ w' = w
  end.
Proof.
  intros new_dir. unfold V04.change_directory. fold new_dir.
  destruct (isdir (V04.fs w) new_dir); [|repeat split].
  destruct (chdir_error (V04.fs w) new_dir) as [msg|]; repeat split.
Qed.

End EngineFacts.

(** C3 (as amended).  A command that, once its alias is replaced and it is
    stripped, starts with [cd] and a space is handled inside the agent: it
    is not recorded, not classified, the operator is asked nothing and no
    process is started for it.  The target is taken as it is when it starts
    with a slash (in the v04 agent a leading tilde is expanded to the home
    directory), and is joined to the tracked directory otherwise; [.] and
    [..] are resolved.  When the result is a directory that the process can
    enter, the tracked directory becomes that path and the message carries
    it (the v05 agent then runs its system information commands again);
    otherwise a failure message is returned and nothing changes.  The
    directory of the process is then the one the system reports for that
    path, which need not be the path itself. *)
Theorem cd_is_handled_in_process :
  forall (E : Sys.env) (command : string),
    (forall (a : V05.agent) (w : V05.world),
        let c := V05.expand_alias (V05.aliases (V05.cfg a)) command in
        Py.startswith (Py.strip c) "cd " = true ->
        let new_dir := V05.cd_target a w c in
        let '(r, a', w') := V05.execute_command E a w command in
        match Sys.isdir (V05.fs w) new_dir,
              Sys.chdir_error (V05.fs w) new_dir with
        | true, None =>
            r = Py.Ret (Sys.msg_current_dir new_dir)
            /\ V05.current_dir a' = new_dir
            /\ V05.getcwd w' = Sys.entered (V05.fs w) new_dir
            /\ V05.trace w'
               = (V05.trace w
                  ++ Sys.Chdir new_dir
                     :: Engine.probes V05.SYSTEM_INFO_COMMANDS)%list
            /\ V05.cfg a' = V05.cfg a
            /\ V05.stored_config w' = V05.stored_config w
        | true, Some msg =>
            r = Py.Ret (Sys.msg_chdir_failed msg) /\ a' = a /\ w' = w
        | false, _ =>
            r = Py.Ret (Sys.msg_no_such_dir new_dir) /\ a' = a /\ w' = w
        end)
    /\ (forall (a : V04.agent) (w : V04.world) (c : string),
        V04.expand_alias a command = Py.Ret c ->
        Py.startswith (Py.strip c) "cd " = true ->
        let new_dir := V04.cd_target a w c in
        let '(r, a', w') := V04.execute_command E a w command in
        match Sys.isdir (V04.fs w) new_dir,
              Sys.chdir_error (V04.fs w) new_dir with
        | true, None =>
            r = Py.Ret (Sys.msg_current_dir new_dir)
            /\ a' = V04.set_current_dir a new_dir
            /\ V04.getcwd w' = Sys.entered (V04.fs w) new_dir
            /\ V04.trace w' = (V04.trace w ++ [Sys.Chdir new_dir])%list
            /\ V04.contexts w' = V04.contexts w
        | true, Some msg =>
            r = Py.Ret (Sys.msg_chdir_failed msg) /\ a' = a /\ w' = w
        | false, _ =>
            r = Py.Ret (Sys.msg_no_such_dir new_dir) /\ a' = a /\ w' = w
        end).
Proof.
  intros E command. split.
  - intros a w c Hcd new_dir. unfold V05.execute_command. fold c.
    rewrite Hcd.
    pose proof (EngineFacts.change_directory_v05 E a w c) as H.
    cbv zeta in H. fold new_dir in H.
    destruct (V05.change_directory E a w c) as [[r a'] w'].
    destruct (Sys.isdir (V05.fs w) new_dir);
      [destruct (Sys.chdir_error (V05.fs w) new_dir)|].
    + destruct H as (-> & -> & ->). repeat split.
    + destruct H as (-> & H1 & H2 & H3 & H4 & _ & H5 & _).
      repeat split; assumption.
    + destruct H as (-> & -> & ->). repeat split.
  - intros a w c Hal Hcd new_dir. unfold V04.execute_command.
    rewrite Hal, Hcd.
    pose proof (EngineFacts.change_directory_v04 a w c) as H.
    cbv zeta in H. fold new_dir in H.
    destruct (V04.change_directory a w c) as [[r a'] w'].
    destruct (Sys.isdir (V04.fs w) new_dir);
      [destruct (Sys.chdir_error (V04.fs w) new_dir)|].
    + destruct H as (-> & -> & ->). repeat split.
    + destruct H as (-> & H1 & H2 & H3 & H4 & _). repeat split; assumption.
    + destruct H as (-> & -> & ->). repeat split.
Qed.

(** The amended C3 at [cd ..] from [/a/b] and at [cd /nonexistent]. *)
Lemma cd_is_handled_in_process_witness :
  (let '(r, a', w') :=
     V05.execute_command Sample.env0 Sample.agent05 Sample.world05 "cd .." in
   r = Py.Ret (Sys.msg_current_dir "/a")
   /\ V05.current_dir a' = "/a"
   /\ V05.getcwd w' = "/a"
   /\ V05.trace w'
      = Sys.Chdir "/a" :: Engine.probes V05.SYSTEM_INFO_COMMANDS
   /\ V05.cfg a' = V05.cfg Sample.agent05
   /\ V05.stored_config w' = None)
  /\ (let '(r, a', w') :=
        V05.execute_command Sample.env0 Sample.agent05 Sample.world05
          "cd /nonexistent" in
      r = Py.Ret (Sys.msg_no_such_dir "/nonexistent")
      /\ a' = Sample.agent05 /\ w' = Sample.world05)
  /\ (let '(r, a', w') :=
        V04.execute_command Sample.env0 Sample.agent04 Sample.world04 "cd .." in
      r = Py.Ret (Sys.msg_current_dir "/a")
      /\ a' = V04.set_current_dir Sample.agent04 "/a"
      /\ V04.getcwd w' = "/a"
      /\ V04.trace w' = [Sys.Chdir "/a"]
      /\ V04.contexts w' = Sys.Missing)
  /\ (let '(r, a', w') :=
        V04.execute_command Sample.env0 Sample.agent04 Sample.world04
          "cd /nonexistent" in
      r = Py.Ret (Sys.msg_no_such_dir "/nonexistent")
      /\ a' = Sample.agent04 /\ w' = Sample.world04).
Proof.
  split; [|split; [|split]].
  - exact (proj1 (cd_is_handled_in_process Sample.env0 "cd ..")
             Sample.agent05 Sample.world05 eq_refl).
  - exact (proj1 (cd_is_handled_in_process Sample.env0 "cd /nonexistent")
             Sample.agent05 Sample.world05 eq_refl).
  - exact (proj2 (cd_is_handled_in_process Sample.env0 "cd ..")
             Sample.agent04 Sample.world04 "cd .." eq_refl eq_refl).
  - exact (proj2 (cd_is_handled_in_process Sample.env0 "cd /nonexistent")
             Sample.agent04 Sample.world04 "cd /nonexistent" eq_refl eq_refl).
Defined.

(** C3 (as stated) fails in the v05 agent: [cd] alone is recorded, goes
    through the shell as a process of its own and leaves the tracked
    directory as it was; and a target that starts with a tilde is joined to
    the tracked directory like any relative path. *)
Lemma bare_cd_counterexample :
  (let '(r, a', w') :=
     V05.execute_command Sample.env0 Sample.agent05 Sample.world05 "cd" in
   V05.trace w' = [Sys.Spawn "cd" "/a/b"]
   /\ V05.current_dir a' = "/a/b")
  /\ (let '(r, a', w') :=
        V04.execute_command Sample.env0 Sample.agent04 Sample.world04 "cd" in
      V04.trace w' = [Sys.Spawn "cd" "/a/b"]
      /\ V04.current_dir a' = "/a/b")
  /\ V05.cd_target Sample.agent05 Sample.world05 "cd ~" = "/a/b/~".
Proof.
  repeat split.
Qed.

(** ** The confirmation gate *)

Module GateFacts.
Import Py Sys Gate.

Lemma no_spawn_nil : no_spawn [].
Proof. intros x d H. inversion H. Qed.

Lemma no_spawn_probes (cmds : dict string) :
  no_spawn (Engine.probes cmds).
Proof.
  intros x d H. induction cmds as [|kc cmds IH]; simpl in H; [exact H|].
  destruct H as [H|H]; [discriminate|auto].
Qed.

Lemma no_spawn_cons (e : event) (evs : list event) :
  (forall x d, e <> Spawn x d) -> no_spawn evs -> no_spawn (e :: evs).
Proof.
  intros He Hn x d [H|H]; [exact (He x d H)|exact (Hn x d H)].
Qed.

(** The process of a command: one [Spawn], then at most the probes. *)
Lemma run_process_spec (E : env) (a : V05.agent) (w : V05.world)
  (c : string) :
  let '(r, a', w') := V05.run_process E a w c in
  exists tail,
    V05.trace w' = (V05.trace w ++ Spawn c (V05.current_dir a) :: tail)%list
    /\ no_spawn tail.
Proof.
  unfold V05.run_process.
  destruct (shell E (V05.fs w) c (V05.current_dir a)) as [p o].
  destruct p as [returncode stdout stderr|msg];
    [destruct (negb (Z.eqb returncode 0));
     [|destruct (existsb (fun cmd => contains cmd c) V05.refresh_words)]|].
  - exists []. split; [reflexivity|apply no_spawn_nil].
  - unfold V05.collect_system_info.
    match goal with |- context [V05.collect_loop E ?cmds ?a1 ?w1] =>
      pose proof (EngineFacts.collect_loop_spec E cmds a1 w1) as H;
      destruct (V05.collect_loop E cmds a1 w1) as [a2 w2]
    end.
    destruct H as (Ht & _). simpl in Ht.
    exists (Engine.probes V05.SYSTEM_INFO_COMMANDS).
    split; [rewrite Ht, <- app_assoc; reflexivity|apply no_spawn_probes].
  - exists []. split; [reflexivity|apply no_spawn_nil].
  - exists []. split; [reflexivity|apply no_spawn_nil].
Qed.

(** The warning and the question leave the files, the directory and the
    configuration file alone. *)
Lemma confirm_dangerous_spec (E : env) (w : V05.world) (c : string) :
  let '(r, w') := V05.confirm_dangerous E w c in
  V05.fs w' = V05.fs w
  /\ V05.getcwd w' = V05.getcwd w
  /\ V05.stored_config w' = V05.stored_config w
  /\ match console E (V05.screen w) (Warning c) with
     | Some e => r = Raise e /\ w' = w
     | None =>
         V05.screen w' = (V05.screen w ++ [Warning c])%list
         /\ match operator E (V05.trace w) (ConfirmDangerous c) with
            | Raise e => r = Raise e /\ V05.trace w' = V05.trace w
            | Ret answer =>
                r = Ret answer
                /\ V05.trace w'
                   = (V05.trace w ++ [Asked (ConfirmDangerous c) answer])%list
            end
     end.
Proof.
  unfold V05.confirm_dangerous, V05.show, V05.ask.
  destruct (console E (V05.screen w) (Warning c)) as [e|]; [repeat split|].
  cbn [V05.shown V05.trace].
  destruct (operator E (V05.trace w) (ConfirmDangerous c)) as [answer|e];
    repeat split.
Qed.

(** A command that is no [cd] goes through the gate with the text it has
    once the alias is replaced. *)
Lemma execute_command_gated (E : env) (a : V05.agent) (w : V05.world)
  (command : string) :
  let c := V05.expand_alias (V05.aliases (V05.cfg a)) command in
  startswith (strip c) "cd " = false ->
  let '(r, a', w') := V05.execute_command E a w command in
  exists evs,
    V05.trace w' = (V05.trace w ++ evs)%list /\ gated E a w c evs.
Proof.
  intros c Hcd. unfold V05.execute_command. fold c. rewrite Hcd.
  pose proof (EngineFacts.record_command_spec E a w c) as Hrec.
  destruct (V05.record_command E a w c) as [a1 w1].
  destruct Hrec as (Ht1 & _ & _ & Hd1 & _ & _ & _ & _ & Hs1).
  unfold gated, started.
  destruct (V05.is_dangerous_command c) as [dangerous|e] eqn:Hdc.
  - destruct dangerous.
    + pose proof (confirm_dangerous_spec E w1 c) as Hask.
      destruct (V05.confirm_dangerous E w1 c) as [r2 w2].
      destruct Hask as (_ & _ & _ & Hask). rewrite Hs1, Ht1 in Hask.
      destruct (console E (V05.screen w) (Warning c)) as [e|].
      * destruct Hask as [-> ->]. exists []. rewrite app_nil_r. auto.
      * destruct Hask as [_ Hask].
        destruct (operator E (V05.trace w) (ConfirmDangerous c))
          as [answer|e].
        -- destruct Hask as [-> Ht2]. destruct answer.
           ++ pose proof (run_process_spec E a1 w2 c) as H.
              destruct (V05.run_process E a1 w2 c) as [[r a3] w3].
              destruct H as (tail & Ht & Hn).
              rewrite Ht2, Hd1, <- app_assoc in Ht.
              eexists. split; [exact Ht|].
              eexists. split; [reflexivity|]. exists tail. auto.
           ++ eexists. split; [exact Ht2|reflexivity].
        -- destruct Hask as [-> Ht2]. exists []. rewrite app_nil_r. auto.
    + pose proof (run_process_spec E a1 w1 c) as H.
      destruct (V05.run_process E a1 w1 c) as [[r a3] w3].
      destruct H as (tail & Ht & Hn). rewrite Ht1, Hd1 in Ht.
      eexists. split; [exact Ht|]. exists tail. auto.
  - exists []. rewrite app_nil_r. auto.
Qed.

(** A [cd] starts no process for a command. *)
Lemma execute_command_cd (E : env) (a : V05.agent) (w : V05.world)
  (command : string) :
  let c := V05.expand_alias (V05.aliases (V05.cfg a)) command in
  startswith (strip c) "cd " = true ->
  let '(r, a', w') := V05.execute_command E a w command in
  exists evs,
    V05.trace w' = (V05.trace w ++ evs)%list /\ no_spawn evs.
Proof.
  intros c Hcd. unfold V05.execute_command. fold c. rewrite Hcd.
  pose proof (EngineFacts.change_directory_v05 E a w c) as H.
  cbv zeta in H.
  destruct (V05.change_directory E a w c) as [[r a1] w1].
  destruct (isdir (V05.fs w) (V05.cd_target a w c)).
  - destruct (chdir_error (V05.fs w) (V05.cd_target a w c)) as [msg|].
    + destruct H as (_ & _ & ->). exists []. rewrite app_nil_r.
      split; [reflexivity|apply no_spawn_nil].
    + destruct H as (_ & _ & _ & Ht & _). eexists. split; [exact Ht|].
      apply no_spawn_cons; [discriminate|apply no_spawn_probes].
  - destruct H as (_ & _ & ->). exists []. rewrite app_nil_r.
    split; [reflexivity|apply no_spawn_nil].
Qed.

End GateFacts.

(** C4 (as amended).  When a command that is not a [cd] is classified
    dangerous, the warning is shown and the operator declines, the result
    is the cancellation message and no process is started: the trace gains
    the question and its answer only, and the tracked directory, the
    directory of the process, the file system and the conversation history
    are as before.  In the v04 agent the agent and the world are unchanged
    altogether, the question apart; in the v05 agent the command has by
    then been recorded in the command history of the configuration, and
    the configuration saved, unless the command is [pwd], [clear] or
    starts with [ls].  When the console cannot show the warning, or the
    prompt raises instead of giving an answer, the exception leaves
    [execute_command]: no process is started and nothing is added to the
    trace, and in the v05 agent the command has been recorded all the
    same. *)
Theorem declined_command_is_cancelled :
  forall (E : Sys.env) (command : string),
    (forall (a : V05.agent) (w : V05.world),
        let c := V05.expand_alias (V05.aliases (V05.cfg a)) command in
        Py.startswith (Py.strip c) "cd " = false ->
        V05.is_dangerous_command c = Py.Ret true ->
        Sys.console E (V05.screen w) (Sys.Warning c) = None ->
        Sys.operator E (V05.trace w) (Sys.ConfirmDangerous c) = Py.Ret false ->
        let '(r, a', w') := V05.execute_command E a w command in
        r = Py.Ret V05.cancelled
        /\ (a', w')
           = (let '(a1, w1) := V05.record_command E a w c in
              (a1, V05.emit (V05.shown w1 (Sys.Warning c))
                     (Sys.Asked (Sys.ConfirmDangerous c) false)))
        /\ V05.trace w'
           = (V05.trace w ++ [Sys.Asked (Sys.ConfirmDangerous c) false])%list
        /\ V05.screen w' = (V05.screen w ++ [Sys.Warning c])%list
        /\ V05.current_dir a' = V05.current_dir a
        /\ V05.getcwd w' = V05.getcwd w
        /\ V05.fs w' = V05.fs w
        /\ V05.conversation_history a' = V05.conversation_history a
        /\ (Py.mem c ["pwd"; "clear"] || Py.startswith c "ls" = true ->
            a' = a /\ V05.stored_config w' = V05.stored_config w))
    /\ (forall (a : V05.agent) (w : V05.world) (e : Py.exn),
        let c := V05.expand_alias (V05.aliases (V05.cfg a)) command in
        Py.startswith (Py.strip c) "cd " = false ->
        V05.is_dangerous_command c = Py.Ret true ->
        Sys.console E (V05.screen w) (Sys.Warning c) = Some e
        \/ (Sys.console E (V05.screen w) (Sys.Warning c) = None
            /\ Sys.operator E (V05.trace w) (Sys.ConfirmDangerous c)
               = Py.Raise e) ->
        let '(r, a', w') := V05.execute_command E a w command in
        r = Py.Raise e
        /\ a' = fst (V05.record_command E a w c)
        /\ V05.trace w' = V05.trace w
        /\ V05.fs w' = V05.fs w)
    /\ (forall (a : V04.agent) (w : V04.world) (c : string),
        V04.expand_alias a command = Py.Ret c ->
        Py.startswith (Py.strip c) "cd " = false ->
        V04.is_dangerous_command a c = Py.Ret true ->
        Sys.operator E (V04.trace w) (Sys.ConfirmDangerous c) = Py.Ret false ->
        V04.execute_command E a w command
        = (Py.Ret V04.cancelled, a,
           V04.emit w (Sys.Asked (Sys.ConfirmDangerous c) false)))
    /\ (forall (a : V04.agent) (w : V04.world) (c : string) (e : Py.exn),
        V04.expand_alias a command = Py.Ret c ->
        Py.startswith (Py.strip c) "cd " = false ->
        V04.is_dangerous_command a c = Py.Ret true ->
        Sys.operator E (V04.trace w) (Sys.ConfirmDangerous c) = Py.Raise e ->
        V04.execute_command E a w command = (Py.Raise e, a, w)).
Proof.
  intros E command. split; [|split; [|split]].
  - intros a w c Hcd Hd Hcons Hop. unfold V05.execute_command. fold c.
    rewrite Hcd, Hd.
    pose proof (EngineFacts.record_command_spec E a w c) as Hrec.
    pose proof (EngineFacts.record_command_skipped E a w c) as Hskip.
    destruct (V05.record_command E a w c) as [a1 w1].
    destruct Hrec as (Ht & Hf & Hg & Hcur & Hh & _ & _ & _ & Hs).
    unfold V05.confirm_dangerous, V05.show, V05.ask.
    rewrite Hs, Hcons. cbn [V05.shown V05.trace]. rewrite Ht, Hop.
    cbn [V05.emit V05.shown V05.trace V05.screen V05.getcwd V05.fs
         V05.stored_config].
    rewrite Ht, Hs.
    split; [reflexivity|]. split; [reflexivity|]. split; [reflexivity|].
    split; [reflexivity|]. split; [exact Hcur|]. split; [exact Hg|].
    split; [exact Hf|]. split; [exact Hh|].
    intros Hls. apply Hskip in Hls. inversion Hls. split; reflexivity.
  - intros a w e c Hcd Hd Hraise. unfold V05.execute_command. fold c.
    rewrite Hcd, Hd.
    pose proof (EngineFacts.record_command_spec E a w c) as Hrec.
    destruct (V05.record_command E a w c) as [a1 w1].
    destruct Hrec as (Ht & Hf & Hg & Hcur & Hh & _ & _ & _ & Hs).
    unfold V05.confirm_dangerous, V05.show, V05.ask. rewrite Hs.
    destruct Hraise as [Hcons|[Hcons Hop]]; rewrite Hcons.
    + repeat split; assumption.
    + cbn [V05.shown V05.trace]. rewrite Ht, Hop.
      repeat split; assumption.
  - intros a w c Hal Hcd Hd Hop. unfold V04.execute_command, V04.ask.
    rewrite Hal, Hcd, Hd, Hop. reflexivity.
  - intros a w c e Hal Hcd Hd Hop. unfold V04.execute_command, V04.ask.
    rewrite Hal, Hcd, Hd, Hop. reflexivity.
Qed.

(** The amended C4 at [rm -rf /] with an operator who declines. *)
Lemma declined_command_is_cancelled_witness :
  (let '(r, a', w') :=
     V05.execute_command Sample.env0 Sample.agent05 Sample.world05 "rm -rf /" in
   r = Py.Ret V05.cancelled
   /\ (a', w')
      = (let '(a1, w1) :=
           V05.record_command Sample.env0 Sample.agent05 Sample.world05
             "rm -rf /" in
         (a1, V05.emit (V05.shown w1 (Sys.Warning "rm -rf /"))
                (Sys.Asked (Sys.ConfirmDangerous "rm -rf /") false)))
   /\ V05.trace w' = [Sys.Asked (Sys.ConfirmDangerous "rm -rf /") false]
   /\ V05.screen w' = [Sys.Warning "rm -rf /"]
   /\ V05.current_dir a' = "/a/b"
   /\ V05.getcwd w' = "/a/b"
   /\ V05.fs w' = Sample.fs0
   /\ V05.conversation_history a' = [])
  /\ V04.execute_command Sample.env0 Sample.agent04 Sample.world04 "rm -rf /"
     = (Py.Ret V04.cancelled, Sample.agent04,
        V04.emit Sample.world04
          (Sys.Asked (Sys.ConfirmDangerous "rm -rf /") false)).
Proof.
  split.
  - pose proof (proj1 (declined_command_is_cancelled Sample.env0 "rm -rf /")
                  Sample.agent05 Sample.world05 eq_refl eq_refl eq_refl
                  eq_refl) as H.
    cbv zeta in H.
    destruct (V05.execute_command Sample.env0 Sample.agent05 Sample.world05
                "rm -rf /") as [[r a'] w'].
    destruct H as (H1 & H2 & H3 & H4 & H5 & H6 & H7 & H8 & _).
    repeat split; assumption.
  - exact (proj1 (proj2 (proj2 (declined_command_is_cancelled Sample.env0
                                  "rm -rf /")))
             Sample.agent04 Sample.world04 "rm -rf /"
             eq_refl eq_refl eq_refl eq_refl).
Defined.

(** C4 (as stated) fails in the v05 agent: after [rm -rf /] was declined
    the configuration holds the command in its history and the
    configuration file, missing before, has been written. *)
Lemma declined_command_counterexample :
  let '(r, a', w') :=
    V05.execute_command Sample.env0 Sample.agent05 Sample.world05 "rm -rf /" in
  r = Py.Ret V05.cancelled
  /\ V05.command_history (V05.cfg Sample.agent05) = None
  /\ V05.command_history (V05.cfg a')
     = Some [V05.HistoryEntry "rm -rf /" "2024-01-01T00:00:00" "/a/b"]
  /\ V05.stored_config Sample.world05 = None
  /\ V05.stored_config w' = Some (V05.cfg a').
Proof.
  repeat split.
Qed.

(** ** The classifier *)

Module ClassifierFacts.
Import Py Sys Shlex Classifier.

(** [c in s] for a one-character [c]. *)
Lemma contains_char_cons (x c : ascii) (s : string) :
  contains (String x "") (String c s)
  = Ascii.eqb x c || contains (String x "") s.
Proof.
  simpl. destruct (ascii_dec x c) as [->|Hne].
  - rewrite Ascii.eqb_refl. destruct s; reflexivity.
  - destruct (Ascii.eqb_spec x c); [contradiction|reflexivity].
Qed.

Lemma contains_char_nil (x : ascii) : contains (String x "") "" = false.
Proof. reflexivity. Qed.

(** Once a token has been started the lexer returns at least one. *)
Lemma lex_in_token (s : string) :
  forall (st : state) (tok : string), in_token st -> lex st tok s <> Ret [].
Proof.
  induction s as [|c s IH]; intros st tok Hst.
  - destruct st; simpl; try discriminate. contradiction.
  - destruct st as [| |q|st']; simpl.
    + contradiction.
    + destruct (whitespace c).
      * destruct (lex InSpace "" s); simpl; discriminate.
      * destruct (is_quote c); [apply IH; exact I|].
        destruct (is_escape c); apply IH; exact I.
    + destruct (Ascii.eqb c q); [apply IH; exact I|].
      destruct (is_escape c && in_escapedquotes q); apply IH; exact I.
    + apply IH. exact Hst.
Qed.

(** A text with a character that is not white space has a token. *)
Lemma lex_some_token (x : ascii) (s : string) :
  whitespace x = false -> contains (String x "") s = true ->
  lex InSpace "" s <> Ret [].
Proof.
  intros Hx. induction s as [|c s IH]; intros Hc.
  - discriminate.
  - rewrite contains_char_cons in Hc. simpl.
    destruct (whitespace c) eqn:Hw.
    + apply IH. destruct (Ascii.eqb_spec x c) as [->|_].
      * congruence.
      * exact Hc.
    + destruct (is_escape c); [apply lex_in_token; exact I|].
      destruct (is_quote c); apply lex_in_token; exact I.
Qed.

(** A quote that is opened and never closed. *)
Lemma lex_open_quote (post : string) :
  forall tok : string,
    contains "'" post = false ->
    lex (InQuote "'") tok post = Raise (ValueError "No closing quotation").
Proof.
  induction post as [|c post IH]; intros tok Hc; [reflexivity|].
  rewrite contains_char_cons in Hc. apply orb_false_elim in Hc.
  destruct Hc as [Hc1 Hc2]. simpl.
  rewrite Ascii.eqb_sym, Hc1, andb_false_r.
  apply IH. exact Hc2.
Qed.

Lemma plain_cons (c : ascii) (s : string) :
  plain (String c s) -> is_quote c = false /\ is_escape c = false /\ plain s.
Proof.
  unfold plain. rewrite !contains_char_cons.
  intros (H1 & H2 & H3).
  apply orb_false_elim in H1. apply orb_false_elim in H2.
  apply orb_false_elim in H3.
  destruct H1 as [H1 H1']. destruct H2 as [H2 H2']. destruct H3 as [H3 H3'].
  unfold is_quote, is_escape.
  rewrite (Ascii.eqb_sym c "'"), H1, (Ascii.eqb_sym c "034"), H2,
    (Ascii.eqb_sym c "\"), H3.
  auto.
Qed.

(** An opening quote with no closing one makes the lexer raise, whatever
    plain text comes before it. *)
Lemma lex_unbalanced (pre post : string) :
  forall (st : state) (tok : string),
    st = InSpace \/ st = InWord ->
    plain pre -> contains "'" post = false ->
    lex st tok (pre ++ String "'" post)
    = Raise (ValueError "No closing quotation").
Proof.
  induction pre as [|c pre IH]; intros st tok Hst Hpre Hpost.
  - destruct Hst as [-> | ->]; simpl; apply lex_open_quote; exact Hpost.
  - apply plain_cons in Hpre. destruct Hpre as (Hq & He & Hpre).
    destruct Hst as [-> | ->]; simpl; rewrite ?Hq, ?He.
    + destruct (whitespace c); apply IH; auto.
    + destruct (whitespace c).
      * rewrite IH by auto. reflexivity.
      * apply IH; auto.
Qed.

(** The classifier of the v05 agent answers with a boolean exactly when
    [shlex.split] returns, and raises its exception otherwise. *)
Lemma is_dangerous_command_outcome (command : string) :
  match Shlex.split command with
  | Ret _ => exists b, V05.is_dangerous_command command = Ret b
  | Raise e => V05.is_dangerous_command command = Raise e
  end.
Proof.
  unfold V05.is_dangerous_command.
  destruct (Shlex.split command) as [parts|e]; cbn [bind]; [|reflexivity].
  destruct parts as [|base_cmd rest]; [eexists; reflexivity|].
  repeat match goal with
         | |- context [if ?b then _ else _] => destruct b
         end; eexists; reflexivity.
Qed.

(** A redirection makes a command dangerous as soon as it can be split. *)
Lemma redirection_dangerous_v05 (command : string) :
  contains ">" command = true ->
  match Shlex.split command with
  | Ret _ => V05.is_dangerous_command command = Ret true
  | Raise e => V05.is_dangerous_command command = Raise e
  end.
Proof.
  intros Hc. unfold V05.is_dangerous_command.
  pose proof (lex_some_token ">" command eq_refl Hc) as Hne.
  unfold Shlex.split in *.
  destruct (lex InSpace "" command) as [parts|e]; cbn [bind]; [|reflexivity].
  destruct parts as [|base_cmd rest]; [congruence|].
  rewrite Hc. cbn [orb].
  destruct (mem base_cmd V05.DANGEROUS_COMMANDS); reflexivity.
Qed.

Lemma redirection_dangerous_v04 (a : V04.agent) (command : string) :
  contains ">" command = true ->
  match Shlex.split command with
  | Ret _ => V04.is_dangerous_command a command = Ret true
  | Raise e => V04.is_dangerous_command a command = Raise e
  end.
Proof.
  intros Hc. unfold V04.is_dangerous_command.
  destruct command as [|c0 command0]; [discriminate|].
  cbn [is_empty].
  pose proof (lex_some_token ">" _ eq_refl Hc) as Hne.
  unfold Shlex.split in *.
  destruct (lex InSpace "" (String c0 command0)) as [parts|e]; cbn [bind];
    [|reflexivity].
  destruct parts as [|base_cmd rest]; [congruence|].
  rewrite Hc. cbn [orb].
  destruct (mem base_cmd (V04.dangerous_commands (V04.cfg a))); reflexivity.
Qed.

Lemma redirection_unsafe (command : string) :
  contains ">" command = true -> Safety.is_safe command = false.
Proof.
  intros Hc. unfold Safety.is_safe.
  assert (H : existsb (fun dangerous => contains dangerous command)
                Safety.DANGEROUS_COMMANDS = true).
  { apply existsb_exists. exists ">". split; [|exact Hc].
    unfold Safety.DANGEROUS_COMMANDS. simpl. tauto. }
  rewrite H. reflexivity.
Qed.

End ClassifierFacts.

(** C1 (as amended).  Every command that contains [>] is classified
    dangerous, wherever the redirection leads: by the classifier of the
    agents as soon as the command can be split into words (the exception of
    [shlex.split] leaves the classifier otherwise), and by
    [check_command_safety] always.  In particular [rm -rf /],
    [echo hi > /etc/passwd] and [echo hi > /tmp/out.txt] are dangerous and
    [ls -la] is safe. *)
Theorem redirection_is_dangerous :
  (forall command : string,
      Py.contains ">" command = true ->
      match Shlex.split command with
      | Py.Ret _ => V05.is_dangerous_command command = Py.Ret true
      | Py.Raise e => V05.is_dangerous_command command = Py.Raise e
      end
      /\ (forall a : V04.agent,
             match Shlex.split command with
             | Py.Ret _ => V04.is_dangerous_command a command = Py.Ret true
             | Py.Raise e => V04.is_dangerous_command a command = Py.Raise e
             end)
      /\ Safety.check_command_safety [command] = ([], [command]))
  /\ map V05.is_dangerous_command
       ["rm -rf /"; "ls -la"; "echo hi > /etc/passwd"; "echo hi > /tmp/out.txt"]
     = [Py.Ret true; Py.Ret false; Py.Ret true; Py.Ret true]
  /\ map (V04.is_dangerous_command Sample.agent04)
       ["rm -rf /"; "ls -la"; "echo hi > /etc/passwd"; "echo hi > /tmp/out.txt"]
     = [Py.Ret true; Py.Ret false; Py.Ret true; Py.Ret true]
  /\ Safety.check_command_safety
       ["rm -rf /"; "ls -la"; "echo hi > /etc/passwd"; "echo hi > /tmp/out.txt"]
     = (["ls -la"],
        ["rm -rf /"; "echo hi > /etc/passwd"; "echo hi > /tmp/out.txt"]).
Proof.
  split; [|repeat split].
  intros command Hc. split; [|split].
  - apply ClassifierFacts.redirection_dangerous_v05. exact Hc.
  - intros a. apply ClassifierFacts.redirection_dangerous_v04. exact Hc.
  - cbn [Safety.check_command_safety].
    rewrite ClassifierFacts.redirection_unsafe by exact Hc. reflexivity.
Qed.

(** The amended C1 at a redirection into [/tmp]. *)
Lemma redirection_is_dangerous_witness :
  V05.is_dangerous_command "echo hi > /tmp/out.txt" = Py.Ret true
  /\ (forall a : V04.agent,
         V04.is_dangerous_command a "echo hi > /tmp/out.txt" = Py.Ret true)
  /\ Safety.check_command_safety ["echo hi > /tmp/out.txt"]
     = ([], ["echo hi > /tmp/out.txt"]).
Proof.
  exact (proj1 redirection_is_dangerous "echo hi > /tmp/out.txt" eq_refl).
Defined.

(** C1 (as stated) fails: the redirection of [echo hi > /tmp/out.txt] leads
    under no protected prefix, and the command holds neither [rm] nor [mv],
    yet it is classified dangerous. *)
Lemma redirection_counterexample :
  V05.is_dangerous_command "echo hi > /tmp/out.txt" = Py.Ret true
  /\ Safety.check_command_safety ["echo hi > /tmp/out.txt"]
     = ([], ["echo hi > /tmp/out.txt"])
  /\ existsb (fun path => Py.contains path "echo hi > /tmp/out.txt")
       Safety.system_paths = false
  /\ Py.contains "rm" "echo hi > /tmp/out.txt" = false
  /\ Py.contains "mv" "echo hi > /tmp/out.txt" = false.
Proof.
  repeat split.
Qed.

(** C5 (as amended).  The classifier takes any text: it answers with a
    boolean, and no reason, when [shlex.split] returns, and otherwise the
    [ValueError] of [shlex.split] leaves it; so it does for an opening
    quote that is never closed.  It starts nothing itself, and when it
    raises inside [execute_command] the exception leaves that method too
    before any question is asked or any process started, the tracked
    directory being as before. *)
Theorem unparseable_command_raises :
  forall (E : Sys.env) (command : string),
    match Shlex.split command with
    | Py.Ret _ => exists b, V05.is_dangerous_command command = Py.Ret b
    | Py.Raise e => V05.is_dangerous_command command = Py.Raise e
    end
    /\ (forall pre post : string,
           command = pre ++ String "'" post ->
           Classifier.plain pre ->
           Py.contains "'" post = false ->
           V05.is_dangerous_command command
           = Py.Raise (Py.ValueError "No closing quotation"))
    /\ (forall (a : V05.agent) (w : V05.world) (e : Py.exn),
           let c := V05.expand_alias (V05.aliases (V05.cfg a)) command in
           Py.startswith (Py.strip c) "cd " = false ->
           Shlex.split c = Py.Raise e ->
           let '(r, a', w') := V05.execute_command E a w command in
           r = Py.Raise e
           /\ V05.trace w' = V05.trace w
           /\ V05.fs w' = V05.fs w
           /\ V05.getcwd w' = V05.getcwd w
           /\ V05.current_dir a' = V05.current_dir a)
    /\ (forall (a : V04.agent) (w : V04.world) (c : string) (e : Py.exn),
           V04.expand_alias a command = Py.Ret c ->
           Py.startswith (Py.strip c) "cd " = false ->
           Shlex.split c = Py.Raise e ->
           V04.execute_command E a w command = (Py.Raise e, a, w)).
Proof.
  intros E command. split; [|split; [|split]].
  - apply ClassifierFacts.is_dangerous_command_outcome.
  - intros pre post -> Hpre Hpost. unfold V05.is_dangerous_command, Shlex.split.
    rewrite ClassifierFacts.lex_unbalanced by auto. reflexivity.
  - intros a w e c Hcd He. unfold V05.execute_command. fold c. rewrite Hcd.
    pose proof (EngineFacts.record_command_spec E a w c) as Hrec.
    destruct (V05.record_command E a w c) as [a1 w1].
    destruct Hrec as (Ht & Hf & Hg & Hcur & _).
    unfold V05.is_dangerous_command. rewrite He. cbn [Py.bind].
    repeat split; assumption.
  - intros a w c e Hal Hcd He. unfold V04.execute_command.
    rewrite Hal, Hcd. unfold V04.is_dangerous_command.
    destruct c as [|c0 c']; [discriminate|].
    cbn [Py.is_empty]. rewrite He. reflexivity.
Qed.

(** The amended C5 at [echo 'hi]. *)
Lemma unparseable_command_raises_witness :
  V05.is_dangerous_command "echo 'hi"
  = Py.Raise (Py.ValueError "No closing quotation")
  /\ (let '(r, a', w') :=
        V05.execute_command Sample.env0 Sample.agent05 Sample.world05
          "echo 'hi" in
      r = Py.Raise (Py.ValueError "No closing quotation")
      /\ V05.trace w' = []
      /\ V05.fs w' = Sample.fs0
      /\ V05.getcwd w' = "/a/b"
      /\ V05.current_dir a' = "/a/b")
  /\ V04.execute_command Sample.env0 Sample.agent04 Sample.world04 "echo 'hi"
     = (Py.Raise (Py.ValueError "No closing quotation"),
        Sample.agent04, Sample.world04).
Proof.
  pose proof (unparseable_command_raises Sample.env0 "echo 'hi")
    as (_ & H2 & H3 & H4).
  split; [|split].
  - apply (H2 "echo " "hi" eq_refl); repeat split.
  - exact (H3 Sample.agent05 Sample.world05
             (Py.ValueError "No closing quotation") eq_refl eq_refl).
  - exact (H4 Sample.agent04 Sample.world04 "echo 'hi"
             (Py.ValueError "No closing quotation") eq_refl eq_refl eq_refl).
Defined.

(** C5 (as stated) fails: on [echo 'hi] the classifier does not return
    dangerous, nor anything else; [ValueError] leaves it and leaves
    [execute_command]. *)
Lemma unparseable_counterexample :
  V05.is_dangerous_command "echo 'hi"
  = Py.Raise (Py.ValueError "No closing quotation")
  /\ V04.is_dangerous_command Sample.agent04 "echo 'hi"
     = Py.Raise (Py.ValueError "No closing quotation")
  /\ fst (fst (V05.execute_command Sample.env0 Sample.agent05 Sample.world05
                 "echo 'hi"))
     = Py.Raise (Py.ValueError "No closing quotation").
Proof.
  repeat split.
Qed.

(** ** Texts *)

Module StringFacts.
Import Py Strings.

Lemma append_nil_r (s : string) : s ++ "" = s.
Proof. induction s; simpl; congruence. Qed.

Lemma append_assoc (s t u : string) : (s ++ t) ++ u = s ++ t ++ u.
Proof. induction s; simpl; congruence. Qed.

Lemma length_append (s t : string) :
  String.length (s ++ t) = String.length s + String.length t.
Proof. induction s; simpl; congruence. Qed.

Lemma all_append (p : ascii -> bool) (s t : string) :
  all p (s ++ t) = all p s && all p t.
Proof.
  induction s as [|c s IH]; simpl; [reflexivity|].
  rewrite IH, andb_assoc. reflexivity.
Qed.

Lemma take_append (x r : string) :
  take (String.length (x ++ r) - String.length r) (x ++ r) = x.
Proof.
  rewrite length_append.
  replace (String.length x + String.length r - String.length r)
    with (String.length x) by lia.
  induction x as [|c x IH]; simpl.
  - destruct r; reflexivity.
  - rewrite IH. reflexivity.
Qed.

Lemma drop_append (x r : string) : drop (String.length x) (x ++ r) = r.
Proof. induction x; simpl; [destruct r; reflexivity|assumption]. Qed.

(** [c in s] unfolded by one character. *)
Lemma contains_cons (x c : ascii) (s : string) :
  contains (String x "") (String c s)
  = Ascii.eqb x c || contains (String x "") s.
Proof. exact (ClassifierFacts.contains_char_cons x c s). Qed.

(** A text without the character [x], as a class. *)
Lemma contains_all (x : ascii) (s : string) :
  contains (String x "") s = negb (all (fun c => negb (Ascii.eqb x c)) s).
Proof.
  induction s as [|c s IH]; [reflexivity|].
  rewrite contains_cons, IH. simpl.
  destruct (Ascii.eqb x c); reflexivity.
Qed.

Lemma contains_append (x : ascii) (s t : string) :
  contains (String x "") (s ++ t)
  = contains (String x "") s || contains (String x "") t.
Proof.
  rewrite !contains_all, all_append.
  destruct (all _ s), (all _ t); reflexivity.
Qed.

End StringFacts.

(** ** The matcher *)

Module ReFacts.
Import Py Re Strings StringFacts Scan.

Section Quantifiers.
Variable R : Type.

(** The greedy loop takes the whole run [x] when the rest of the pattern
    matches what follows it. *)
Lemma greedy_exact (p : ascii -> bool) (x rest : string)
  (k : string -> option R) (r : R) :
  all p x = true -> stops p rest = true -> k rest = Some r ->
  greedy R p (x ++ rest) k = Some r.
Proof.
  intros Hx Hrest Hk. induction x as [|c x IH]; simpl.
  - destruct rest as [|d rest']; simpl in *; [exact Hk|].
    apply negb_true_iff in Hrest. rewrite Hrest. exact Hk.
  - simpl in Hx. apply andb_true_iff in Hx. destruct Hx as [Hc Hx].
    rewrite Hc, (IH Hx). reflexivity.
Qed.

(** The lazy loop stops at the first place where the rest of the pattern
    matches: after [x] when that rest rejects every text that starts with
    a character of [x]. *)
Lemma lazy_exact (p q : ascii -> bool) (x rest : string)
  (k : string -> option R) (r : R) :
  all p x = true -> all q x = true ->
  (forall c s, q c = true -> k (String c s) = None) ->
  k rest = Some r ->
  lazy R p (x ++ rest) k = Some r.
Proof.
  intros Hp Hq Hmiss Hk. induction x as [|c x IH].
  - simpl. destruct rest; simpl; rewrite Hk; reflexivity.
  - simpl in Hp, Hq.
    apply andb_true_iff in Hp. destruct Hp as [Hpc Hp].
    apply andb_true_iff in Hq. destruct Hq as [Hqc Hq].
    cbn [append lazy]. rewrite (Hmiss c _ Hqc), Hpc. apply IH; assumption.
Qed.

(** The lazy loop fails where the rest of the pattern rejects every text
    and the run of the class ends before any other. *)
Lemma lazy_none (p q : ascii -> bool) (x rest : string)
  (k : string -> option R) :
  all q x = true -> stops p rest = true ->
  (forall c s, q c = true -> k (String c s) = None) ->
  k rest = None ->
  lazy R p (x ++ rest) k = None.
Proof.
  intros Hq Hstop Hmiss Hk. induction x as [|c x IH].
  - simpl. destruct rest as [|d rest']; simpl in *.
    + rewrite Hk. reflexivity.
    + rewrite Hk. apply negb_true_iff in Hstop. rewrite Hstop. reflexivity.
  - simpl in Hq. apply andb_true_iff in Hq. destruct Hq as [Hqc Hq].
    cbn [append lazy]. rewrite (Hmiss c _ Hqc).
    destruct (p c); [apply IH; assumption|reflexivity].
Qed.

End Quantifiers.

(** A pattern that starts with a literal character fails on a text that
    starts with another one. *)
Lemma match_at_lit_miss (c d : ascii) (r : regex) (s : string) :
  Ascii.eqb d c = false -> match_at (Seq (Lit c) r) (String d s) = None.
Proof.
  intros H. unfold match_at. simpl. rewrite H. reflexivity.
Qed.

(** ** Scanning *)

Lemma misses_nil (r : regex) (rest : string) : misses r "" rest.
Proof.
  intros x1 c x2 H. destruct x1; discriminate.
Qed.

Lemma misses_cons (r : regex) (c : ascii) (x rest : string) :
  match_at r (String c (x ++ rest)) = None -> misses r x rest ->
  misses r (String c x) rest.
Proof.
  intros Hc Hx x1 d x2 Heq. destruct x1 as [|e x1]; simpl in Heq.
  - inversion Heq; subst. exact Hc.
  - inversion Heq; subst. apply (Hx x1 d x2). reflexivity.
Qed.

Lemma misses_tail (r : regex) (c : ascii) (x rest : string) :
  misses r (String c x) rest -> misses r x rest.
Proof.
  intros H x1 d x2 Heq. apply (H (String c x1) d x2). simpl. congruence.
Qed.

Lemma misses_append (r : regex) (x y rest : string) :
  misses r x (y ++ rest) -> misses r y rest -> misses r (x ++ y) rest.
Proof.
  induction x as [|c x IH]; intros Hx Hy; simpl; [exact Hy|].
  apply misses_cons.
  - rewrite append_assoc. apply (Hx "" c x). reflexivity.
  - apply IH; [|exact Hy]. apply (misses_tail r c). exact Hx.
Qed.

(** [finditer] passes over a match it has reported ... *)
Lemma finditer_go_skip (r : regex) (x rest : string) (pos : nat) :
  finditer_go r (x ++ rest) pos (String.length x)
  = finditer_go r rest (pos + String.length x) 0.
Proof.
  revert pos. induction x as [|c x IH]; intros pos; simpl.
  - rewrite Nat.add_0_r. reflexivity.
  - rewrite IH. f_equal. lia.
Qed.

(** ... and over a text in which there is none. *)
Lemma finditer_go_miss (r : regex) (x rest : string) (pos : nat) :
  misses r x rest ->
  finditer_go r (x ++ rest) pos 0
  = finditer_go r rest (pos + String.length x) 0.
Proof.
  revert pos. induction x as [|c x IH]; intros pos Hm; simpl.
  - rewrite Nat.add_0_r. reflexivity.
  - rewrite (Hm "" c x eq_refl).
    rewrite IH by (apply (misses_tail r c); exact Hm). f_equal. lia.
Qed.

Lemma finditer_go_hit (r : regex) (x rest : string) (pos : nat) (g : groups) :
  x <> "" ->
  match_at r (x ++ rest) = Some (String.length x, g) ->
  finditer_go r (x ++ rest) pos 0
  = Match pos (pos + String.length x) g
    :: finditer_go r rest (pos + String.length x) 0.
Proof.
  intros Hne Hm. destruct x as [|c x]; [contradiction|].
  cbn [append finditer_go]. cbn [append] in Hm. rewrite Hm. f_equal.
  cbn [String.length Nat.pred].
  rewrite finditer_go_skip. f_equal. lia.
Qed.

Lemma sub_go_skip (r : regex) (x rest : string) :
  sub_go r (x ++ rest) (String.length x) = sub_go r rest 0.
Proof.
  induction x as [|c x IH]; simpl; [reflexivity|exact IH].
Qed.

Lemma sub_go_miss (r : regex) (x rest : string) :
  misses r x rest -> sub_go r (x ++ rest) 0 = x ++ sub_go r rest 0.
Proof.
  induction x as [|c x IH]; intros Hm; simpl; [reflexivity|].
  rewrite (Hm "" c x eq_refl).
  rewrite IH by (apply (misses_tail r c); exact Hm). reflexivity.
Qed.

Lemma sub_go_hit (r : regex) (x rest : string) (g : groups) :
  x <> "" ->
  match_at r (x ++ rest) = Some (String.length x, g) ->
  sub_go r (x ++ rest) 0 = sub_go r rest 0.
Proof.
  intros Hne Hm. destruct x as [|c x]; [contradiction|].
  cbn [append sub_go]. cbn [append] in Hm. rewrite Hm.
  cbn [String.length]. apply sub_go_skip.
Qed.

End ReFacts.

(** ** Aliases *)

Module AliasFacts.
Import Py Strings StringFacts Aliases.

Lemma prefix_append (p r : string) : String.prefix p (p ++ r) = true.
Proof.
  induction p as [|c p IH]; cbn [append String.prefix].
  - destruct r; reflexivity.
  - destruct (Ascii.ascii_dec c c); [exact IH|contradiction].
Qed.

Lemma prefix_split (p s : string) :
  String.prefix p s = true -> exists r, s = p ++ r.
Proof.
  revert s. induction p as [|c p IH]; intros s H.
  - exists s. reflexivity.
  - destruct s as [|d s]; [discriminate|]. cbn [String.prefix] in H.
    destruct (Ascii.ascii_dec c d) as [->|]; [|discriminate].
    destruct (IH s H) as [r ->]. exists r. reflexivity.
Qed.

(** A text is the white space [lstrip] takes off, then what it leaves. *)
Lemma lstrip_split (s : string) :
  exists lead, s = lead ++ lstrip s /\ all isspace lead = true.
Proof.
  induction s as [|c s (lead & Hs & Hl)].
  - exists "". split; reflexivity.
  - cbn [lstrip]. destruct (isspace c) eqn:Hc.
    + exists (String c lead). cbn [append all]. rewrite Hc, Hl.
      split; [congruence|reflexivity].
    + exists "". split; reflexivity.
Qed.

Lemma lstrip_starts (s : string) :
  match lstrip s with
  | EmptyString => True
  | String c _ => isspace c = false
  end.
Proof.
  induction s as [|c s IH]; [exact I|].
  cbn [lstrip]. destruct (isspace c) eqn:Hc; [exact IH|exact Hc].
Qed.

(** What [rstrip] leaves is the start of the text. *)
Lemma rstrip_split (s : string) : exists trail, s = rstrip s ++ trail.
Proof.
  induction s as [|c s (trail & Hs)].
  - exists "". reflexivity.
  - cbn [rstrip]. destruct (rstrip s) as [|d r] eqn:Hr.
    + destruct (isspace c).
      * exists (String c s). reflexivity.
      * exists trail. cbn [append] in *. congruence.
    + exists trail. cbn [append] in *. congruence.
Qed.

(** The first occurrence of a text that starts with no white space, in a
    text that starts with white space and then it. *)
Lemma replace_first_lead (old new lead rest : string) :
  all isspace lead = true ->
  match old with
  | EmptyString => lead = ""
  | String c _ => isspace c = false
  end ->
  replace_first old new (lead ++ old ++ rest) = lead ++ new ++ rest.
Proof.
  intros Hl Hold. induction lead as [|c lead IH].
  - cbn [append]. destruct (old ++ rest) as [|d s] eqn:Hs.
    + destruct old; [|discriminate]. cbn [append] in Hs. subst rest.
      cbn [replace_first String.prefix String.length drop]. reflexivity.
    + rewrite <- Hs.
      assert (Hrf : forall t, replace_first old new t
                = if String.prefix old t then new ++ drop (String.length old) t
                  else match t with
                       | EmptyString => EmptyString
                       | String c t' => String c (replace_first old new t')
                       end).
      { intros t. destruct t; reflexivity. }
      rewrite Hrf, prefix_append, drop_append. reflexivity.
  - cbn [all] in Hl. apply andb_true_iff in Hl. destruct Hl as [Hc Hl].
    destruct old as [|o old]; [discriminate|].
    cbn [append replace_first String.prefix].
    destruct (Ascii.ascii_dec o c) as [->|_]; [congruence|].
    rewrite <- (IH Hl Hold). reflexivity.
Qed.

(** A command that names an alias is white space, the alias, and the
    rest. *)
Lemma names_split (command alias new : string) :
  names command alias = true ->
  exists lead rest,
    command = lead ++ alias ++ rest
    /\ all isspace lead = true
    /\ replace_first alias new command = lead ++ new ++ rest.
Proof.
  intros Hn.
  assert (Hp : String.prefix alias (strip command) = true).
  { unfold names in Hn. apply orb_true_iff in Hn. destruct Hn as [Hn|Hn].
    - apply String.eqb_eq in Hn. rewrite Hn.
      rewrite <- (append_nil_r alias) at 2. apply prefix_append.
    - unfold startswith in Hn. destruct (prefix_split _ _ Hn) as [r Hr].
      rewrite Hr, append_assoc. apply prefix_append. }
  destruct (prefix_split _ _ Hp) as [r1 Hr1].
  destruct (rstrip_split (lstrip command)) as [trail Htrail].
  destruct (lstrip_split command) as (lead & Hc & Hl).
  fold (strip command) in Htrail. rewrite Hr1, append_assoc in Htrail.
  destruct alias as [|a0 alias'].
  - (* the empty alias: the command is blank *)
    exists "", command. split; [reflexivity|]. split; [reflexivity|].
    destruct command; reflexivity.
  - exists lead, (r1 ++ trail). rewrite Htrail in Hc.
    split; [exact Hc|]. split; [exact Hl|].
    rewrite Hc at 1. apply replace_first_lead; [exact Hl|].
    pose proof (lstrip_starts command) as Hs. rewrite Htrail in Hs.
    exact Hs.
Qed.

(** The aliases that the command does not name are passed over. *)
Lemma expand_alias_skip (before al : dict string) (command : string) :
  (forall n c, In (n, c) before -> names command n = false) ->
  V05.expand_alias (before ++ al)%list command = V05.expand_alias al command.
Proof.
  intros Hbefore. induction before as [|[n c] before IH]; [reflexivity|].
  cbn [app V05.expand_alias].
  pose proof (Hbefore n c (or_introl eq_refl)) as Hn.
  unfold names in Hn. rewrite Hn.
  apply IH. intros n' c' Hin. apply (Hbefore n' c'). right. exact Hin.
Qed.

Lemma expand_alias_none (al : dict string) (command : string) :
  (forall n c, In (n, c) al -> names command n = false) ->
  V05.expand_alias al command = command.
Proof.
  intros H. rewrite <- (app_nil_r al). rewrite expand_alias_skip by exact H.
  reflexivity.
Qed.

(** The first alias that the command names is replaced where it stands. *)
Lemma expand_alias_first (before after : dict string)
  (alias cmd command : string) :
  (forall n c, In (n, c) before -> names command n = false) ->
  names command alias = true ->
  exists lead rest,
    command = lead ++ alias ++ rest
    /\ all isspace lead = true
    /\ V05.expand_alias (before ++ (alias, cmd) :: after)%list command
       = lead ++ cmd ++ rest.
Proof.
  intros Hbefore Hn. rewrite expand_alias_skip by exact Hbefore.
  cbn [V05.expand_alias].
  pose proof Hn as Hn'. unfold names in Hn'. rewrite Hn'.
  destruct (names_split command alias cmd Hn)
    as (lead & rest & Hc & Hl & Hr).
  exists lead, rest. auto.
Qed.

End AliasFacts.

(** ** Quick-command templates *)

Module TemplateFacts.
Import Py Sys Re Strings StringFacts Scan ReFacts Template.

(** *** [re.findall] on a template *)

Lemma param_pattern_miss (c : ascii) (s : string) :
  Ascii.eqb c "{" = false -> match_at V05.param_pattern (String c s) = None.
Proof.
  intros H. apply match_at_lit_miss. exact H.
Qed.

Lemma name_char_not_rbrace (name : string) :
  all name_char name = true -> all not_rbrace name = true.
Proof.
  induction name as [|c name IH]; simpl; [reflexivity|].
  intros H. apply andb_true_iff in H. destruct H as [Hc H].
  rewrite (IH H), andb_true_r.
  unfold name_char, not_brace in Hc. unfold not_rbrace.
  destruct (Ascii.eqb c "}"); [|reflexivity].
  rewrite andb_false_r in Hc. discriminate.
Qed.

Lemma param_pattern_hit (name rest : string) :
  is_empty name = false -> all not_rbrace name = true ->
  match_at V05.param_pattern (String "{" (name ++ String "}" rest))
  = Some (String.length (String "{" (name ++ String "}" "")), [(1, name)]).
Proof.
  intros Hne Hall. destruct name as [|c name]; [discriminate|].
  simpl in Hall. apply andb_true_iff in Hall. destruct Hall as [Hc Hall].
  unfold match_at, V05.param_pattern.
  cbn [rmatch append Ascii.eqb Bool.eqb]. rewrite Hc.
  rewrite (greedy_exact _ not_rbrace name (String "}" rest) _
             (String.length (String "{" (String c name ++ String "}" "")),
              [(1, String c name)])); [reflexivity|exact Hall|reflexivity|].
  cbn [Ascii.eqb Bool.eqb].
  f_equal. f_equal.
  - cbn [String.length append]. rewrite !length_append. cbn [String.length]. lia.
  - f_equal. f_equal.
    change (String c (name ++ String "}" rest))
      with ((String c name) ++ String "}" rest).
    apply take_append.
Qed.

Lemma text_misses (t rest : string) :
  all not_brace t = true -> misses V05.param_pattern t rest.
Proof.
  induction t as [|c t IH]; intros H; [apply misses_nil|].
  simpl in H. apply andb_true_iff in H. destruct H as [Hc H].
  apply misses_cons; [|apply IH; exact H].
  apply param_pattern_miss. unfold not_brace in Hc.
  destruct (Ascii.eqb c "{"); [discriminate|reflexivity].
Qed.

Lemma finditer_render (ps : list piece) :
  forallb piece_ok ps = true ->
  forall pos,
    map (fun m => match group (m_groups m) 1 with
                  | Some x => x
                  | None => ""
                  end)
      (finditer_go V05.param_pattern (render ps) pos 0)
    = holes ps.
Proof.
  induction ps as [|p ps IH]; intros Hok pos; [reflexivity|].
  simpl in Hok. apply andb_true_iff in Hok. destruct Hok as [Hp Hok].
  destruct p as [t|name]; cbn [render holes].
  - rewrite finditer_go_miss by (apply text_misses; exact Hp).
    apply IH. exact Hok.
  - simpl in Hp. apply andb_true_iff in Hp. destruct Hp as [Hp Hdig].
    apply andb_true_iff in Hp. destruct Hp as [Hne Hchars].
    apply negb_true_iff in Hne.
    change (String "{" (name ++ String "}" (render ps)))
      with (String "{" (name ++ String "}" "" ++ render ps)).
    rewrite <- append_assoc.
    change (String "{" ((name ++ String "}" "") ++ render ps))
      with (String "{" (name ++ String "}" "") ++ render ps).
    rewrite (finditer_go_hit _ _ _ pos [(1, name)]).
    + cbn [map m_groups group Nat.eqb]. f_equal. apply IH. exact Hok.
    + discriminate.
    + cbn [append]. rewrite append_assoc. cbn [append].
      apply param_pattern_hit; [exact Hne|].
      apply name_char_not_rbrace. exact Hchars.
Qed.

Lemma findall_render (ps : list piece) :
  forallb piece_ok ps = true ->
  findall V05.param_pattern (render ps) = holes ps.
Proof.
  intros Hok. apply finditer_render. exact Hok.
Qed.

(** *** [str.format] on a template *)

Section Format.
Variable E : env.
Variable params : dict string.

Lemma format_text (t rest : string) :
  all not_brace t = true ->
  V05.format_go E params V05.InText (t ++ rest)
  = bind (V05.format_go E params V05.InText rest) (fun r => Ret (t ++ r)).
Proof.
  induction t as [|c t IH]; intros H.
  - simpl. destruct (V05.format_go E params V05.InText rest); reflexivity.
  - simpl in H. apply andb_true_iff in H. destruct H as [Hc H].
    unfold not_brace in Hc. apply andb_true_iff in Hc.
    destruct Hc as [Hl Hr].
    apply negb_true_iff in Hl. apply negb_true_iff in Hr.
    cbn [append V05.format_go]. rewrite Hl, Hr, (IH H).
    unfold V05.cons_res.
    destruct (V05.format_go E params V05.InText rest); reflexivity.
Qed.

Lemma name_char_spec (c : ascii) :
  name_char c = true ->
  Ascii.eqb c "{" = false /\ Ascii.eqb c "}" = false
  /\ V05.field_special c = false.
Proof.
  unfold name_char, not_brace. intros H.
  apply andb_true_iff in H. destruct H as [H Hs].
  apply andb_true_iff in H. destruct H as [Hl Hr].
  apply negb_true_iff in Hl. apply negb_true_iff in Hr.
  apply negb_true_iff in Hs. auto.
Qed.

Lemma format_in_field (name rest : string) :
  forall acc : string,
    all name_char name = true ->
    V05.format_go E params (V05.InField acc) (name ++ String "}" rest)
    = if V05.all_digits (acc ++ name)
      then format_field E ((acc ++ name) ++ String "}" rest) params
      else match dict_get params (acc ++ name) with
           | None => Raise (KeyError (acc ++ name))
           | Some v =>
               bind (V05.format_go E params V05.InText rest)
                 (fun t => Ret (v ++ t))
           end.
Proof.
  induction name as [|c name IH]; intros acc H.
  - cbn [append V05.format_go Ascii.eqb Bool.eqb].
    rewrite append_nil_r. reflexivity.
  - simpl in H. apply andb_true_iff in H. destruct H as [Hc H].
    destruct (name_char_spec c Hc) as (Hl & Hr & Hs).
    cbn [append V05.format_go]. rewrite Hr, Hl, Hs.
    rewrite (IH _ H), !append_assoc. reflexivity.
Qed.

Lemma format_hole (name rest : string) :
  piece_ok (Hole name) = true ->
  V05.format_go E params V05.InText (String "{" (name ++ String "}" rest))
  = match dict_get params name with
    | None => Raise (KeyError name)
    | Some v =>
        bind (V05.format_go E params V05.InText rest) (fun t => Ret (v ++ t))
    end.
Proof.
  intros Hok. simpl in Hok.
  apply andb_true_iff in Hok. destruct Hok as [Hok Hdig].
  apply andb_true_iff in Hok. destruct Hok as [Hne Hchars].
  apply negb_true_iff in Hdig.
  destruct name as [|c name]; [discriminate|].
  simpl in Hchars. apply andb_true_iff in Hchars.
  destruct Hchars as [Hc Hchars].
  destruct (name_char_spec c Hc) as (Hl & Hr & Hs).
  cbn [append V05.format_go Ascii.eqb Bool.eqb]. rewrite Hl, Hr, Hs.
  rewrite (format_in_field name rest (String c "") Hchars).
  cbn [append]. rewrite Hdig. reflexivity.
Qed.

Lemma format_render (ps : list piece) :
  forallb piece_ok ps = true ->
  (forall name, In name (holes ps) -> dict_has params name = true) ->
  V05.format E (render ps) params = Ret (fill params ps).
Proof.
  unfold V05.format.
  induction ps as [|p ps IH]; intros Hok Hbound; [reflexivity|].
  cbn [forallb] in Hok. apply andb_true_iff in Hok. destruct Hok as [Hp Hok].
  destruct p as [t|name]; cbn [render fill holes] in *.
  - rewrite (format_text t _ Hp), (IH Hok Hbound). reflexivity.
  - rewrite (format_hole name _ Hp).
    pose proof (Hbound name (or_introl eq_refl)) as Hn.
    unfold dict_has in Hn.
    destruct (dict_get params name) as [v|]; [|discriminate].
    rewrite IH; [reflexivity|exact Hok|].
    intros n Hin. apply Hbound. right. exact Hin.
Qed.

End Format.

(** *** The binding of the arguments *)

Lemma bind_params_notin (names args : list string) :
  forall (d : dict string) (n : string),
    ~ In n names ->
    dict_get (V05.bind_params names args d) n = dict_get d n.
Proof.
  revert args. induction names as [|n0 names IH]; intros args d n Hn.
  - reflexivity.
  - destruct args as [|a0 args]; [reflexivity|]. cbn [V05.bind_params].
    rewrite IH by (intros H; apply Hn; right; exact H).
    apply DictFacts.dict_get_set_other. intros ->. apply Hn. left. reflexivity.
Qed.

(** A name is bound to the argument at the place of its last occurrence. *)
Lemma bind_params_last (names args : list string) :
  forall (d : dict string) (i : nat) (n v : string),
    nth_error names i = Some n -> nth_error args i = Some v ->
    (forall j, i < j -> nth_error names j <> Some n) ->
    dict_get (V05.bind_params names args d) n = Some v.
Proof.
  revert args. induction names as [|n0 names IH]; intros args d i n v Hn Hv Hlast.
  - destruct i; discriminate.
  - destruct args as [|a0 args]; [destruct i; discriminate|].
    cbn [V05.bind_params]. destruct i as [|i]; simpl in Hn, Hv.
    + inversion Hn; inversion Hv; subst.
      rewrite bind_params_notin.
      * apply DictFacts.dict_get_set_same.
      * intros Hin. apply In_nth_error in Hin. destruct Hin as [j Hj].
        apply (Hlast (S j)); [lia|exact Hj].
    + apply (IH args _ i n v Hn Hv).
      intros j Hj. apply (Hlast (S j)). lia.
Qed.

Lemma bind_params_bound (names args : list string) :
  forall d : dict string,
    List.length names <= List.length args ->
    forall n, In n names -> dict_has (V05.bind_params names args d) n = true.
Proof.
  revert args. induction names as [|n0 names IH]; intros args d Hlen n Hin.
  - destruct Hin.
  - destruct args as [|a0 args]; [simpl in Hlen; lia|].
    cbn [V05.bind_params]. simpl in Hlen.
    destruct (in_dec string_dec n names) as [Hn|Hn].
    + apply IH; [lia|exact Hn].
    + unfold dict_has. rewrite bind_params_notin by exact Hn.
      destruct Hin as [->|Hin]; [|contradiction].
      rewrite DictFacts.dict_get_set_same. reflexivity.
Qed.

(** *** Braces of a rendered template *)

Lemma not_brace_no_brace (t : string) :
  all not_brace t = true ->
  contains "{" t = false /\ contains "}" t = false.
Proof.
  induction t as [|c t IH]; intros H; [split; reflexivity|].
  simpl in H. apply andb_true_iff in H. destruct H as [Hc H].
  destruct (IH H) as [Hl Hr]. unfold not_brace in Hc.
  apply andb_true_iff in Hc. destruct Hc as [Hcl Hcr].
  apply negb_true_iff in Hcl. apply negb_true_iff in Hcr.
  rewrite !contains_cons, Hl, Hr.
  rewrite (Ascii.eqb_sym "{" c), (Ascii.eqb_sym "}" c), Hcl, Hcr.
  split; reflexivity.
Qed.

Lemma render_without_holes (params : dict string) (ps : list piece) :
  forallb piece_ok ps = true -> holes ps = [] ->
  contains "{" (render ps) = false /\ fill params ps = render ps.
Proof.
  induction ps as [|p ps IH]; intros Hok Hh; [split; reflexivity|].
  cbn [forallb] in Hok. apply andb_true_iff in Hok. destruct Hok as [Hp Hok].
  destruct p as [t|name]; [|discriminate].
  cbn [render fill holes] in *. destruct (IH Hok Hh) as [Hc Hf].
  split.
  - rewrite contains_append, Hc.
    destruct (not_brace_no_brace t Hp) as [-> _]. reflexivity.
  - rewrite Hf. reflexivity.
Qed.

Lemma render_with_holes (ps : list piece) :
  holes ps <> [] ->
  contains "{" (render ps) = true /\ contains "}" (render ps) = true.
Proof.
  induction ps as [|p ps IH]; intros Hh; [contradiction|].
  destruct p as [t|name]; cbn [render holes] in *.
  - destruct (IH Hh) as [Hl Hr].
    rewrite !contains_append, Hl, Hr, !orb_true_r. split; reflexivity.
  - split.
    + rewrite contains_cons. reflexivity.
    + rewrite contains_cons, contains_append, contains_cons.
      rewrite Ascii.eqb_refl, orb_true_r, orb_true_r. reflexivity.
Qed.

(** The expansion of a template made of text without braces and of plain
    placeholders. *)
Lemma expand_template_render (E : env) (cmd_name : string)
  (args : list string) (ps : list piece) :
  forallb piece_ok ps = true ->
  V05.expand_template E cmd_name (render ps) args
  = if Nat.ltb (List.length args) (List.length (holes ps))
    then V05.Refused (V05.msg_missing_parameters cmd_name (holes ps))
    else V05.Resolved (fill (V05.bind_params (holes ps) args []) ps).
Proof.
  intros Hok. unfold V05.expand_template.
  destruct (holes ps) as [|n0 names] eqn:Hh.
  - destruct (render_without_holes (V05.bind_params [] args []) ps Hok Hh)
      as [Hc Hf].
    rewrite Hc. cbn [andb]. cbn [List.length Nat.ltb Nat.leb].
    rewrite Hf. reflexivity.
  - assert (Hne : holes ps <> []) by (rewrite Hh; discriminate).
    destruct (render_with_holes ps Hne) as [Hl Hr].
    rewrite Hl, Hr. cbn [andb].
    rewrite (findall_render ps Hok), Hh.
    destruct (Nat.ltb_spec (List.length args) (List.length (n0 :: names)))
      as [Hlt|Hge]; [reflexivity|].
    rewrite <- Hh. rewrite format_render; [reflexivity|exact Hok|].
    apply bind_params_bound. rewrite Hh. exact Hge.
Qed.

End TemplateFacts.

(** C10.  Whatever the command, [execute_command] first replaces the alias
    and then classifies, asks about and starts that very text.  For a
    command that names an alias this text is the command with the alias
    replaced by its definition, where it stands: a process is started for
    it alone, after it was found safe or the operator, asked about it,
    agreed; when it is a [cd] no process is started for any command.  A
    command that names no alias goes the same way as it is.  A quick
    command is resolved first: for a template made of text and plain
    placeholders, with enough arguments, to the template with every
    placeholder replaced by its argument, and it is that line that goes
    through [execute_command], aliases included; when the quick command
    cannot be resolved nothing is executed at all. *)
Theorem gate_sees_expanded_command :
  forall (E : Sys.env) (a : V05.agent) (w : V05.world),
    (forall (before after : Py.dict string) (alias cmd command : string),
        V05.aliases (V05.cfg a) = (before ++ (alias, cmd) :: after)%list ->
        (forall n c, In (n, c) before -> Aliases.names command n = false) ->
        Aliases.names command alias = true ->
        exists lead rest,
          command = lead ++ alias ++ rest
          /\ Strings.all Py.isspace lead = true
          /\ (let c := lead ++ cmd ++ rest in
              let '(r, a', w') := V05.execute_command E a w command in
              exists evs,
                V05.trace w' = (V05.trace w ++ evs)%list
                /\ if Py.startswith (Py.strip c) "cd "
                   then Gate.no_spawn evs
                   else Gate.gated E a w c evs))
    /\ (forall command : string,
        (forall n c, In (n, c) (V05.aliases (V05.cfg a)) ->
                     Aliases.names command n = false) ->
        let '(r, a', w') := V05.execute_command E a w command in
        exists evs,
          V05.trace w' = (V05.trace w ++ evs)%list
          /\ if Py.startswith (Py.strip command) "cd "
             then Gate.no_spawn evs
             else Gate.gated E a w command evs)
    /\ (forall (cmd_name : string) (args : list string)
               (ps : list Template.piece),
        V05.lookup_template a cmd_name = Some (Template.render ps) ->
        forallb Template.piece_ok ps = true ->
        List.length (Template.holes ps) <= List.length args ->
        let line :=
          Template.fill (V05.bind_params (Template.holes ps) args []) ps in
        let c := V05.expand_alias (V05.aliases (V05.cfg a)) line in
        V05.resolve E a cmd_name args = V05.Resolved line
        /\ (let '(r, a', w') :=
              V05.execute_quick_command E a w cmd_name args in
            exists evs,
              V05.trace w' = (V05.trace w ++ evs)%list
              /\ if Py.startswith (Py.strip c) "cd "
                 then Gate.no_spawn evs
                 else Gate.gated E a w c evs))
    /\ (forall (cmd_name : string) (args : list string),
        let '(r, a', w') := V05.execute_quick_command E a w cmd_name args in
        match V05.resolve E a cmd_name args with
        | V05.Resolved cmd => (r, a', w') = V05.execute_command E a w cmd
        | V05.Refused message => r = Py.Ret message /\ a' = a /\ w' = w
        | V05.Raised e => r = Py.Raise e /\ a' = a /\ w' = w
        end).
Proof.
  intros E a w.
  assert (Hgate : forall command : string,
             let c := V05.expand_alias (V05.aliases (V05.cfg a)) command in
             let '(r, a', w') := V05.execute_command E a w command in
             exists evs,
               V05.trace w' = (V05.trace w ++ evs)%list
               /\ if Py.startswith (Py.strip c) "cd "
                  then Gate.no_spawn evs
                  else Gate.gated E a w c evs).
  { intros command c.
    destruct (Py.startswith (Py.strip c) "cd ") eqn:Hcd.
    - apply GateFacts.execute_command_cd. exact Hcd.
    - apply GateFacts.execute_command_gated. exact Hcd. }
  split; [|split; [|split]].
  - intros before after alias cmd command Hal Hbefore Hn.
    destruct (AliasFacts.expand_alias_first before after alias cmd command
                Hbefore Hn) as (lead & rest & Hc & Hl & Hx).
    exists lead, rest. split; [exact Hc|]. split; [exact Hl|].
    pose proof (Hgate command) as H. cbv zeta in H.
    rewrite Hal, Hx in H. exact H.
  - intros command Hnone.
    pose proof (Hgate command) as H. cbv zeta in H.
    rewrite (AliasFacts.expand_alias_none _ command Hnone) in H. exact H.
  - intros cmd_name args ps Hlook Hok Hlen line c.
    assert (Hres : V05.resolve E a cmd_name args = V05.Resolved line).
    { unfold V05.resolve. rewrite Hlook.
      rewrite (TemplateFacts.expand_template_render E cmd_name args ps Hok).
      destruct (Nat.ltb_spec (List.length args)
                  (List.length (Template.holes ps))) as [Hlt|_];
        [lia|reflexivity]. }
    split; [exact Hres|].
    unfold V05.execute_quick_command. rewrite Hres. apply (Hgate line).
  - intros cmd_name args. unfold V05.execute_quick_command.
    destruct (V05.resolve E a cmd_name args) as [cmd|message|e].
    + destruct (V05.execute_command E a w cmd) as [[r a'] w']. reflexivity.
    + repeat split.
    + repeat split.
Qed.

(** C10 on an alias and on a quick command whose command lines are
    dangerous: the operator is asked about the line itself, and the
    process starts once he has agreed. *)
Lemma gate_sees_expanded_command_witness :
  (exists lead rest,
      "ll > /etc/motd" = lead ++ "ll" ++ rest
      /\ Strings.all Py.isspace lead = true
      /\ (let '(r, a', w') :=
            V05.execute_command Sample.env_yes Sample.agent_wipe
              Sample.world05 "ll > /etc/motd" in
          exists evs,
            V05.trace w' = (V05.trace Sample.world05 ++ evs)%list
            /\ if Py.startswith (Py.strip (lead ++ "ls -l" ++ rest)) "cd "
               then Gate.no_spawn evs
               else Gate.gated Sample.env_yes Sample.agent_wipe
                      Sample.world05 (lead ++ "ls -l" ++ rest) evs))
  /\ V05.resolve Sample.env_yes Sample.agent_wipe "wipe" ["/tmp/x"]
     = V05.Resolved "rm -rf /tmp/x"
  /\ (let '(r, a', w') :=
        V05.execute_quick_command Sample.env_yes Sample.agent_wipe
          Sample.world05 "wipe" ["/tmp/x"] in
      exists evs,
        V05.trace w' = (V05.trace Sample.world05 ++ evs)%list
        /\ Gate.gated Sample.env_yes Sample.agent_wipe Sample.world05
             "rm -rf /tmp/x" evs).
Proof.
  pose proof (gate_sees_expanded_command Sample.env_yes Sample.agent_wipe
                Sample.world05) as (H1 & _ & H3 & _).
  split.
  - refine (H1 [] [] "ll" "ls -l" "ll > /etc/motd" eq_refl _ eq_refl).
    intros n c [].
  - exact (H3 "wipe" ["/tmp/x"] [Template.Text "rm -rf "; Template.Hole "dir"]
             eq_refl eq_refl (le_n 1)).
Defined.

(** The traces of these calls, when the operator declines and when he
    agrees. *)
Example dangerous_quick_command_is_gated :
  V05.trace (snd (V05.execute_quick_command Sample.env0 Sample.agent_wipe
                    Sample.world05 "wipe" ["/tmp/x"]))
  = [Sys.Asked (Sys.ConfirmDangerous "rm -rf /tmp/x") false]
  /\ V05.trace (snd (V05.execute_quick_command Sample.env_yes Sample.agent_wipe
                       Sample.world05 "wipe" ["/tmp/x"]))
     = [Sys.Asked (Sys.ConfirmDangerous "rm -rf /tmp/x") true;
        Sys.Spawn "rm -rf /tmp/x" "/a/b"]
  /\ V05.trace (snd (V05.execute_command Sample.env_yes Sample.agent_wipe
                       Sample.world05 "ll > /etc/motd"))
     = [Sys.Asked (Sys.ConfirmDangerous "ls -l > /etc/motd") true;
        Sys.Spawn "ls -l > /etc/motd" "/a/b"].
Proof.
  repeat split.
Qed.

(** C8 (as amended).  A template without an opening or without a closing
    brace is returned as it is, whatever the arguments.  For a template
    made of text without braces and of plain placeholders: with fewer
    arguments than placeholders (a repeated name counted each time) the
    resolution is refused with a message that names all the placeholders
    of the template, and nothing is executed; otherwise every placeholder
    is replaced by the value bound to its name, the names being bound to
    the arguments in the order the placeholders occur, so that a repeated
    name has one value, the argument at the place of its last occurrence,
    and the result is handed to [execute_command]. *)
Theorem quick_command_resolution :
  forall (E : Sys.env) (a : V05.agent) (cmd_name template : string)
         (args : list string),
    V05.lookup_template a cmd_name = Some template ->
    (Py.contains "{" template && Py.contains "}" template = false ->
     V05.resolve E a cmd_name args = V05.Resolved template)
    /\ (forall ps : list Template.piece,
           template = Template.render ps ->
           forallb Template.piece_ok ps = true ->
           let names := Template.holes ps in
           let params := V05.bind_params names args [] in
           (List.length args < List.length names ->
            V05.resolve E a cmd_name args
            = V05.Refused (V05.msg_missing_parameters cmd_name names)
            /\ forall w,
                 V05.execute_quick_command E a w cmd_name args
                 = (Py.Ret (V05.msg_missing_parameters cmd_name names), a, w))
           /\ (List.length names <= List.length args ->
               V05.resolve E a cmd_name args
               = V05.Resolved (Template.fill params ps)
               /\ (forall i name v,
                      nth_error names i = Some name ->
                      nth_error args i = Some v ->
                      (forall j, i < j -> nth_error names j <> Some name) ->
                      Py.dict_get params name = Some v)
               /\ forall w,
                    V05.execute_quick_command E a w cmd_name args
                    = V05.execute_command E a w (Template.fill params ps))).
Proof.
  intros E a cmd_name template args Hlook. split.
  - intros Hb. unfold V05.resolve. rewrite Hlook.
    unfold V05.expand_template. rewrite Hb. reflexivity.
  - intros ps -> Hok names params.
    assert (Hres : V05.resolve E a cmd_name args
                   = if Nat.ltb (List.length args) (List.length names)
                     then V05.Refused
                            (V05.msg_missing_parameters cmd_name names)
                     else V05.Resolved (Template.fill params ps)).
    { unfold V05.resolve. rewrite Hlook.
      apply TemplateFacts.expand_template_render. exact Hok. }
    split.
    + intros Hlt. apply Nat.ltb_lt in Hlt. rewrite Hlt in Hres.
      split; [exact Hres|]. intros w.
      unfold V05.execute_quick_command. rewrite Hres. reflexivity.
    + intros Hge. apply Nat.ltb_ge in Hge. rewrite Hge in Hres.
      split; [exact Hres|]. split.
      * intros i name v Hn Hv Hlast.
        apply (TemplateFacts.bind_params_last names args [] i name v);
          assumption.
      * intros w. unfold V05.execute_quick_command. rewrite Hres. reflexivity.
Qed.

(** The amended C8 at [service-status], with and without its argument. *)
Lemma quick_command_resolution_witness :
  V05.resolve Sample.env0 Sample.agent05 "service-status" ["nginx"]
  = V05.Resolved "systemctl status nginx"
  /\ V05.resolve Sample.env0 Sample.agent05 "service-status" []
     = V05.Refused (V05.msg_missing_parameters "service-status" ["service"])
  /\ V05.resolve Sample.env0 Sample.agent05 "disk-usage" ["ignored"]
     = V05.Resolved "df -h".
Proof.
  pose (ps := [Template.Text "systemctl status ";
               Template.Hole "service"]).
  split; [|split].
  - exact (proj1 (proj2 (proj2 (quick_command_resolution Sample.env0
             Sample.agent05 "service-status" "systemctl status {service}"
             ["nginx"] eq_refl) ps eq_refl eq_refl) (le_n 1))).
  - exact (proj1 (proj1 (proj2 (quick_command_resolution Sample.env0
             Sample.agent05 "service-status" "systemctl status {service}"
             [] eq_refl) ps eq_refl eq_refl) (le_n 1))).
  - exact (proj1 (quick_command_resolution Sample.env0 Sample.agent05
             "disk-usage" "df -h" ["ignored"] eq_refl) eq_refl).
Defined.

(** C8 (as stated) fails: with one argument for the two placeholders of
    [cp {src} {dst}] the message names [src] as well as the missing
    [dst]; and a template whose only braces are the empty pair of
    [find -exec], which holds no placeholder, is not returned as it is:
    [str.format] raises on it. *)
Lemma quick_command_counterexample :
  V05.resolve Sample.env0 Sample.agent_copy "copy" ["a"]
  = V05.Refused (V05.msg_missing_parameters "copy" ["src"; "dst"])
  /\ Re.findall V05.param_pattern "find . -name core -exec rm {} +" = []
  /\ V05.resolve Sample.env0 Sample.agent_copy "purge" []
     = V05.Raised
         (Py.IndexError
            "Replacement index 0 out of range for positional args tuple").
Proof.
  repeat split.
Qed.

(** ** Responses made of prose and well-formed tags *)

Module ParserFacts.
Import Py Sys Re Strings StringFacts Scan ReFacts Response.

(** *** Character classes *)

Lemma space_not_word (c : ascii) : isspace c = true -> isword c = false.
Proof.
  destruct c as [[] [] [] [] [] [] [] []]; vm_compute; intros H;
    first [reflexivity | discriminate].
Qed.

Lemma word_not_space (c : ascii) : isword c = true -> isspace c = false.
Proof.
  intros H. destruct (isspace c) eqn:Hs; [|reflexivity].
  rewrite (space_not_word c Hs) in H. discriminate.
Qed.

Lemma stops_starts (p q : ascii -> bool) (x rest : string) :
  starts q x = true -> (forall c, q c = true -> p c = false) ->
  stops p (x ++ rest) = true.
Proof.
  destruct x as [|c x]; [discriminate|]. simpl. intros H Hpq.
  rewrite (Hpq c H). reflexivity.
Qed.

Lemma starts_not_empty (p : ascii -> bool) (x : string) :
  starts p x = true -> is_empty x = false.
Proof. destruct x; [discriminate|reflexivity]. Qed.

Lemma all_weaken (p q : ascii -> bool) (x : string) :
  (forall c, p c = true -> q c = true) -> all p x = true -> all q x = true.
Proof.
  intros Hpq. induction x as [|c x IH]; simpl; [reflexivity|].
  intros H. apply andb_true_iff in H. destruct H as [Hc H].
  rewrite (Hpq c Hc), (IH H). reflexivity.
Qed.

(** *** The quantifiers inside a pattern *)

Section Steps.
Variable R : Type.

Lemma rmatch_lits (t : string) (r : regex) (s : string) (g : groups)
  (k : string -> groups -> option R) :
  rmatch R (lits t r) (t ++ s) g k = rmatch R r s g k.
Proof.
  induction t as [|c t IH]; [reflexivity|].
  cbn [lits append rmatch]. rewrite Ascii.eqb_refl. exact IH.
Qed.

Lemma rmatch_seq (r1 r2 : regex) (s : string) (g : groups)
  (k : string -> groups -> option R) :
  rmatch R (Seq r1 r2) s g k
  = rmatch R r1 s g (fun s1 g1 => rmatch R r2 s1 g1 k).
Proof. reflexivity. Qed.

Lemma rmatch_group (n : nat) (r1 : regex) (s : string) (g : groups)
  (k : string -> groups -> option R) :
  rmatch R (Group n r1) s g k
  = rmatch R r1 s g
      (fun s1 g1 =>
         k s1 ((n, take (String.length s - String.length s1) s) :: g1)).
Proof. reflexivity. Qed.

Lemma rmatch_lazy (p : ascii -> bool) (s : string) (g : groups)
  (k : string -> groups -> option R) :
  rmatch R (LazyStar p) s g k = lazy R p s (fun s1 => k s1 g).
Proof. reflexivity. Qed.

Lemma rmatch_opt (r1 : regex) (s : string) (g : groups)
  (k : string -> groups -> option R) :
  rmatch R (Opt r1) s g k
  = match rmatch R r1 s g k with
    | Some x => Some x
    | None => k s g
    end.
Proof. reflexivity. Qed.

Lemma rmatch_lit (c : ascii) (s : string) (g : groups)
  (k : string -> groups -> option R) :
  rmatch R (Lit c) (String c s) g k = k s g.
Proof. cbn [rmatch]. rewrite Ascii.eqb_refl. reflexivity. Qed.

Lemma plus_exact (p : ascii -> bool) (x rest : string) (g : groups)
  (k : string -> groups -> option R) (r : R) :
  starts p x = true -> all p x = true -> stops p rest = true ->
  k rest g = Some r ->
  rmatch R (Plus p) (x ++ rest) g k = Some r.
Proof.
  intros Hs Hall Hstop Hk. destruct x as [|c x]; [discriminate|].
  simpl in Hs, Hall. apply andb_true_iff in Hall. destruct Hall as [_ Hall].
  cbn [append rmatch]. rewrite Hs.
  apply greedy_exact; assumption.
Qed.

Lemma group_plus_exact (n : nat) (p : ascii -> bool) (x rest : string)
  (g : groups) (k : string -> groups -> option R) (r : R) :
  starts p x = true -> all p x = true -> stops p rest = true ->
  k rest ((n, x) :: g) = Some r ->
  rmatch R (Group n (Plus p)) (x ++ rest) g k = Some r.
Proof.
  intros Hs Hall Hstop Hk. rewrite rmatch_group.
  apply plus_exact; try assumption.
  rewrite take_append. exact Hk.
Qed.

Lemma plus_none (p : ascii -> bool) (s : string) (g : groups)
  (k : string -> groups -> option R) :
  stops p s = true -> rmatch R (Plus p) s g k = None.
Proof.
  destruct s as [|c s]; [reflexivity|]. simpl. intros H.
  apply negb_true_iff in H. rewrite H. reflexivity.
Qed.

(** The lazy loop stops at the first place where the rest of the pattern
    matches: after [x] when that rest matches nowhere inside [x]. *)
Lemma lazy_scan (p : ascii -> bool) (x rest : string)
  (k : string -> option R) (r : R) :
  all p x = true ->
  (forall x1 c x2, x = x1 ++ String c x2 ->
                   k (String c (x2 ++ rest)) = None) ->
  k rest = Some r ->
  lazy R p (x ++ rest) k = Some r.
Proof.
  intros Hp Hmiss Hk. induction x as [|c x IH].
  - simpl. destruct rest; simpl; rewrite Hk; reflexivity.
  - simpl in Hp. apply andb_true_iff in Hp. destruct Hp as [Hpc Hp].
    cbn [append lazy]. rewrite (Hmiss "" c x eq_refl), Hpc.
    apply IH; [exact Hp|].
    intros x1 d x2 Heq. apply (Hmiss (String c x1) d x2).
    cbn [append]. rewrite Heq. reflexivity.
Qed.

Lemma group_lazy_exact (n : nat) (p : ascii -> bool) (x rest : string)
  (g : groups) (k : string -> groups -> option R) (r : R) :
  all p x = true ->
  (forall x1 c x2 g', x = x1 ++ String c x2 ->
                      k (String c (x2 ++ rest)) g' = None) ->
  k rest ((n, x) :: g) = Some r ->
  rmatch R (Group n (LazyStar p)) (x ++ rest) g k = Some r.
Proof.
  intros Hp Hmiss Hk. rewrite rmatch_group, rmatch_lazy.
  apply lazy_scan; [exact Hp| |].
  - intros x1 c x2 Heq. apply (Hmiss x1 c x2 _ Heq).
  - rewrite take_append. exact Hk.
Qed.

(** The character that follows an opening bracket. *)
Lemma no_open_at (K : ascii) (x1 x2 : string) :
  no_open K (x1 ++ String "[" x2) = true ->
  exists d x3, x2 = String d x3 /\ Ascii.eqb d K = false.
Proof.
  induction x1 as [|c x1 IH]; intros H.
  - cbn [append no_open Ascii.eqb Bool.eqb] in H.
    apply andb_true_iff in H. destruct H as [H _].
    destruct x2 as [|d x3]; [discriminate|].
    exists d, x3. split; [reflexivity|]. apply negb_true_iff. exact H.
  - cbn [append no_open] in H. apply andb_true_iff in H. apply IH, H.
Qed.

(** A closing tag matches nowhere inside a text in which no bracket is
    followed by a slash. *)
Lemma closing_miss (t : string) (r : regex) (x rest : string)
  (k : string -> groups -> option R) :
  no_open "/" x = true ->
  forall x1 c x2 g, x = x1 ++ String c x2 ->
    rmatch R (lits (String "[" (String "/" t)) r) (String c (x2 ++ rest)) g k
    = None.
Proof.
  intros H x1 c x2 g Heq. cbn [lits rmatch].
  destruct (Ascii.eqb c "[") eqn:Hc; [|reflexivity].
  apply Ascii.eqb_eq in Hc. subst c x.
  destruct (no_open_at "/" x1 x2 H) as (d & x3 & -> & Hd).
  cbn [append]. rewrite Hd. reflexivity.
Qed.

End Steps.

(** *** Where each pattern matches *)

Lemma all_any_char (s : string) : all any_char s = true.
Proof. induction s; simpl; auto. Qed.

Lemma starts_of_all (p : ascii -> bool) (x : string) :
  is_empty x = false -> all p x = true -> starts p x = true.
Proof.
  destruct x as [|c x]; [discriminate|]. simpl. intros _ H.
  apply andb_true_iff in H. tauto.
Qed.

Lemma not_space_spec (c : ascii) : not_space c = true -> isspace c = false.
Proof. unfold not_space. apply negb_true_iff. Qed.

Lemma no_bracket_not_rbracket (c : ascii) :
  no_bracket c = true -> not_rbracket c = true.
Proof. unfold no_bracket. intros H. apply andb_true_iff in H. tauto. Qed.

Lemma no_bracket_not_lbracket (c : ascii) :
  no_bracket c = true -> not_lbracket c = true.
Proof. unfold no_bracket. intros H. apply andb_true_iff in H. tauto. Qed.

Lemma blank_ok_spec (ws : string) :
  blank_ok ws = true -> starts isspace ws = true /\ all isspace ws = true.
Proof. unfold blank_ok. apply andb_true_iff. Qed.

Lemma word_ok_spec (w : string) :
  word_ok w = true -> starts isword w = true /\ all isword w = true.
Proof. unfold word_ok. apply andb_true_iff. Qed.

Lemma tail_ok_spec (t : string) :
  tail_ok t = true ->
  starts not_space t = true /\ starts not_rbracket t = true
  /\ all not_rbracket t = true /\ all not_lbracket t = true.
Proof.
  unfold tail_ok. intros H. apply andb_true_iff in H. destruct H as [Hs Ha].
  split; [exact Hs|]. split; [|split].
  - apply starts_of_all; [apply (starts_not_empty _ _ Hs)|].
    apply (all_weaken no_bracket); [exact no_bracket_not_rbracket|exact Ha].
  - apply (all_weaken no_bracket); [exact no_bracket_not_rbracket|exact Ha].
  - apply (all_weaken no_bracket); [exact no_bracket_not_lbracket|exact Ha].
Qed.

Section Hits.
Variable R : Type.

Lemma rmatch_lit_app (c : ascii) (s : string) (g : groups)
  (k : string -> groups -> option R) :
  rmatch R (Lit c) (String c "" ++ s) g k = k s g.
Proof. apply rmatch_lit. Qed.

Lemma exec_hit (dotall : bool) (body rest : string)
  (k : string -> groups -> option R) (r : R) :
  body_ok body = true -> all (dot dotall) body = true ->
  k rest [(1, body)] = Some r ->
  rmatch R (V05.exec_pattern dotall)
    (render_segment (ExecTag body) ++ rest) [] k = Some r.
Proof.
  intros Hb Hd Hk. unfold render_segment, V05.exec_pattern.
  unfold body_ok in Hb. apply andb_true_iff in Hb. destruct Hb as [_ Hb].
  rewrite !append_assoc, rmatch_lits, rmatch_seq.
  apply group_lazy_exact; [exact Hd| |].
  - intros x1 c x2 g' Heq.
    apply (closing_miss R "EXEC" (Lit "]") body _ _ Hb x1 c x2 g' Heq).
  - change ("[/EXEC]" ++ rest) with ("[/EXEC" ++ "]" ++ rest).
    rewrite rmatch_lits, rmatch_lit_app. exact Hk.
Qed.

(** The part shared by [SCRIPT] and [TEMPLATE]: white space, a word,
    white space, and the text up to the closing bracket. *)
Lemma header_hit (ws1 kind ws2 name rest : string) (r2 : regex)
  (k : string -> groups -> option R) (r : R) :
  blank_ok ws1 = true -> word_ok kind = true -> blank_ok ws2 = true ->
  tail_ok name = true ->
  rmatch R r2 rest [(2, name); (1, kind)] k = Some r ->
  rmatch R
    (Seq (Plus isspace)
       (Seq (Group 1 (Plus isword))
          (Seq (Plus isspace)
             (Seq (Group 2 (Plus not_rbracket)) (Seq (Lit "]") r2)))))
    (ws1 ++ kind ++ ws2 ++ name ++ "]" ++ rest) [] k = Some r.
Proof.
  intros H1 Hk1 H2 Hn Hk.
  destruct (blank_ok_spec _ H1) as [H1s H1a].
  destruct (word_ok_spec _ Hk1) as [Hks Hka].
  destruct (blank_ok_spec _ H2) as [H2s H2a].
  destruct (tail_ok_spec _ Hn) as (Hns & Hnr & Hna & _).
  rewrite rmatch_seq. apply plus_exact; [exact H1s|exact H1a| |].
  { apply (stops_starts isspace isword); [exact Hks|exact word_not_space]. }
  rewrite rmatch_seq. apply group_plus_exact; [exact Hks|exact Hka| |].
  { apply (stops_starts isword isspace); [exact H2s|exact space_not_word]. }
  rewrite rmatch_seq. apply plus_exact; [exact H2s|exact H2a| |].
  { apply (stops_starts isspace not_space); [exact Hns|exact not_space_spec]. }
  rewrite rmatch_seq. apply group_plus_exact; [exact Hnr|exact Hna|reflexivity|].
  rewrite rmatch_seq, rmatch_lit_app. exact Hk.
Qed.

Lemma script_hit (dotall : bool) (ws1 kind ws2 name body rest : string)
  (k : string -> groups -> option R) (r : R) :
  segment_ok (ScriptTag ws1 kind ws2 name body) = true ->
  all (dot dotall) body = true ->
  k rest [(3, body); (2, name); (1, kind)] = Some r ->
  rmatch R (V05.script_pattern dotall)
    (render_segment (ScriptTag ws1 kind ws2 name body) ++ rest) [] k = Some r.
Proof.
  intros Hok Hd Hk. cbn [segment_ok] in Hok.
  apply andb_true_iff in Hok. destruct Hok as [Hok Hb].
  apply andb_true_iff in Hok. destruct Hok as [Hok Hn].
  apply andb_true_iff in Hok. destruct Hok as [Hok H2].
  apply andb_true_iff in Hok. destruct Hok as [H1 Hk1].
  unfold render_segment, V05.script_pattern.
  rewrite !append_assoc, rmatch_lits.
  apply header_hit; try assumption.
  unfold body_ok in Hb. apply andb_true_iff in Hb. destruct Hb as [_ Hb].
  rewrite rmatch_seq. apply group_lazy_exact; [exact Hd| |].
  - intros x1 c x2 g' Heq.
    apply (closing_miss R "SCRIPT" (Lit "]") body _ _ Hb x1 c x2 g' Heq).
  - change ("[/SCRIPT]" ++ rest) with ("[/SCRIPT" ++ "]" ++ rest).
    rewrite rmatch_lits, rmatch_lit_app. exact Hk.
Qed.

Lemma template_hit (ws1 kind ws2 name rest : string)
  (k : string -> groups -> option R) (r : R) :
  segment_ok (TemplateTag ws1 kind ws2 name) = true ->
  k rest [(2, name); (1, kind)] = Some r ->
  rmatch R V05.template_pattern
    (render_segment (TemplateTag ws1 kind ws2 name) ++ rest) [] k = Some r.
Proof.
  intros Hok Hk. cbn [segment_ok] in Hok.
  apply andb_true_iff in Hok. destruct Hok as [Hok Hn].
  apply andb_true_iff in Hok. destruct Hok as [Hok H2].
  apply andb_true_iff in Hok. destruct Hok as [H1 Hk1].
  destruct (blank_ok_spec _ H1) as [H1s H1a].
  destruct (word_ok_spec _ Hk1) as [Hks Hka].
  destruct (blank_ok_spec _ H2) as [H2s H2a].
  destruct (tail_ok_spec _ Hn) as (Hns & Hnr & Hna & _).
  unfold render_segment, V05.template_pattern.
  rewrite !append_assoc, rmatch_lits.
  rewrite rmatch_seq. apply plus_exact; [exact H1s|exact H1a| |].
  { apply (stops_starts isspace isword); [exact Hks|exact word_not_space]. }
  rewrite rmatch_seq. apply group_plus_exact; [exact Hks|exact Hka| |].
  { apply (stops_starts isword isspace); [exact H2s|exact space_not_word]. }
  rewrite rmatch_seq. apply plus_exact; [exact H2s|exact H2a| |].
  { apply (stops_starts isspace not_space); [exact Hns|exact not_space_spec]. }
  rewrite rmatch_seq. apply group_plus_exact; [exact Hnr|exact Hna|reflexivity|].
  rewrite rmatch_lit_app. exact Hk.
Qed.

Lemma call_hit (keyword ws1 name : string) (args : option (string * string))
  (rest : string) (k : string -> groups -> option R) (r : R) :
  blank_ok ws1 = true -> word_ok name = true -> args_ok args = true ->
  k rest (call_groups name args) = Some r ->
  rmatch R (V05.call_pattern keyword)
    ((keyword ++ ws1 ++ name ++ render_args args ++ "]") ++ rest) [] k
  = Some r.
Proof.
  intros H1 Hn Ha Hk.
  destruct (blank_ok_spec _ H1) as [H1s H1a].
  destruct (word_ok_spec _ Hn) as [Hns Hna].
  unfold V05.call_pattern.
  rewrite !append_assoc, rmatch_lits.
  rewrite rmatch_seq. apply plus_exact; [exact H1s|exact H1a| |].
  { apply (stops_starts isspace isword); [exact Hns|exact word_not_space]. }
  destruct args as [[ws2 text]|]; cbn [render_args call_groups args_ok] in *.
  - apply andb_true_iff in Ha. destruct Ha as [H2 Ht].
    destruct (blank_ok_spec _ H2) as [H2s H2a].
    destruct (tail_ok_spec _ Ht) as (Hts & Htr & Hta & _).
    rewrite !append_assoc.
    rewrite rmatch_seq. apply group_plus_exact; [exact Hns|exact Hna| |].
    { apply (stops_starts isword isspace); [exact H2s|exact space_not_word]. }
    rewrite rmatch_seq, rmatch_opt.
    replace (rmatch R (Seq (Plus isspace) (Group 2 (Plus not_rbracket)))
               (ws2 ++ text ++ "]" ++ rest) [(1, name)]
               (fun s1 g1 => rmatch R (Lit "]") s1 g1 k))
      with (Some r); [reflexivity|].
    symmetry.
    rewrite rmatch_seq. apply plus_exact; [exact H2s|exact H2a| |].
    { apply (stops_starts isspace not_space); [exact Hts|exact not_space_spec]. }
    apply group_plus_exact; [exact Htr|exact Hta|reflexivity|].
    rewrite rmatch_lit_app. exact Hk.
  - change ("" ++ "]" ++ rest) with ("]" ++ rest).
    rewrite rmatch_seq. apply group_plus_exact; [exact Hns|exact Hna|reflexivity|].
    rewrite rmatch_seq, rmatch_opt, rmatch_seq.
    rewrite plus_none by reflexivity.
    rewrite rmatch_lit_app. exact Hk.
Qed.

End Hits.

Lemma length_minus (x rest : string) :
  String.length (x ++ rest) - String.length rest = String.length x.
Proof. rewrite length_append. lia. Qed.

(** A well-formed tag is matched, from its first character to its last, by
    the pattern of its family; without [re.DOTALL], as long as its body
    holds no line break. *)
Lemma tag_hit (dotall : bool) (s : segment) (rest : string) :
  family_of s <> FProse ->
  segment_ok s = true ->
  (dotall = true \/ single_line s = true) ->
  match_at (pattern_of (family_of s) dotall) (render_segment s ++ rest)
  = Some (String.length (render_segment s), groups_of s).
Proof.
  intros Hf Hok Hd. unfold match_at.
  rewrite <- (length_minus (render_segment s) rest).
  destruct s as [t|body|ws1 kind ws2 name body|ws1 kind ws2 name
                 |ws1 name args|ws1 name args];
    cbn [family_of pattern_of groups_of].
  - contradiction.
  - apply exec_hit; [exact Hok| |reflexivity].
    destruct dotall; [apply all_any_char|].
    destruct Hd as [Hd|Hd]; [discriminate|exact Hd].
  - apply script_hit; [exact Hok| |reflexivity].
    destruct dotall; [apply all_any_char|].
    destruct Hd as [Hd|Hd]; [discriminate|exact Hd].
  - apply template_hit; [exact Hok|reflexivity].
  - cbn [segment_ok] in Hok.
    apply andb_true_iff in Hok. destruct Hok as [Hok Ha].
    apply andb_true_iff in Hok. destruct Hok as [H1 Hn].
    apply (call_hit _ "[QUICKCMD"); try assumption. reflexivity.
  - cbn [segment_ok] in Hok.
    apply andb_true_iff in Hok. destruct Hok as [Hok Ha].
    apply andb_true_iff in Hok. destruct Hok as [H1 Hn].
    apply (call_hit _ "[DEVOPS"); try assumption. reflexivity.
Qed.

(** *** Where no pattern matches *)

Lemma no_open_free (K : ascii) (x y : string) :
  all not_lbracket x = true -> no_open K (x ++ y) = no_open K y.
Proof.
  induction x as [|c x IH]; intros H; [reflexivity|].
  simpl in H. apply andb_true_iff in H. destruct H as [Hc H].
  unfold not_lbracket in Hc. apply negb_true_iff in Hc.
  cbn [append no_open]. rewrite Hc, (IH H). reflexivity.
Qed.

Lemma no_open_free_end (K : ascii) (x : string) :
  all not_lbracket x = true -> no_open K x = true.
Proof.
  intros H. rewrite <- (append_nil_r x). rewrite no_open_free by exact H.
  reflexivity.
Qed.

Lemma no_open_app (K : ascii) (x y : string) :
  no_open K x = true -> no_open K (x ++ y) = no_open K y.
Proof.
  induction x as [|c x IH]; intros H; [reflexivity|].
  cbn [no_open] in H. apply andb_true_iff in H. destruct H as [Hc H].
  cbn [append no_open]. rewrite (IH H).
  destruct (Ascii.eqb c "["); [|reflexivity].
  destruct x as [|d x]; [discriminate|]. cbn [append]. rewrite Hc.
  reflexivity.
Qed.

Lemma no_open_suffix (K : ascii) (x y : string) :
  no_open K (x ++ y) = true -> no_open K y = true.
Proof.
  induction x as [|c x IH]; intros H; [exact H|].
  cbn [append no_open] in H. apply andb_true_iff in H. apply IH, H.
Qed.

Lemma tag_free_spec (x : string) (f : family) :
  tag_free x = true -> f <> FProse -> no_open (opener f) x = true.
Proof.
  unfold tag_free. intros H Hf.
  apply andb_true_iff in H. destruct H as [H HD].
  apply andb_true_iff in H. destruct H as [H HQ].
  apply andb_true_iff in H. destruct H as [H HT].
  apply andb_true_iff in H. destruct H as [HE HS].
  destruct f; [contradiction| | | | |]; assumption.
Qed.

Lemma tag_free_append (x y : string) :
  tag_free x = true -> tag_free y = true -> tag_free (x ++ y) = true.
Proof.
  intros Hx Hy. unfold tag_free.
  rewrite (no_open_app "E"), (no_open_app "S"), (no_open_app "T"),
    (no_open_app "Q"), (no_open_app "D");
    [exact Hy| | | | |].
  - apply (tag_free_spec x FDevops Hx). discriminate.
  - apply (tag_free_spec x FQuick Hx). discriminate.
  - apply (tag_free_spec x FTemplate Hx). discriminate.
  - apply (tag_free_spec x FScript Hx). discriminate.
  - apply (tag_free_spec x FExec Hx). discriminate.
Qed.

Lemma body_free (f : family) (body : string) :
  body_ok body = true -> f <> FProse -> no_open (opener f) body = true.
Proof.
  unfold body_ok. intros H Hf. apply andb_true_iff in H.
  apply tag_free_spec; tauto.
Qed.

Lemma misses_no_open (K : ascii) (r : regex) (x rest : string) :
  no_open K x = true -> misses (Seq (Lit "[") (Seq (Lit K) r)) x rest.
Proof.
  induction x as [|c x IH]; intros H; [apply misses_nil|].
  cbn [no_open] in H. apply andb_true_iff in H. destruct H as [Hc H].
  apply misses_cons; [|apply IH; exact H].
  unfold match_at. cbn [rmatch].
  destruct (Ascii.eqb c "["); [|reflexivity].
  destruct x as [|d x]; [discriminate|].
  cbn [append]. apply negb_true_iff in Hc. rewrite Hc. reflexivity.
Qed.

Lemma pattern_shape (f : family) (dotall : bool) :
  f <> FProse ->
  exists r, pattern_of f dotall = Seq (Lit "[") (Seq (Lit (opener f)) r).
Proof.
  destruct f; intros H; try contradiction; eexists; reflexivity.
Qed.

Lemma space_not_lbracket (c : ascii) : isspace c = true -> not_lbracket c = true.
Proof.
  destruct c as [[] [] [] [] [] [] [] []]; vm_compute; intros H;
    first [reflexivity | discriminate].
Qed.

Lemma word_not_lbracket (c : ascii) : isword c = true -> not_lbracket c = true.
Proof.
  destruct c as [[] [] [] [] [] [] [] []]; vm_compute; intros H;
    first [reflexivity | discriminate].
Qed.

Lemma blank_free (ws : string) :
  blank_ok ws = true -> all not_lbracket ws = true.
Proof.
  intros H. destruct (blank_ok_spec _ H) as [_ Ha].
  apply (all_weaken isspace); [exact space_not_lbracket|exact Ha].
Qed.

Lemma word_free (w : string) :
  word_ok w = true -> all not_lbracket w = true.
Proof.
  intros H. destruct (word_ok_spec _ H) as [_ Ha].
  apply (all_weaken isword); [exact word_not_lbracket|exact Ha].
Qed.

Lemma tail_free (t : string) :
  tail_ok t = true -> all not_lbracket t = true.
Proof.
  intros H. destruct (tail_ok_spec _ H) as (_ & _ & _ & Ha). exact Ha.
Qed.

Lemma args_free (args : option (string * string)) :
  args_ok args = true -> all not_lbracket (render_args args) = true.
Proof.
  destruct args as [[ws2 text]|]; cbn [args_ok render_args]; [|reflexivity].
  intros H. apply andb_true_iff in H. destruct H as [H2 Ht].
  rewrite all_append, (blank_free _ H2), (tail_free _ Ht). reflexivity.
Qed.

Ltac no_open_steps :=
  repeat first
    [ reflexivity
    | rewrite no_open_free by assumption
    | rewrite no_open_app by assumption
    | progress cbn [no_open append Ascii.eqb Bool.eqb negb andb] ].

(** A well-formed piece of another family holds no place where the
    pattern could start. *)
Lemma segment_no_open (f : family) (s : segment) :
  f <> FProse -> family_of s <> f -> segment_ok s = true ->
  no_open (opener f) (render_segment s) = true.
Proof.
  intros Hf Hs Hok.
  destruct s as [t|body|ws1 kind ws2 name body|ws1 kind ws2 name
                 |ws1 name args|ws1 name args];
    cbn [segment_ok render_segment] in *.
  - apply tag_free_spec; assumption.
  - pose proof (body_free f body Hok Hf) as Hb.
    destruct f; try contradiction; cbn [opener] in Hb; no_open_steps.
  - apply andb_true_iff in Hok. destruct Hok as [Hok Hb].
    apply andb_true_iff in Hok. destruct Hok as [Hok Hn].
    apply andb_true_iff in Hok. destruct Hok as [Hok H2].
    apply andb_true_iff in Hok. destruct Hok as [H1 Hk].
    apply blank_free in H1. apply word_free in Hk.
    apply blank_free in H2. apply tail_free in Hn.
    apply (fun H => body_free f body H Hf) in Hb.
    destruct f; try contradiction; cbn [opener] in Hb; no_open_steps.
  - apply andb_true_iff in Hok. destruct Hok as [Hok Hn].
    apply andb_true_iff in Hok. destruct Hok as [Hok H2].
    apply andb_true_iff in Hok. destruct Hok as [H1 Hk].
    apply blank_free in H1. apply word_free in Hk.
    apply blank_free in H2. apply tail_free in Hn.
    destruct f; try contradiction; no_open_steps.
  - apply andb_true_iff in Hok. destruct Hok as [Hok Ha].
    apply andb_true_iff in Hok. destruct Hok as [H1 Hn].
    apply blank_free in H1. apply word_free in Hn. apply args_free in Ha.
    destruct f; try contradiction; no_open_steps.
  - apply andb_true_iff in Hok. destruct Hok as [Hok Ha].
    apply andb_true_iff in Hok. destruct Hok as [H1 Hn].
    apply blank_free in H1. apply word_free in Hn. apply args_free in Ha.
    destruct f; try contradiction; no_open_steps.
Qed.

Lemma segment_misses (f : family) (dotall : bool) (s : segment)
  (rest : string) :
  f <> FProse -> family_of s <> f -> segment_ok s = true ->
  misses (pattern_of f dotall) (render_segment s) rest.
Proof.
  intros Hf Hs Hok. destruct (pattern_shape f dotall Hf) as [r ->].
  apply misses_no_open. apply segment_no_open; assumption.
Qed.

(** *** One pass over a document *)

Lemma family_eqb_spec (f g : family) : reflect (f = g) (family_eqb f g).
Proof.
  destruct f, g; simpl; constructor; congruence.
Qed.

Lemma tag_not_empty (s : segment) :
  family_of s <> FProse -> render_segment s <> "".
Proof.
  destruct s; simpl; intros H; try discriminate. contradiction.
Qed.

Lemma match_at_empty (f : family) (dotall : bool) :
  f <> FProse -> match_at (pattern_of f dotall) "" = None.
Proof.
  intros Hf. destruct (pattern_shape f dotall Hf) as [r ->]. reflexivity.
Qed.

(** [finditer] with the pattern of a family reports the tags of that
    family, one match each, in the order of the document. *)
Lemma scan_finditer (f : family) (dotall : bool) (doc : list segment) :
  f <> FProse ->
  forallb segment_ok doc = true ->
  (dotall = true \/ forallb single_line doc = true) ->
  forall pos,
    Forall2 (fun m s => m_groups m = groups_of s)
      (finditer_go (pattern_of f dotall) (render doc) pos 0)
      (of_family f doc).
Proof.
  intros Hf. induction doc as [|s doc IH]; intros Hok Hd pos.
  - cbn [render finditer_go]. rewrite (match_at_empty f dotall Hf).
    constructor.
  - cbn [forallb] in Hok. apply andb_true_iff in Hok.
    destruct Hok as [Hs Hok].
    assert (Hd' : dotall = true \/ forallb single_line doc = true).
    { destruct Hd as [Hd|Hd]; [left; exact Hd|right].
      cbn [forallb] in Hd. apply andb_true_iff in Hd. tauto. }
    assert (Hds : dotall = true \/ single_line s = true).
    { destruct Hd as [Hd|Hd]; [left; exact Hd|right].
      cbn [forallb] in Hd. apply andb_true_iff in Hd. tauto. }
    cbn [render of_family filter].
    destruct (family_eqb_spec (family_of s) f) as [Heq|Hne].
    + subst f.
      rewrite (finditer_go_hit _ _ _ pos (groups_of s)
                 (tag_not_empty s Hf) (tag_hit dotall s _ Hf Hs Hds)).
      constructor; [reflexivity|]. apply IH; assumption.
    + rewrite finditer_go_miss by (apply segment_misses; assumption).
      apply IH; assumption.
Qed.

(** [re.sub] with the pattern of a family leaves the document without the
    tags of that family. *)
Lemma scan_sub (f : family) (dotall : bool) (doc : list segment) :
  f <> FProse ->
  forallb segment_ok doc = true ->
  (dotall = true \/ forallb single_line doc = true) ->
  sub (pattern_of f dotall) (render doc) = render (without_family f doc).
Proof.
  intros Hf. unfold sub. induction doc as [|s doc IH]; intros Hok Hd.
  - cbn [render sub_go]. rewrite (match_at_empty f dotall Hf). reflexivity.
  - cbn [forallb] in Hok. apply andb_true_iff in Hok.
    destruct Hok as [Hs Hok].
    assert (Hd' : dotall = true \/ forallb single_line doc = true).
    { destruct Hd as [Hd|Hd]; [left; exact Hd|right].
      cbn [forallb] in Hd. apply andb_true_iff in Hd. tauto. }
    assert (Hds : dotall = true \/ single_line s = true).
    { destruct Hd as [Hd|Hd]; [left; exact Hd|right].
      cbn [forallb] in Hd. apply andb_true_iff in Hd. tauto. }
    cbn [render without_family filter].
    destruct (family_eqb_spec (family_of s) f) as [Heq|Hne]; cbn [negb].
    + subst f.
      rewrite (sub_go_hit _ _ _ (groups_of s)
                 (tag_not_empty s Hf) (tag_hit dotall s _ Hf Hs Hds)).
      apply IH; assumption.
    + rewrite sub_go_miss by (apply segment_misses; assumption).
      cbn [render]. rewrite IH by assumption. reflexivity.
Qed.

Lemma forallb_filter {A : Type} (p q : A -> bool) (l : list A) :
  forallb p l = true -> forallb p (filter q l) = true.
Proof.
  induction l as [|x l IH]; simpl; [reflexivity|].
  intros H. apply andb_true_iff in H. destruct H as [Hx H].
  destruct (q x); simpl; [rewrite Hx|]; auto.
Qed.

(** *** The calls of [process_response] on a document *)

Lemma calls_of_matches (f : family) (F : mtch -> V05.directive)
  (l : list mtch) (doc : list segment) :
  (forall m s, segment_ok s = true -> family_of s = f ->
               m_groups m = groups_of s -> [F m] = directive_of s) ->
  forallb segment_ok doc = true ->
  Forall2 (fun m s => m_groups m = groups_of s) l (of_family f doc) ->
  map F l = asked (of_family f doc).
Proof.
  intros HF Hok H.
  assert (Hfam : Forall (fun s => segment_ok s = true /\ family_of s = f)
                   (of_family f doc)).
  { apply Forall_forall. intros s Hin. unfold of_family in Hin.
    apply filter_In in Hin. destruct Hin as [Hin Hf].
    split.
    - rewrite forallb_forall in Hok. apply Hok. exact Hin.
    - destruct (family_eqb_spec (family_of s) f); [assumption|discriminate]. }
  induction H as [|m s l ss Hms H IH]; [reflexivity|].
  inversion Hfam as [|? ? [Hs Hf] Hfam']; subst.
  cbn [map asked flat_map].
  rewrite <- (HF m s Hs eq_refl Hms). cbn [app]. f_equal.
  apply IH. exact Hfam'.
Qed.

Lemma tail_not_empty (t : string) : tail_ok t = true -> is_empty t = false.
Proof.
  intros H. destruct (tail_ok_spec _ H) as [Hs _].
  apply (starts_not_empty _ _ Hs).
Qed.

Lemma call_args_of (m : mtch) (name : string)
  (args : option (string * string)) :
  args_ok args = true -> m_groups m = call_groups name args ->
  V05.call_args m = args_of args /\ V05.grp m 1 = name.
Proof.
  intros Hok Hm. unfold V05.call_args, V05.grp. rewrite Hm.
  destruct args as [[ws2 text]|]; cbn [call_groups group Nat.eqb args_of].
  - cbn [args_ok] in Hok. apply andb_true_iff in Hok.
    destruct Hok as [_ Ht]. rewrite (tail_not_empty _ Ht). auto.
  - auto.
Qed.

Lemma directives_of_document (doc : list segment) :
  forallb segment_ok doc = true ->
  V05.directives (render doc)
  = (asked (of_family FExec doc) ++ asked (of_family FScript doc)
     ++ asked (of_family FTemplate doc) ++ asked (of_family FQuick doc)
     ++ asked (of_family FDevops doc))%list.
Proof.
  intros Hok. unfold V05.directives.
  assert (Hscan : forall f, f <> FProse ->
            Forall2 (fun m s => m_groups m = groups_of s)
              (finditer (pattern_of f true) (render doc)) (of_family f doc)).
  { intros f Hf. apply scan_finditer; auto. }
  unfold V05.exec_directives, V05.script_directives, V05.template_directives,
    V05.quickcmd_directives, V05.devops_directives.
  f_equal; [|f_equal; [|f_equal; [|f_equal]]].
  - apply (calls_of_matches FExec); [|exact Hok|apply (Hscan FExec); discriminate].
    intros m s Hs Hf Hm. destruct s; try discriminate.
    unfold V05.grp. rewrite Hm. reflexivity.
  - apply (calls_of_matches FScript);
      [|exact Hok|apply (Hscan FScript); discriminate].
    intros m s Hs Hf Hm. destruct s; try discriminate.
    unfold V05.grp. rewrite Hm. reflexivity.
  - apply (calls_of_matches FTemplate);
      [|exact Hok|apply (Hscan FTemplate); discriminate].
    intros m s Hs Hf Hm. destruct s; try discriminate.
    unfold V05.grp. rewrite Hm. reflexivity.
  - apply (calls_of_matches FQuick);
      [|exact Hok|apply (Hscan FQuick); discriminate].
    intros m s Hs Hf Hm. destruct s as [| | | |ws1 name args|]; try discriminate.
    cbn [segment_ok] in Hs. apply andb_true_iff in Hs. destruct Hs as [_ Ha].
    destruct (call_args_of m name args Ha Hm) as [-> ->]. reflexivity.
  - apply (calls_of_matches FDevops);
      [|exact Hok|apply (Hscan FDevops); discriminate].
    intros m s Hs Hf Hm. destruct s as [| | | | |ws1 name args]; try discriminate.
    cbn [segment_ok] in Hs. apply andb_true_iff in Hs. destruct Hs as [_ Ha].
    destruct (call_args_of m name args Ha Hm) as [-> ->]. reflexivity.
Qed.

Lemma asked_length (f : family) (doc : list segment) :
  f <> FProse ->
  List.length (asked (of_family f doc)) = List.length (of_family f doc).
Proof.
  intros Hf. unfold asked, of_family.
  induction doc as [|s doc IH]; [reflexivity|]. cbn [filter].
  destruct (family_eqb_spec (family_of s) f) as [Heq|Hne]; [|exact IH].
  cbn [flat_map List.length]. rewrite length_app, IH.
  destruct s; cbn [directive_of List.length]; try reflexivity.
  subst f. contradiction.
Qed.

Lemma families_length (doc : list segment) :
  List.length (of_family FExec doc) + List.length (of_family FScript doc)
  + List.length (of_family FTemplate doc) + List.length (of_family FQuick doc)
  + List.length (of_family FDevops doc)
  = List.length (tags doc).
Proof.
  unfold tags, of_family, without_family.
  induction doc as [|s doc IH]; [reflexivity|].
  destruct s; cbn [filter family_of family_eqb negb List.length]; lia.
Qed.

(** *** The text shown *)

Lemma only_prose (doc : list segment) :
  without_family FDevops
    (without_family FQuick
       (without_family FTemplate
          (without_family FScript (without_family FExec doc))))
  = of_family FProse doc.
Proof.
  unfold without_family, of_family.
  induction doc as [|s doc IH]; [reflexivity|].
  destruct s; cbn [filter family_of family_eqb negb]; rewrite ?IH; reflexivity.
Qed.

Lemma prose_free (doc : list segment) :
  forallb segment_ok doc = true ->
  tag_free (render (of_family FProse doc)) = true.
Proof.
  unfold of_family. induction doc as [|s doc IH]; [reflexivity|].
  cbn [forallb]. intros H. apply andb_true_iff in H. destruct H as [Hs H].
  destruct s; cbn [filter family_of family_eqb]; try (apply IH; exact H).
  cbn [render render_segment]. apply tag_free_append; [exact Hs|apply IH, H].
Qed.

Lemma clean_response_of_document (doc : list segment) :
  forallb segment_ok doc = true -> forallb single_line doc = true ->
  V05.clean_response (render doc) = strip (render (of_family FProse doc)).
Proof.
  intros Hok Hsl. unfold V05.clean_response.
  change (V05.exec_pattern false) with (pattern_of FExec false).
  change (V05.script_pattern false) with (pattern_of FScript false).
  change V05.template_pattern with (pattern_of FTemplate false).
  change V05.quickcmd_pattern with (pattern_of FQuick false).
  change V05.devops_pattern with (pattern_of FDevops false).
  rewrite scan_sub; [|discriminate|exact Hok|right; exact Hsl].
  rewrite scan_sub;
    [|discriminate|apply forallb_filter; exact Hok
     |right; apply forallb_filter; exact Hsl].
  rewrite scan_sub;
    [|discriminate|repeat apply forallb_filter; exact Hok
     |right; repeat apply forallb_filter; exact Hsl].
  rewrite scan_sub;
    [|discriminate|repeat apply forallb_filter; exact Hok
     |right; repeat apply forallb_filter; exact Hsl].
  rewrite scan_sub;
    [|discriminate|repeat apply forallb_filter; exact Hok
     |right; repeat apply forallb_filter; exact Hsl].
  rewrite only_prose. reflexivity.
Qed.

(** A pattern that starts with a bracket and [K] matches nowhere inside
    the start of a text in which no bracket is followed by [K]. *)
Lemma misses_inside (K : ascii) (r : regex) (x trail : string) :
  no_open K (x ++ trail) = true ->
  misses (Seq (Lit "[") (Seq (Lit K) r)) x "".
Proof.
  intros H x1 c x2 Heq. unfold match_at. cbn [rmatch].
  destruct (Ascii.eqb c "[") eqn:Hc; [|reflexivity].
  apply Ascii.eqb_eq in Hc. subst c x.
  rewrite append_assoc in H. cbn [append] in H.
  destruct (no_open_at K x1 (x2 ++ trail) H) as (d & x3 & Hd & HK).
  destruct x2 as [|d' x2]; [reflexivity|].
  cbn [append] in Hd. inversion Hd; subst. cbn [append]. rewrite HK.
  reflexivity.
Qed.

(** A text in which no tag opens holds no directive once stripped. *)
Lemma finditer_free (f : family) (s : string) :
  f <> FProse -> no_open (opener f) s = true ->
  finditer (pattern_of f true) (strip s) = [].
Proof.
  intros Hf Hs. unfold finditer. rewrite <- (append_nil_r (strip s)).
  rewrite finditer_go_miss.
  - cbn [finditer_go]. rewrite (match_at_empty f true Hf). reflexivity.
  - destruct (pattern_shape f true Hf) as [r ->].
    destruct (AliasFacts.lstrip_split s) as (lead & Hlead & _).
    destruct (AliasFacts.rstrip_split (lstrip s)) as [trail Htrail].
    fold (strip s) in Htrail.
    apply (misses_inside _ r _ trail). rewrite <- Htrail.
    apply (no_open_suffix _ lead). rewrite <- Hlead. exact Hs.
Qed.

Lemma directives_free (s : string) :
  tag_free s = true -> V05.directives (strip s) = [].
Proof.
  intros Hs. unfold V05.directives, V05.exec_directives,
    V05.script_directives, V05.template_directives,
    V05.quickcmd_directives, V05.devops_directives.
  change (V05.exec_pattern true) with (pattern_of FExec true).
  change (V05.script_pattern true) with (pattern_of FScript true).
  change V05.template_pattern with (pattern_of FTemplate true).
  change V05.quickcmd_pattern with (pattern_of FQuick true).
  change V05.devops_pattern with (pattern_of FDevops true).
  rewrite (finditer_free FExec s), (finditer_free FScript s),
    (finditer_free FTemplate s), (finditer_free FQuick s),
    (finditer_free FDevops s)
    by (discriminate || (apply tag_free_spec; [exact Hs|discriminate])).
  reflexivity.
Qed.

(** *** The loops *)

Section Loops.
Variable E : env.
Variable TEMPLATES : dict string.
Variable SCRIPTS_DIR : string.

Lemma for_each_app (l1 l2 : list V05.directive) :
  forall (a : V05.agent) (w : V05.world),
    V05.for_each E TEMPLATES SCRIPTS_DIR (l1 ++ l2) a w
    = match V05.for_each E TEMPLATES SCRIPTS_DIR l1 a w with
      | (Some e, a1, w1) => (Some e, a1, w1)
      | (None, a1, w1) => V05.for_each E TEMPLATES SCRIPTS_DIR l2 a1 w1
      end.
Proof.
  induction l1 as [|d l1 IH]; intros a w; [reflexivity|].
  cbn [app V05.for_each].
  destruct (V05.run_directive E TEMPLATES SCRIPTS_DIR a w d) as [[r a1] w1].
  destruct r as [x|e]; [apply IH|reflexivity].
Qed.

(** [process_response] is one loop over [directives], and then the text
    left is shown. *)
Lemma process_response_for_each (a : V05.agent) (w : V05.world)
  (response : string) :
  V05.process_response E TEMPLATES SCRIPTS_DIR a w response
  = match V05.for_each E TEMPLATES SCRIPTS_DIR (V05.directives response) a w
    with
    | (Some e, a', w') => (Some e, a', w')
    | (None, a', w') => V05.show_prose E a' w' response
    end.
Proof.
  unfold V05.process_response, V05.directives.
  rewrite for_each_app.
  destruct (V05.for_each E TEMPLATES SCRIPTS_DIR
              (V05.exec_directives response) a w) as [[[e|] a1] w1];
    [reflexivity|].
  rewrite for_each_app.
  destruct (V05.for_each E TEMPLATES SCRIPTS_DIR
              (V05.script_directives response) a1 w1) as [[[e|] a2] w2];
    [reflexivity|].
  rewrite for_each_app.
  destruct (V05.for_each E TEMPLATES SCRIPTS_DIR
              (V05.template_directives response) a2 w2) as [[[e|] a3] w3];
    [reflexivity|].
  rewrite for_each_app.
  destruct (V05.for_each E TEMPLATES SCRIPTS_DIR
              (V05.quickcmd_directives response) a3 w3) as [[[e|] a4] w4];
    [reflexivity|].
  destruct (V05.for_each E TEMPLATES SCRIPTS_DIR
              (V05.devops_directives response) a4 w4) as [[[e|] a5] w5];
    reflexivity.
Qed.

(** After a [cd] that succeeds and is shown, the rest of the loop runs in
    the new directory; when the console cannot show it, the loop ends
    there, the directory changed. *)
Lemma for_each_after_cd (a : V05.agent) (w : V05.world) (command : string)
  (rest : list V05.directive) :
  let c := V05.expand_alias (V05.aliases (V05.cfg a)) command in
  let new_dir := V05.cd_target a w c in
  startswith (strip c) "cd " = true ->
  isdir (V05.fs w) new_dir = true ->
  chdir_error (V05.fs w) new_dir = None ->
  exists a1 w1,
    V05.current_dir a1 = new_dir
    /\ V05.getcwd w1 = entered (V05.fs w) new_dir
    /\ V05.for_each E TEMPLATES SCRIPTS_DIR (V05.Exec command :: rest) a w
       = match console E (V05.screen w)
                 (CommandReport command (msg_current_dir new_dir)) with
         | Some e => (Some e, a1, w1)
         | None =>
             V05.for_each E TEMPLATES SCRIPTS_DIR rest a1
               (V05.shown w1 (CommandReport command (msg_current_dir new_dir)))
         end.
Proof.
  intros c new_dir Hcd Hdir Hch. cbn [V05.for_each V05.run_directive].
  unfold V05.execute_command. fold c. rewrite Hcd.
  pose proof (EngineFacts.change_directory_v05 E a w c) as H.
  cbv zeta in H. fold new_dir in H.
  destruct (V05.change_directory E a w c) as [[r a1] w1].
  rewrite Hdir, Hch in H. destruct H as (-> & Hc1 & Hc2 & _ & _ & _ & _ & Hs).
  exists a1, w1. split; [exact Hc1|]. split; [exact Hc2|].
  unfold V05.reported, V05.show. rewrite Hs.
  destruct (console E (V05.screen w)
              (CommandReport command (msg_current_dir new_dir)));
    reflexivity.
Qed.

End Loops.

End ParserFacts.

(** C2 (as amended).  Take a response made of prose and of well-formed
    tags: no tag opens inside the prose or inside the body of an [EXEC] or
    a [SCRIPT] tag (no opening bracket there is followed by the first
    letter of a tag name), no body holds the start of a closing tag, kinds
    and names are words, the other tokens have no bracket.
    [process_response] makes one call for each tag, so as many calls as
    there are tags, and makes them family by family: all the [EXEC] tags,
    then the [SCRIPT], the [TEMPLATE], the [QUICKCMD] and the [DEVOPS]
    tags, the tags of one family in the order of the document.  The calls
    run one after the other on the state the one before left, each with
    the lines that show its result, until a call, the console or a prompt
    raises, which ends the processing; so what follows a [cd] that
    succeeded and was shown runs in the new directory.  At the end the
    text left is shown, unless it is empty: when no body holds a line
    break, it is the prose alone, stripped, and it holds no directive. *)
Theorem directives_by_family :
  forall doc : list Response.segment,
    forallb Response.segment_ok doc = true ->
    let calls :=
      (Response.asked (Response.of_family Response.FExec doc)
       ++ Response.asked (Response.of_family Response.FScript doc)
       ++ Response.asked (Response.of_family Response.FTemplate doc)
       ++ Response.asked (Response.of_family Response.FQuick doc)
       ++ Response.asked (Response.of_family Response.FDevops doc))%list in
    V05.directives (Response.render doc) = calls
    /\ List.length (V05.directives (Response.render doc))
       = List.length (Response.tags doc)
    /\ (forall (E : Sys.env) (TEMPLATES : Py.dict string) (SCRIPTS_DIR : string)
               (a : V05.agent) (w : V05.world),
           V05.process_response E TEMPLATES SCRIPTS_DIR a w
             (Response.render doc)
           = match V05.for_each E TEMPLATES SCRIPTS_DIR calls a w with
             | (Some e, a', w') => (Some e, a', w')
             | (None, a', w') =>
                 V05.show_prose E a' w' (Response.render doc)
             end)
    /\ (forall (E : Sys.env) (TEMPLATES : Py.dict string) (SCRIPTS_DIR : string)
               (a : V05.agent) (w : V05.world) (command : string)
               (rest : list V05.directive),
           let c := V05.expand_alias (V05.aliases (V05.cfg a)) command in
           let new_dir := V05.cd_target a w c in
           Py.startswith (Py.strip c) "cd " = true ->
           Sys.isdir (V05.fs w) new_dir = true ->
           Sys.chdir_error (V05.fs w) new_dir = None ->
           exists a1 w1,
             V05.current_dir a1 = new_dir
             /\ V05.getcwd w1 = Sys.entered (V05.fs w) new_dir
             /\ V05.for_each E TEMPLATES SCRIPTS_DIR
                  (V05.Exec command :: rest) a w
                = match Sys.console E (V05.screen w)
                          (Sys.CommandReport command
                             (Sys.msg_current_dir new_dir)) with
                  | Some e => (Some e, a1, w1)
                  | None =>
                      V05.for_each E TEMPLATES SCRIPTS_DIR rest a1
                        (V05.shown w1
                           (Sys.CommandReport command
                              (Sys.msg_current_dir new_dir)))
                  end)
    /\ (forallb Response.single_line doc = true ->
        let prose :=
          Py.strip (Response.render (Response.of_family Response.FProse doc)) in
        V05.clean_response (Response.render doc) = prose
        /\ V05.directives prose = []
        /\ forall (E : Sys.env) (a : V05.agent) (w : V05.world),
             V05.show_prose E a w (Response.render doc)
             = if Py.is_empty prose then (None, a, w)
               else match Sys.console E (V05.screen w) (Sys.Panel prose) with
                    | Some e => (Some e, a, w)
                    | None => (None, a, V05.shown w (Sys.Panel prose))
                    end).
Proof.
  intros doc Hok calls.
  assert (Hd : V05.directives (Response.render doc) = calls)
    by (apply ParserFacts.directives_of_document; exact Hok).
  split; [exact Hd|]. split.
  { rewrite Hd. unfold calls. rewrite !length_app.
    rewrite !ParserFacts.asked_length by discriminate.
    rewrite <- ParserFacts.families_length. lia. }
  split.
  { intros E TEMPLATES SCRIPTS_DIR a w.
    rewrite ParserFacts.process_response_for_each, Hd. reflexivity. }
  split.
  { intros E TEMPLATES SCRIPTS_DIR a w command rest.
    apply ParserFacts.for_each_after_cd. }
  intros Hsl prose.
  assert (Hc : V05.clean_response (Response.render doc) = prose)
    by (apply ParserFacts.clean_response_of_document; assumption).
  split; [exact Hc|]. split.
  { apply ParserFacts.directives_free. apply ParserFacts.prose_free.
    exact Hok. }
  intros E a w. unfold V05.show_prose, V05.show. rewrite Hc.
  destruct (Py.is_empty prose); [reflexivity|].
  destruct (Sys.console E (V05.screen w) (Sys.Panel prose)); reflexivity.
Qed.

(** The amended C2 at [Response.sample_document] and at
    [Response.bracketed_document]. *)
Lemma directives_by_family_witness :
  Response.render Response.sample_document
  = "Going up. [EXEC] cd .. [/EXEC] Then the route: [QUICKCMD traceroute host1][EXEC]pwd[/EXEC]"
  /\ V05.directives (Response.render Response.sample_document)
     = [V05.Exec "cd .."; V05.Exec "pwd"; V05.QuickCmd "traceroute" ["host1"]]
  /\ List.length (V05.directives (Response.render Response.sample_document)) = 3
  /\ V05.clean_response (Response.render Response.sample_document)
     = "Going up.  Then the route:"
  /\ V05.directives "Going up.  Then the route:" = []
  /\ Response.render Response.bracketed_document
     = "Files [a to c]: [EXEC] ls [a-c]* [/EXEC] (see [1])"
  /\ V05.directives (Response.render Response.bracketed_document)
     = [V05.Exec "ls [a-c]*"]
  /\ V05.clean_response (Response.render Response.bracketed_document)
     = "Files [a to c]:  (see [1])".
Proof.
  destruct (directives_by_family Response.sample_document eq_refl)
    as (H1 & H2 & _ & _ & H5).
  destruct (H5 eq_refl) as (H6 & H7 & _).
  destruct (directives_by_family Response.bracketed_document eq_refl)
    as (B1 & _ & _ & _ & B5).
  destruct (B5 eq_refl) as (B6 & _ & _).
  split; [reflexivity|]. split; [exact H1|]. split; [exact H2|].
  split; [exact H6|]. split; [exact H7|].
  split; [reflexivity|]. split; [exact B1|exact B6].
Defined.

(** C2 (as stated) fails: in a response that holds a [QUICKCMD] tag and,
    after it, an [EXEC] tag with a [cd], the [cd] is called first and the
    quick command runs in the directory the [cd] led to. *)
Lemma directives_order_counterexample :
  let response := "[QUICKCMD traceroute host1][EXEC] cd .. [/EXEC]" in
  V05.directives response
  = [V05.Exec "cd .."; V05.QuickCmd "traceroute" ["host1"]]
  /\ (let '(r, a', w') :=
        V05.process_response Sample.env0 [] "/scripts" Sample.agent05
          Sample.world05 response in
      r = None
      /\ V05.trace w'
         = (Sys.Chdir "/a" :: Engine.probes V05.SYSTEM_INFO_COMMANDS
            ++ [Sys.Spawn "traceroute host1" "/a"])%list).
Proof.
  vm_compute. repeat split.
Qed.

(** ** Parsing the text shown again *)

(** C7 fails on the code.  An [EXEC] tag whose body holds line breaks is
    found by [re.finditer], which is given [re.DOTALL], and executed, but
    [re.sub], which is not given the flag, leaves it in the text shown:
    parsing that text again yields the directive again.  And removing a tag
    can join the two halves of another one. *)
Lemma reparsing_yields_directives :
  let nl := String "010" "" in
  let response := "[EXEC]" ++ nl ++ "ls" ++ nl ++ "[/EXEC]" in
  V05.directives response = [V05.Exec "ls"]
  /\ V05.clean_response response = response
  /\ V05.directives (V05.clean_response response) = [V05.Exec "ls"]
  /\ V05.clean_response "[EXEC[TEMPLATE a b]]ls[/EXEC]" = "[EXEC]ls[/EXEC]"
  /\ V05.directives (V05.clean_response "[EXEC[TEMPLATE a b]]ls[/EXEC]")
     = [V05.Exec "ls"].
Proof.
  vm_compute. repeat split.
Qed.

(* ================================================================== *)
(** * Further properties *)
(* ================================================================== *)

(** ** The configuration of the assistant *)

Module ConfigFacts.
Import Py Config Paths.

Section Values.
Variable A : Type.

(** One entry of the user's configuration put into [default]. *)
Lemma merge_cons (default : dict (value A)) (key : string) (v : value A)
  (rest : list (string * value A)) :
  _merge_configs default ((key, v) :: rest)
  = _merge_configs
      match v, dict_get default key with
      | Dict u, Some (Dict d) => dict_set default key (Dict (_merge_configs d u))
      | _, _ => dict_set default key v
      end rest.
Proof.
  unfold _merge_configs. cbn [merge_into].
  destruct v as [a|u]; [reflexivity|].
  destruct (dict_get default key) as [[a|d]|]; reflexivity.
Qed.

Lemma unique_keys_cons (k : string) (v : value A)
  (rest : list (string * value A)) :
  unique_keys (Dict ((k, v) :: rest))
  = negb (dict_has rest k) && unique_keys v && unique_keys (Dict rest).
Proof. reflexivity. Qed.

Lemma merge_cons_merged (default : dict (value A)) (key : string)
  (v : value A) (rest : list (string * value A)) :
  _merge_configs default ((key, v) :: rest)
  = _merge_configs (dict_set default key (merged v (dict_get default key))) rest.
Proof.
  rewrite merge_cons. unfold merged.
  destruct v as [a|u]; [reflexivity|].
  destruct (dict_get default key) as [[a|d]|]; reflexivity.
Qed.

(** The entry found under a key after a merge. *)
Lemma dict_get_merge (u : list (string * value A)) :
  unique_keys (Dict u) = true ->
  forall (default : dict (value A)) (k : string),
    dict_get (_merge_configs default u) k
    = match dict_get u k with
      | Some v => Some (merged v (dict_get default k))
      | None => dict_get default k
      end.
Proof.
  induction u as [|[key v] rest IH]; intros Hu default k; [reflexivity|].
  rewrite unique_keys_cons in Hu.
  apply andb_true_iff in Hu. destruct Hu as [Hu Hrest].
  apply andb_true_iff in Hu. destruct Hu as [Hnew Hv].
  rewrite merge_cons_merged, (IH Hrest). cbn [dict_get].
  destruct (String.eqb_spec k key) as [->|Hne].
  - unfold dict_has in Hnew. destruct (dict_get rest key); [discriminate|].
    apply DictFacts.dict_get_set_same.
  - rewrite (DictFacts.dict_get_set_other _ _ _ _ Hne). reflexivity.
Qed.

Lemma get_find (v : value A) (keys : list string) (default : value A) :
  get v keys default
  = match find v keys with
    | Some x => x
    | None => default
    end.
Proof.
  revert v. induction keys as [|key rest IH]; intros v; [reflexivity|].
  destruct v as [a|d]; [reflexivity|]. cbn [get find].
  destruct (dict_get d key); [apply IH|reflexivity].
Qed.

Lemma unique_keys_entry (u : list (string * value A)) (k : string)
  (v : value A) :
  unique_keys (Dict u) = true -> dict_get u k = Some v ->
  unique_keys v = true.
Proof.
  induction u as [|[key x] rest IH]; intros Hu Hk; [discriminate|].
  rewrite unique_keys_cons in Hu.
  apply andb_true_iff in Hu. destruct Hu as [Hu Hrest].
  apply andb_true_iff in Hu. destruct Hu as [_ Hx].
  cbn [dict_get] in Hk. destruct (String.eqb k key).
  - inversion Hk. subst x. exact Hx.
  - exact (IH Hrest Hk).
Qed.

(** Where the user's configuration holds something that is not a mapping,
    the merged configuration holds it too. *)
Lemma find_merge_leaf (keys : list string) :
  forall (u default : dict (value A)) (a : A),
    unique_keys (Dict u) = true ->
    find (Dict u) keys = Some (Leaf a) ->
    find (Dict (_merge_configs default u)) keys = Some (Leaf a).
Proof.
  induction keys as [|key rest IH]; intros u default a Hu Hf; [discriminate|].
  cbn [find] in *.
  rewrite (dict_get_merge u Hu).
  destruct (dict_get u key) as [v|] eqn:Hk; [|discriminate].
  pose proof (unique_keys_entry u key v Hu Hk) as Hv.
  unfold merged. destruct v as [b|uu]; [exact Hf|].
  destruct (dict_get default key) as [[b|dd]|]; try exact Hf.
  destruct rest as [|key' rest']; [discriminate|].
  apply IH; assumption.
Qed.

Lemma untouched_find (keys : list string) :
  forall v : value A, untouched v keys = true -> find v keys = None.
Proof.
  induction keys as [|key rest IH]; intros v Hv; [discriminate|].
  destruct v as [a|d]; [reflexivity|]. cbn [untouched find] in *.
  destruct (dict_get d key) as [x|]; [apply IH; exact Hv|reflexivity].
Qed.

(** A path that leaves the user's configuration leads where it led. *)
Lemma find_merge_untouched (keys : list string) :
  forall (u default : dict (value A)),
    unique_keys (Dict u) = true ->
    untouched (Dict u) keys = true ->
    find (Dict (_merge_configs default u)) keys = find (Dict default) keys.
Proof.
  induction keys as [|key rest IH]; intros u default Hu Ht; [discriminate|].
  cbn [find untouched] in *.
  rewrite (dict_get_merge u Hu).
  destruct (dict_get u key) as [v|] eqn:Hk; [|reflexivity].
  pose proof (unique_keys_entry u key v Hu Hk) as Hv.
  unfold merged. destruct v as [b|uu].
  - destruct rest; discriminate.
  - destruct (dict_get default key) as [[b|dd]|].
    + rewrite (untouched_find rest _ Ht). destruct rest; [discriminate|reflexivity].
    + apply IH; assumption.
    + apply (untouched_find rest _ Ht).
Qed.

Lemma dict_set_same (V : Type) (d : dict V) (k : string) (v : V) :
  dict_get d k = Some v -> dict_set d k v = d.
Proof.
  induction d as [|[k' v'] d IH]; cbn [dict_get dict_set]; [discriminate|].
  destruct (String.eqb_spec k k') as [->|Hne]; intros H.
  - inversion H. reflexivity.
  - rewrite (IH H). reflexivity.
Qed.

Lemma in_dict_has (V : Type) (d : dict V) (k : string) (v : V) :
  In (k, v) d -> dict_has d k = true.
Proof.
  unfold dict_has. induction d as [|[k' v'] d IH]; intros H; [contradiction|].
  cbn [dict_get]. destruct (String.eqb_spec k k'); [reflexivity|].
  destruct H as [H|H]; [inversion H; congruence|exact (IH H)].
Qed.

Lemma unique_keys_in (u : list (string * value A)) (k : string) (v : value A) :
  unique_keys (Dict u) = true -> In (k, v) u ->
  dict_get u k = Some v /\ unique_keys v = true.
Proof.
  induction u as [|[key x] rest IH]; intros Hu Hin; [contradiction|].
  rewrite unique_keys_cons in Hu.
  apply andb_true_iff in Hu. destruct Hu as [Hu Hrest].
  apply andb_true_iff in Hu. destruct Hu as [Hnew Hx].
  cbn [dict_get]. destruct Hin as [Hin|Hin].
  - inversion Hin. subst. rewrite String.eqb_refl. split; [reflexivity|exact Hx].
  - destruct (String.eqb_spec k key) as [->|Hne]; [|exact (IH Hrest Hin)].
    rewrite (in_dict_has _ _ _ _ Hin) in Hnew. discriminate.
Qed.

(** A configuration that already holds what the entries of [u] leave is
    not changed by them. *)
Lemma merge_stable (u : list (string * value A)) :
  forall m : dict (value A),
    (forall k v, In (k, v) u ->
       exists x, dict_get m k = Some x /\ merged v (Some x) = x) ->
    _merge_configs m u = m.
Proof.
  induction u as [|[key v] rest IH]; intros m H; [reflexivity|].
  rewrite merge_cons_merged.
  destruct (H key v (or_introl eq_refl)) as (x & Hx & Hm).
  rewrite Hx, Hm, (dict_set_same _ _ _ _ Hx).
  apply IH. intros k v' Hin. apply H. right. exact Hin.
Qed.

(** Merging a mapping into itself, or a second time, changes nothing. *)
Lemma merge_twice (v : value A) :
  unique_keys v = true ->
  match v with
  | Leaf _ => True
  | Dict u =>
      _merge_configs u u = u
      /\ forall d, _merge_configs (_merge_configs d u) u = _merge_configs d u
  end.
Proof.
  revert v.
  set (twice := fun v : value A =>
    unique_keys v = true ->
    match v with
    | Leaf _ => True
    | Dict u =>
        _merge_configs u u = u
        /\ forall d, _merge_configs (_merge_configs d u) u = _merge_configs d u
    end).
  apply (value_ind A twice (fun u => forall k x, In (k, x) u -> twice x));
    unfold twice.
  - intros a _. exact I.
  - intros u Hentries Hu.
    assert (Hself : _merge_configs u u = u).
    { apply merge_stable. intros k x Hin.
      destruct (unique_keys_in u k x Hu Hin) as [Hk Hx].
      exists x. split; [exact Hk|].
      destruct x as [a|xx]; [reflexivity|].
      cbn [merged]. destruct (Hentries k _ Hin Hx) as [H1 _].
      rewrite H1. reflexivity. }
    split; [exact Hself|].
    intros d. apply merge_stable. intros k x Hin.
    destruct (unique_keys_in u k x Hu Hin) as [Hk Hx].
    rewrite (dict_get_merge u Hu), Hk.
    eexists. split; [reflexivity|].
    destruct x as [a|xx]; [reflexivity|].
    destruct (Hentries k _ Hin Hx) as [H1 H2].
    cbn [merged]. destruct (dict_get d k) as [[a|dd]|].
    + rewrite H1. reflexivity.
    + rewrite H2. reflexivity.
    + rewrite H1. reflexivity.
  - intros k x [].
  - intros k v d Hv Hd k' x [Hin|Hin].
    + inversion Hin. subst. exact Hv.
    + exact (Hd k' x Hin).
Qed.

End Values.
End ConfigFacts.

(** X1.  After [_merge_configs], whatever the user's configuration holds
    at a path of keys that is not a mapping is what [get] returns for that
    path, whatever the defaults held there (a value, a whole section, or
    nothing). *)
Theorem user_settings_win :
  forall (A : Type) (default user : Py.dict (Config.value A))
         (keys : list string) (a : A) (fallback : Config.value A),
    Paths.unique_keys (Config.Dict user) = true ->
    Paths.find (Config.Dict user) keys = Some (Config.Leaf a) ->
    Config.get (Config.Dict (Config._merge_configs default user)) keys fallback
    = Config.Leaf a.
Proof.
  intros A default user keys a fallback Hu Hf.
  rewrite ConfigFacts.get_find.
  rewrite (ConfigFacts.find_merge_leaf A keys user default a Hu Hf).
  reflexivity.
Qed.

(** X1 on the sample configurations: the history size of the user's file. *)
Lemma user_settings_win_witness :
  Config.get
    (Config.Dict (Config._merge_configs Settings.defaults Settings.user))
    ["behavior"; "history_size"] (Config.Leaf 100%Z)
  = Config.Leaf 5%Z.
Proof.
  exact (user_settings_win Z Settings.defaults Settings.user
           ["behavior"; "history_size"] 5%Z (Config.Leaf 100%Z)
           eq_refl eq_refl).
Defined.

(** X2.  After [_merge_configs], [get] returns what it returned before for
    every path of keys that leaves the user's configuration, that is, one
    of whose keys the user's configuration does not have at its place: the
    defaults that the user does not mention are kept, also inside a section
    of which the user sets other values. *)
Theorem unmentioned_defaults_are_kept :
  forall (A : Type) (default user : Py.dict (Config.value A))
         (keys : list string) (fallback : Config.value A),
    Paths.unique_keys (Config.Dict user) = true ->
    Paths.untouched (Config.Dict user) keys = true ->
    Config.get (Config.Dict (Config._merge_configs default user)) keys fallback
    = Config.get (Config.Dict default) keys fallback.
Proof.
  intros A default user keys fallback Hu Ht.
  rewrite !ConfigFacts.get_find.
  rewrite (ConfigFacts.find_merge_untouched A keys user default Hu Ht).
  reflexivity.
Qed.

(** X2 on the sample configurations: a value of the section the user's
    file sets another value of. *)
Lemma unmentioned_defaults_are_kept_witness :
  Config.get
    (Config.Dict (Config._merge_configs Settings.defaults Settings.user))
    ["behavior"; "safety_checks"] (Config.Leaf 0%Z)
  = Config.Leaf 1%Z.
Proof.
  exact (unmentioned_defaults_are_kept Z Settings.defaults Settings.user
           ["behavior"; "safety_checks"] (Config.Leaf 0%Z) eq_refl eq_refl).
Defined.

(** X3.  Merging the same user's configuration a second time changes
    nothing: loading one file twice leaves the configuration as the first
    load made it. *)
Theorem merge_twice_is_merge_once :
  forall (A : Type) (default user : Py.dict (Config.value A)),
    Paths.unique_keys (Config.Dict user) = true ->
    Config._merge_configs (Config._merge_configs default user) user
    = Config._merge_configs default user.
Proof.
  intros A default user Hu.
  exact (proj2 (ConfigFacts.merge_twice A (Config.Dict user) Hu) default).
Qed.

(** X3 on the sample configurations. *)
Lemma merge_twice_is_merge_once_witness :
  Config._merge_configs
    (Config._merge_configs Settings.defaults Settings.user) Settings.user
  = Config._merge_configs Settings.defaults Settings.user.
Proof.
  exact (merge_twice_is_merge_once Z Settings.defaults Settings.user eq_refl).
Defined.

(** ** The safety check of the assistant *)

Module SafetyFacts.
Import Py Words.

(** A command that holds a listed command is not safe. *)
Lemma listed_command (word command : string) :
  In word Safety.DANGEROUS_COMMANDS -> contains word command = true ->
  existsb (fun dangerous => contains dangerous command)
    Safety.DANGEROUS_COMMANDS = true.
Proof.
  intros Hin Hc. apply existsb_exists. exists word. split; assumption.
Qed.

(** The verdict on one command: the test of the system paths comes after
    the redirections have already made the command unsafe. *)
Lemma is_safe_listed (command : string) :
  Safety.is_safe command = negb (listed command).
Proof.
  unfold Safety.is_safe, listed. rewrite existsb_app.
  destruct (existsb (fun dangerous => contains dangerous command)
              Safety.DANGEROUS_COMMANDS) eqn:H1; [reflexivity|].
  cbn [negb orb andb].
  destruct (existsb (fun option => contains option command)
              Safety.DANGEROUS_OPTIONS) eqn:H2; [reflexivity|].
  cbn [negb andb].
  destruct (contains ">" command) eqn:Hc.
  { rewrite (listed_command ">" command) in H1;
      [discriminate| |exact Hc].
    unfold Safety.DANGEROUS_COMMANDS. simpl. tauto. }
  destruct (contains ">>" command) eqn:Hd; [|reflexivity].
  rewrite (listed_command ">>" command) in H1;
    [discriminate| |exact Hd].
  unfold Safety.DANGEROUS_COMMANDS. simpl. tauto.
Qed.

(** The two lists returned, as selections from the commands. *)
Lemma check_command_safety_filter (commands : list string) :
  Safety.check_command_safety commands
  = (filter (fun command => negb (listed command)) commands,
     filter listed commands).
Proof.
  induction commands as [|command rest IH]; [reflexivity|].
  cbn [Safety.check_command_safety filter]. rewrite IH, is_safe_listed.
  destruct (listed command); reflexivity.
Qed.

End SafetyFacts.

(** X4.  [check_command_safety] sorts the commands, keeping their order,
    into those that contain none of the listed commands and options, and
    the others; every command is in exactly one of the two lists.  The
    system paths play no part in the verdict: a redirection is itself one
    of the listed commands. *)
Theorem safety_check_sorts_by_listed_words :
  forall commands : list string,
    let '(safe_commands, unsafe_commands) :=
      Safety.check_command_safety commands in
    safe_commands = filter (fun command => negb (Words.listed command)) commands
    /\ unsafe_commands = filter Words.listed commands
    /\ List.length safe_commands + List.length unsafe_commands
       = List.length commands.
Proof.
  intros commands. rewrite SafetyFacts.check_command_safety_filter.
  split; [reflexivity|]. split; [reflexivity|].
  induction commands as [|command rest IH]; [reflexivity|].
  cbn [filter]. destruct (Words.listed command); cbn [negb List.length]; lia.
Qed.

(** ** What the execution core of the v05 agent keeps *)

Module FrameFacts.
Import Py Sys Frame.

Lemma prefix_char (c : ascii) (s : string) :
  String.prefix (String c "") (String c s) = true.
Proof.
  cbn [String.prefix]. destruct (Ascii.ascii_dec c c); [|contradiction].
  destruct s; reflexivity.
Qed.

Lemma prefix_char_inv (c : ascii) (s : string) :
  String.prefix (String c "") s = true -> exists s', s = String c s'.
Proof.
  destruct s as [|d s]; [discriminate|]. cbn [String.prefix].
  destruct (Ascii.ascii_dec c d) as [->|]; [|discriminate].
  intros _. exists s. reflexivity.
Qed.

Lemma normpath_isabs (path : string) :
  PosixPath.isabs path = true -> PosixPath.isabs (PosixPath.normpath path) = true.
Proof.
  unfold PosixPath.isabs, startswith. intros H.
  destruct (prefix_char_inv _ _ H) as [path' ->].
  unfold PosixPath.normpath, startswith. cbn [is_empty]. rewrite H.
  destruct (String.prefix "//" (String "/" path')
            && negb (String.prefix "///" (String "/" path')));
    cbn [PosixPath.repeat_sep append is_empty]; apply prefix_char.
Qed.

Lemma join_isabs (a b : string) :
  PosixPath.isabs a = true -> PosixPath.isabs (PosixPath.join a b) = true.
Proof.
  unfold PosixPath.isabs, PosixPath.join, startswith. intros Ha.
  destruct (String.prefix "/" b) eqn:Hb; [exact Hb|].
  destruct (prefix_char_inv _ _ Ha) as [a' ->].
  destruct (is_empty (String "/" a') || PosixPath.endswith_char (String "/" a') "/");
    cbn [append]; apply prefix_char.
Qed.

Lemma abspath_isabs (cwd path : string) :
  PosixPath.isabs cwd = true ->
  PosixPath.isabs (PosixPath.abspath cwd path) = true.
Proof.
  intros H. unfold PosixPath.abspath. apply normpath_isabs.
  destruct (PosixPath.isabs path) eqn:Hp; [exact Hp|].
  apply join_isabs. exact H.
Qed.

Lemma kept_refl (a : V05.agent) (w : V05.world) : kept a w a w.
Proof.
  unfold kept, same_session.
  split; [auto|]. split; [repeat split|]. split; [|auto].
  exists []. rewrite app_nil_r. reflexivity.
Qed.

Lemma kept_trans (a1 a2 a3 : V05.agent) (w1 w2 w3 : V05.world) :
  kept a1 w1 a2 w2 -> kept a2 w2 a3 w3 -> kept a1 w1 a3 w3.
Proof.
  unfold kept, same_session.
  intros (H1 & (Ha1 & Hb1 & Hc1 & Hd1 & He1) & (evs1 & Ht1) & Hr1)
         (H2 & (Ha2 & Hb2 & Hc2 & Hd2 & He2) & (evs2 & Ht2) & Hr2).
  split; [auto|]. split; [repeat split; congruence|]. split; [|auto].
  exists (evs1 ++ evs2)%list. rewrite Ht2, Ht1, app_assoc. reflexivity.
Qed.

(** A call that leaves the tracked directory where it is. *)
Lemma kept_in_place (a a' : V05.agent) (w w' : V05.world) :
  V05.current_dir a' = V05.current_dir a ->
  same_session a a' ->
  (exists evs, V05.trace w' = (V05.trace w ++ evs)%list) ->
  (List.length (recorded a) <= 100 -> List.length (recorded a') <= 100) ->
  kept a w a' w'.
Proof.
  intros Hd Hs Ht Hr. unfold kept.
  split; [|auto]. unfold rooted. rewrite Hd. auto.
Qed.

(** A call that changes the world only: events, files, what is shown. *)
Lemma kept_world (a : V05.agent) (w w' : V05.world) :
  (exists evs, V05.trace w' = (V05.trace w ++ evs)%list) ->
  kept a w a w'.
Proof.
  intros Ht. apply kept_in_place; auto.
  unfold same_session. repeat split.
Qed.

(** The directory a [cd] names, before it is normalised, is absolute when
    the tracked directory is. *)
Lemma cd_target_normpath (a : V05.agent) (w : V05.world) (command : string) :
  rooted a ->
  let target_dir := strip (drop 3 (strip command)) in
  let new_dir :=
    if startswith target_dir "/" then target_dir
    else PosixPath.join (V05.current_dir a) target_dir in
  PosixPath.isabs new_dir = true
  /\ V05.cd_target a w command = PosixPath.normpath new_dir.
Proof.
  intros H target_dir new_dir.
  assert (Habs : PosixPath.isabs new_dir = true).
  { unfold new_dir. destruct (startswith target_dir "/") eqn:Ht; [exact Ht|].
    apply join_isabs. exact H. }
  split; [exact Habs|].
  unfold V05.cd_target, PosixPath.abspath. fold target_dir. fold new_dir.
  rewrite Habs. reflexivity.
Qed.

Lemma cd_target_isabs (a : V05.agent) (w : V05.world) (command : string) :
  rooted a -> PosixPath.isabs (V05.cd_target a w command) = true.
Proof.
  intros H. destruct (cd_target_normpath a w command H) as [Habs ->].
  apply normpath_isabs. exact Habs.
Qed.

(** So the directory a [cd] leads to does not depend on the directory of
    the process. *)
Lemma cd_target_tracked (a : V05.agent) (w w2 : V05.world) (command : string) :
  rooted a -> V05.cd_target a w command = V05.cd_target a w2 command.
Proof.
  intros H.
  destruct (cd_target_normpath a w command H) as [_ ->].
  destruct (cd_target_normpath a w2 command H) as [_ ->].
  reflexivity.
Qed.

Section Calls.
Variable E : env.
Variable TEMPLATES : dict string.
Variable SCRIPTS_DIR : string.

Lemma kept_collect_system_info (a : V05.agent) (w : V05.world) :
  let '(a', w') := V05.collect_system_info E a w in kept a w a' w'.
Proof.
  unfold V05.collect_system_info.
  pose proof (EngineFacts.collect_loop_spec E V05.SYSTEM_INFO_COMMANDS a w) as H.
  destruct (V05.collect_loop E V05.SYSTEM_INFO_COMMANDS a w) as [a' w'].
  destruct H as (Ht & Hc & Hs & Hd & Hg & Hf & Hh & Hm & Hsc).
  apply kept_in_place; auto.
  - unfold same_session. rewrite Hg. repeat split; assumption.
  - eexists. exact Ht.
  - unfold recorded. rewrite Hg. auto.
Qed.

Lemma last_n_length (A : Type) (n : nat) (l : list A) :
  1 <= n -> n < List.length l -> List.length (last_n n l) <= n.
Proof.
  intros Hn H. destruct n as [|n]; [lia|].
  cbn [last_n]. rewrite length_skipn. lia.
Qed.

Lemma kept_record_command (a : V05.agent) (w : V05.world) (command : string) :
  let '(a1, w1) := V05.record_command E a w command in kept a w a1 w1.
Proof.
  unfold V05.record_command.
  destruct (negb (mem command ["pwd"; "clear"])
            && negb (startswith command "ls")); [|apply kept_refl].
  apply kept_in_place.
  - reflexivity.
  - unfold same_session. repeat split.
  - exists []. rewrite app_nil_r. unfold V05.save_config.
    destruct (write_error (V05.fs w) _); reflexivity.
  - intros _. unfold recorded.
    cbn [V05.set_cfg V05.cfg V05.command_history].
    match goal with
    | |- context [if Nat.ltb 100 (List.length ?h) then _ else _] =>
        destruct (Nat.ltb_spec 100 (List.length h)) as [Hlt|Hle];
          [apply last_n_length; [lia|exact Hlt]|exact Hle]
    end.
Qed.

Lemma kept_run_process (a : V05.agent) (w : V05.world) (command : string) :
  let '(r, a', w') := V05.run_process E a w command in kept a w a' w'.
Proof.
  unfold V05.run_process.
  destruct (shell E (V05.fs w) command (V05.current_dir a)) as [p o].
  set (w2 := V05.set_fs (V05.emit w (Spawn command (V05.current_dir a))) o).
  assert (H2 : kept a w a w2).
  { apply kept_world. eexists. reflexivity. }
  destruct p as [returncode stdout stderr|msg]; [|exact H2].
  destruct (negb (Z.eqb returncode 0)); [exact H2|].
  destruct (existsb (fun cmd => contains cmd command) V05.refresh_words);
    [|exact H2].
  pose proof (kept_collect_system_info a w2) as H3.
  destruct (V05.collect_system_info E a w2) as [a3 w3].
  exact (kept_trans _ _ _ _ _ _ H2 H3).
Qed.

Lemma kept_change_directory (a : V05.agent) (w : V05.world)
  (command : string) :
  let '(r, a', w') := V05.change_directory E a w command in kept a w a' w'.
Proof.
  unfold V05.change_directory.
  destruct (isdir (V05.fs w) (V05.cd_target a w command)); [|apply kept_refl].
  destruct (chdir_error (V05.fs w) (V05.cd_target a w command));
    [apply kept_refl|].
  set (new_dir := V05.cd_target a w command).
  set (a1 := V05.set_current_dir a new_dir).
  set (w1 := V05.emit (V05.set_getcwd w (entered (V05.fs w) new_dir))
               (Chdir new_dir)).
  assert (H1 : kept a w a1 w1).
  { unfold kept. split; [|split; [|split]].
    - intros Habs. apply cd_target_isabs. exact Habs.
    - unfold same_session. repeat split.
    - eexists. reflexivity.
    - auto. }
  pose proof (kept_collect_system_info a1 w1) as H2.
  destruct (V05.collect_system_info E a1 w1) as [a2 w2].
  exact (kept_trans _ _ _ _ _ _ H1 H2).
Qed.

Lemma kept_show (a : V05.agent) (w : V05.world) (o : output) :
  kept a w a (snd (V05.show E w o)).
Proof.
  unfold V05.show. destruct (console E (V05.screen w) o);
    [apply kept_refl|].
  apply kept_world. exists []. rewrite app_nil_r. reflexivity.
Qed.

Lemma kept_ask (a : V05.agent) (w : V05.world) (q : question) :
  kept a w a (snd (V05.ask E w q)).
Proof.
  unfold V05.ask. destruct (operator E (V05.trace w) q) as [answer|e];
    [|apply kept_refl].
  apply kept_world. eexists. reflexivity.
Qed.

Lemma kept_confirm_dangerous (a : V05.agent) (w : V05.world)
  (command : string) :
  kept a w a (snd (V05.confirm_dangerous E w command)).
Proof.
  unfold V05.confirm_dangerous.
  pose proof (kept_show a w (Warning command)) as H1.
  destruct (V05.show E w (Warning command)) as [[e|] w1]; cbn [snd] in H1;
    [exact H1|].
  exact (kept_trans _ _ _ _ _ _ H1 (kept_ask a w1 (ConfirmDangerous command))).
Qed.

Lemma kept_reported (a a1 : V05.agent) (w w1 : V05.world) (r : res string)
  (report : string -> output) :
  kept a w a1 w1 ->
  let '(r', a', w') := V05.reported E (r, a1, w1) report in kept a w a' w'.
Proof.
  intros H. unfold V05.reported. destruct r as [result|e]; [|exact H].
  pose proof (kept_show a1 w1 (report result)) as H2.
  destruct (V05.show E w1 (report result)) as [[e|] w2]; cbn [snd] in H2;
    exact (kept_trans _ _ _ _ _ _ H H2).
Qed.

Lemma kept_execute_command (a : V05.agent) (w : V05.world) (command : string) :
  let '(r, a', w') := V05.execute_command E a w command in kept a w a' w'.
Proof.
  unfold V05.execute_command.
  set (c := V05.expand_alias (V05.aliases (V05.cfg a)) command).
  destruct (startswith (strip c) "cd ").
  - pose proof (kept_change_directory a w c) as H.
    destruct (V05.change_directory E a w c) as [[r a1] w1]. exact H.
  - pose proof (kept_record_command a w c) as H1.
    destruct (V05.record_command E a w c) as [a1 w1].
    destruct (V05.is_dangerous_command c) as [dangerous|e]; [|exact H1].
    destruct dangerous.
    + pose proof (kept_confirm_dangerous a1 w1 c) as H2.
      destruct (V05.confirm_dangerous E w1 c) as [[confirm|e] w2];
        cbn [snd] in H2; [|exact (kept_trans _ _ _ _ _ _ H1 H2)].
      destruct confirm.
      * pose proof (kept_run_process a1 w2 c) as H3.
        destruct (V05.run_process E a1 w2 c) as [[r a3] w3].
        exact (kept_trans _ _ _ _ _ _ H1 (kept_trans _ _ _ _ _ _ H2 H3)).
      * exact (kept_trans _ _ _ _ _ _ H1 H2).
    + pose proof (kept_run_process a1 w1 c) as H3.
      destruct (V05.run_process E a1 w1 c) as [[r a3] w3].
      exact (kept_trans _ _ _ _ _ _ H1 H3).
Qed.

Lemma kept_execute_quick_command (a : V05.agent) (w : V05.world)
  (cmd_name : string) (args : list string) :
  let '(r, a', w') := V05.execute_quick_command E a w cmd_name args in
  kept a w a' w'.
Proof.
  unfold V05.execute_quick_command.
  destruct (V05.resolve E a cmd_name args) as [cmd|message|e];
    [apply kept_execute_command|apply kept_refl|apply kept_refl].
Qed.

Lemma kept_save_script (a : V05.agent) (w : V05.world)
  (script_type filename content : string) :
  kept a w a (snd (V05.save_script SCRIPTS_DIR w script_type filename content)).
Proof.
  unfold V05.save_script.
  destruct (write_error (V05.fs w) _); [apply kept_refl|].
  destruct (mem (V05.lower script_type) V05.executable_kinds);
    apply kept_world; cbn [snd V05.emit V05.trace].
  - rewrite <- app_assoc. eexists. reflexivity.
  - eexists. reflexivity.
Qed.

Lemma kept_create_from_template (a : V05.agent) (w : V05.world)
  (template_type filename : string) :
  kept a w a
    (snd (V05.create_from_template TEMPLATES a w template_type filename)).
Proof.
  unfold V05.create_from_template.
  destruct (dict_get TEMPLATES (V05.lower template_type)); [|apply kept_refl].
  destruct (write_error (V05.fs w) _); [apply kept_refl|].
  apply kept_world. eexists. reflexivity.
Qed.

Lemma kept_execute_devops_tool (a : V05.agent) (w : V05.world)
  (tool_name : string) (args : list string) :
  kept a w a (snd (V05.execute_devops_tool E w tool_name args)).
Proof.
  unfold V05.execute_devops_tool.
  destruct (tool E (V05.fs w) tool_name args) as [r o].
  apply kept_world. eexists. reflexivity.
Qed.

Lemma kept_run_directive (a : V05.agent) (w : V05.world) (d : V05.directive) :
  let '(r, a', w') := V05.run_directive E TEMPLATES SCRIPTS_DIR a w d in
  kept a w a' w'.
Proof.
  destruct d as [command|script_type script_name script_content
                |template_type filename|cmd_name args|tool_name args];
    cbn [V05.run_directive].
  - pose proof (kept_execute_command a w command) as H.
    destruct (V05.execute_command E a w command) as [[r a1] w1].
    apply kept_reported. exact H.
  - pose proof (kept_save_script a w script_type script_name script_content)
      as H1.
    destruct (V05.save_script SCRIPTS_DIR w script_type script_name
                script_content) as [filepath w1].
    cbn [snd] in H1.
    pose proof (kept_show a w1
                  (ScriptReport script_type filepath script_content)) as H2.
    destruct (V05.show E w1 (ScriptReport script_type filepath script_content))
      as [[e|] w2]; cbn [snd] in H2;
      pose proof (kept_trans _ _ _ _ _ _ H1 H2) as H12; [exact H12|].
    destruct (mem (V05.lower script_type) V05.executable_kinds); [|exact H12].
    pose proof (kept_ask a w2 (RunScriptNow filepath)) as H3.
    destruct (V05.ask E w2 (RunScriptNow filepath)) as [[run|e] w3];
      cbn [snd] in H3;
      pose proof (kept_trans _ _ _ _ _ _ H12 H3) as H13; [|exact H13].
    destruct run; [|exact H13].
    match goal with
    | |- context [V05.execute_command E a w3 ?cmd] =>
        pose proof (kept_execute_command a w3 cmd) as H4;
        destruct (V05.execute_command E a w3 cmd) as [[r a4] w4]
    end.
    apply kept_reported. exact (kept_trans _ _ _ _ _ _ H13 H4).
  - pose proof (kept_create_from_template a w template_type filename) as H1.
    destruct (V05.create_from_template TEMPLATES a w template_type filename)
      as [r w1].
    apply kept_reported. exact H1.
  - pose proof (kept_execute_quick_command a w cmd_name args) as H.
    destruct (V05.execute_quick_command E a w cmd_name args) as [[r a1] w1].
    apply kept_reported. exact H.
  - pose proof (kept_execute_devops_tool a w tool_name args) as H1.
    destruct (V05.execute_devops_tool E w tool_name args) as [r w1].
    apply kept_reported. exact H1.
Qed.

Lemma kept_for_each (ds : list V05.directive) :
  forall (a : V05.agent) (w : V05.world),
    let '(r, a', w') := V05.for_each E TEMPLATES SCRIPTS_DIR ds a w in
    kept a w a' w'.
Proof.
  induction ds as [|d rest IH]; intros a w; [apply kept_refl|].
  cbn [V05.for_each].
  pose proof (kept_run_directive a w d) as H1.
  destruct (V05.run_directive E TEMPLATES SCRIPTS_DIR a w d) as [[r a1] w1].
  destruct r as [x|e]; [|exact H1].
  specialize (IH a1 w1).
  destruct (V05.for_each E TEMPLATES SCRIPTS_DIR rest a1 w1) as [[r2 a2] w2].
  exact (kept_trans _ _ _ _ _ _ H1 IH).
Qed.

Lemma kept_process_response (a : V05.agent) (w : V05.world)
  (response : string) :
  let '(r, a', w') := V05.process_response E TEMPLATES SCRIPTS_DIR a w response in
  kept a w a' w'.
Proof.
  unfold V05.process_response.
  pose proof (kept_for_each (V05.exec_directives response) a w) as H1.
  destruct (V05.for_each E TEMPLATES SCRIPTS_DIR
              (V05.exec_directives response) a w) as [[r1 a1] w1].
  destruct r1 as [e|]; [exact H1|].
  pose proof (kept_for_each (V05.script_directives response) a1 w1) as H2.
  destruct (V05.for_each E TEMPLATES SCRIPTS_DIR
              (V05.script_directives response) a1 w1) as [[r2 a2] w2].
  pose proof (kept_trans _ _ _ _ _ _ H1 H2) as H12.
  destruct r2 as [e|]; [exact H12|].
  pose proof (kept_for_each (V05.template_directives response) a2 w2) as H3.
  destruct (V05.for_each E TEMPLATES SCRIPTS_DIR
              (V05.template_directives response) a2 w2) as [[r3 a3] w3].
  pose proof (kept_trans _ _ _ _ _ _ H12 H3) as H13.
  destruct r3 as [e|]; [exact H13|].
  pose proof (kept_for_each (V05.quickcmd_directives response) a3 w3) as H4.
  destruct (V05.for_each E TEMPLATES SCRIPTS_DIR
              (V05.quickcmd_directives response) a3 w3) as [[r4 a4] w4].
  pose proof (kept_trans _ _ _ _ _ _ H13 H4) as H14.
  destruct r4 as [e|]; [exact H14|].
  pose proof (kept_for_each (V05.devops_directives response) a4 w4) as H5.
  destruct (V05.for_each E TEMPLATES SCRIPTS_DIR
              (V05.devops_directives response) a4 w4) as [[r5 a5] w5].
  pose proof (kept_trans _ _ _ _ _ _ H14 H5) as H15.
  destruct r5 as [e|]; [exact H15|].
  unfold V05.show_prose.
  destruct (is_empty (V05.clean_response response)); [exact H15|].
  pose proof (kept_show a5 w5 (Panel (V05.clean_response response))) as H6.
  destruct (V05.show E w5 (Panel (V05.clean_response response))) as [r6 w6].
  exact (kept_trans _ _ _ _ _ _ H15 H6).
Qed.

Lemma run_process_cfg (a : V05.agent) (w : V05.world) (command : string) :
  let '(r, a', w') := V05.run_process E a w command in
  V05.cfg a' = V05.cfg a.
Proof.
  unfold V05.run_process.
  destruct (shell E (V05.fs w) command (V05.current_dir a)) as [p o].
  destruct p as [returncode stdout stderr|msg]; [|reflexivity].
  destruct (negb (Z.eqb returncode 0)); [reflexivity|].
  destruct (existsb (fun cmd => contains cmd command) V05.refresh_words);
    [|reflexivity].
  unfold V05.collect_system_info.
  match goal with
  | |- context [V05.collect_loop E ?cmds ?a1 ?w1] =>
      pose proof (EngineFacts.collect_loop_spec E cmds a1 w1) as H;
      destruct (V05.collect_loop E cmds a1 w1) as [a3 w3]
  end.
  destruct H as (_ & _ & _ & _ & Hg & _). exact Hg.
Qed.

(** The commands recorded after a command that is not a [cd]. *)
Lemma execute_command_recorded (a : V05.agent) (w : V05.world)
  (command : string) :
  let c := V05.expand_alias (V05.aliases (V05.cfg a)) command in
  startswith (strip c) "cd " = false ->
  let '(r, a', w') := V05.execute_command E a w command in
  recorded a'
  = if negb (mem c ["pwd"; "clear"]) && negb (startswith c "ls")
    then History.most_recent 100
           (recorded a
            ++ [V05.HistoryEntry c (clock E (V05.trace w)) (V05.current_dir a)])
    else recorded a.
Proof.
  intros c Hcd. unfold V05.execute_command. fold c. rewrite Hcd.
  assert (H1 : recorded (fst (V05.record_command E a w c))
               = if negb (mem c ["pwd"; "clear"]) && negb (startswith c "ls")
                 then History.most_recent 100
                        (recorded a
                         ++ [V05.HistoryEntry c (clock E (V05.trace w))
                               (V05.current_dir a)])
                 else recorded a).
  { unfold V05.record_command.
    destruct (negb (mem c ["pwd"; "clear"]) && negb (startswith c "ls"));
      [|reflexivity].
    unfold recorded at 1.
    cbn [fst V05.set_cfg V05.cfg V05.command_history].
    fold (recorded a).
    match goal with
    | |- context [if Nat.ltb 100 (List.length ?h) then _ else _] =>
        destruct (Nat.ltb_spec 100 (List.length h)) as [Hlt|Hle]
    end.
    - apply HistoryFacts.last_n_most_recent. lia.
    - symmetry. apply HistoryFacts.most_recent_all. exact Hle. }
  destruct (V05.record_command E a w c) as [a1 w1]. cbn [fst] in H1.
  rewrite <- H1. unfold recorded.
  destruct (V05.is_dangerous_command c) as [dangerous|e]; [|reflexivity].
  destruct dangerous.
  - destruct (V05.confirm_dangerous E w1 c) as [[confirm|e] w2];
      [|reflexivity].
    destruct confirm; [|reflexivity].
    match goal with
    | |- context [V05.run_process E a1 ?w2 c] =>
        pose proof (run_process_cfg a1 w2 c) as H3;
        destruct (V05.run_process E a1 w2 c) as [[r a3] w3]
    end.
    rewrite H3. reflexivity.
  - pose proof (run_process_cfg a1 w1 c) as H3.
    destruct (V05.run_process E a1 w1 c) as [[r a3] w3].
    rewrite H3. reflexivity.
Qed.

End Calls.
End FrameFacts.

(** X5.  The directory the v05 agent tracks stays an absolute path:
    whatever a command, a quick command or a whole response of the model
    does, if it is one before the call it is one after it.  The directory
    a [cd] leads to is then computed from the tracked directory alone: the
    directory of the process, which the system may report under another
    name, plays no part in it. *)
Theorem tracked_directory_stays_absolute :
  forall (E : Sys.env) (TEMPLATES : Py.dict string) (SCRIPTS_DIR : string)
         (a : V05.agent) (w : V05.world),
    Frame.rooted a ->
    (forall command : string,
        let '(r, a', w') := V05.execute_command E a w command in
        Frame.rooted a')
    /\ (forall (cmd_name : string) (args : list string),
        let '(r, a', w') := V05.execute_quick_command E a w cmd_name args in
        Frame.rooted a')
    /\ (forall response : string,
        let '(r, a', w') :=
          V05.process_response E TEMPLATES SCRIPTS_DIR a w response in
        Frame.rooted a')
    /\ (forall (command : string) (w2 : V05.world),
        V05.cd_target a w command = V05.cd_target a w2 command
        /\ PosixPath.isabs (V05.cd_target a w command) = true).
Proof.
  intros E TEMPLATES SCRIPTS_DIR a w H. split; [|split; [|split]].
  - intros command.
    pose proof (FrameFacts.kept_execute_command E a w command) as K.
    destruct (V05.execute_command E a w command) as [[r a'] w'].
    exact (proj1 K H).
  - intros cmd_name args.
    pose proof (FrameFacts.kept_execute_quick_command E a w cmd_name args) as K.
    destruct (V05.execute_quick_command E a w cmd_name args) as [[r a'] w'].
    exact (proj1 K H).
  - intros response.
    pose proof (FrameFacts.kept_process_response E TEMPLATES SCRIPTS_DIR a w
                  response) as K.
    destruct (V05.process_response E TEMPLATES SCRIPTS_DIR a w response)
      as [[r a'] w'].
    exact (proj1 K H).
  - intros command w2. split.
    + apply FrameFacts.cd_target_tracked. exact H.
    + apply FrameFacts.cd_target_isabs. exact H.
Qed.

(** X5 on a response that goes up one directory and then runs a command,
    and on a [cd] when the process is somewhere else. *)
Lemma tracked_directory_stays_absolute_witness :
  (let '(r, a', w') :=
     V05.process_response Sample.env0 [] "/scripts" Sample.agent05
       Sample.world05 "[EXEC]cd ..[/EXEC] then [EXEC]pwd[/EXEC]" in
   Frame.rooted a')
  /\ V05.cd_target Sample.agent05 Sample.world05 "cd ../c"
     = V05.cd_target Sample.agent05
         (V05.set_getcwd Sample.world05 "/elsewhere") "cd ../c".
Proof.
  pose proof (tracked_directory_stays_absolute Sample.env0 [] "/scripts"
                Sample.agent05 Sample.world05 eq_refl) as (_ & _ & H3 & H4).
  split.
  - exact (H3 "[EXEC]cd ..[/EXEC] then [EXEC]pwd[/EXEC]").
  - exact (proj1 (H4 "cd ../c" (V05.set_getcwd Sample.world05 "/elsewhere"))).
Defined.

(** X6.  The configuration of the v05 agent remembers the last hundred
    commands: a command that is not a [cd] is added to
    [config['command_history']] before it is classified, so whether or not
    it is then confirmed or run, unless it is [pwd], [clear] or starts with
    [ls]; the list is cut to its hundred most recent entries, and no
    response of the model makes it longer than that. *)
Theorem command_history_keeps_last_hundred :
  forall (E : Sys.env) (TEMPLATES : Py.dict string) (SCRIPTS_DIR : string)
         (a : V05.agent) (w : V05.world),
    (forall command : string,
        let c := V05.expand_alias (V05.aliases (V05.cfg a)) command in
        Py.startswith (Py.strip c) "cd " = false ->
        let '(r, a', w') := V05.execute_command E a w command in
        Frame.recorded a'
        = if negb (Py.mem c ["pwd"; "clear"]) && negb (Py.startswith c "ls")
          then History.most_recent 100
                 (Frame.recorded a
                  ++ [V05.HistoryEntry c (Sys.clock E (V05.trace w))
                        (V05.current_dir a)])
          else Frame.recorded a)
    /\ (forall response : string,
        List.length (Frame.recorded a) <= 100 ->
        let '(r, a', w') :=
          V05.process_response E TEMPLATES SCRIPTS_DIR a w response in
        List.length (Frame.recorded a') <= 100).
Proof.
  intros E TEMPLATES SCRIPTS_DIR a w. split.
  - intros command. apply FrameFacts.execute_command_recorded.
  - intros response H.
    pose proof (FrameFacts.kept_process_response E TEMPLATES SCRIPTS_DIR a w
                  response) as K.
    destruct (V05.process_response E TEMPLATES SCRIPTS_DIR a w response)
      as [[r a'] w'].
    exact (proj2 (proj2 (proj2 K)) H).
Qed.

(** X6 on a declined [rm -rf /] and on a response that runs two
    commands. *)
Lemma command_history_keeps_last_hundred_witness :
  (let '(r, a', w') :=
     V05.execute_command Sample.env0 Sample.agent05 Sample.world05 "rm -rf /" in
   Frame.recorded a'
   = [V05.HistoryEntry "rm -rf /" "2024-01-01T00:00:00" "/a/b"])
  /\ (let '(r, a', w') :=
        V05.process_response Sample.env0 [] "/scripts" Sample.agent05
          Sample.world05 "[EXEC]uptime[/EXEC] [EXEC]whoami[/EXEC]" in
      List.length (Frame.recorded a') <= 100).
Proof.
  split.
  - exact (proj1 (command_history_keeps_last_hundred Sample.env0 []
                    "/scripts" Sample.agent05 Sample.world05)
             "rm -rf /" eq_refl).
  - exact (proj2 (command_history_keeps_last_hundred Sample.env0 []
                    "/scripts" Sample.agent05 Sample.world05)
             "[EXEC]uptime[/EXEC] [EXEC]whoami[/EXEC]" (Nat.le_0_l 100)).
Defined.

(** X7.  Nothing a response of the model asks for changes the session of
    the v05 agent: after [process_response] the conversation history, the
    system instructions, the place of the configuration file, the aliases
    and the quick commands of the operator are what they were; the same
    holds after a single command or quick command. *)
Theorem response_leaves_the_session :
  forall (E : Sys.env) (TEMPLATES : Py.dict string) (SCRIPTS_DIR : string)
         (a : V05.agent) (w : V05.world),
    (forall command : string,
        let '(r, a', w') := V05.execute_command E a w command in
        Frame.same_session a a')
    /\ (forall (cmd_name : string) (args : list string),
        let '(r, a', w') := V05.execute_quick_command E a w cmd_name args in
        Frame.same_session a a')
    /\ (forall response : string,
        let '(r, a', w') :=
          V05.process_response E TEMPLATES SCRIPTS_DIR a w response in
        Frame.same_session a a').
Proof.
  intros E TEMPLATES SCRIPTS_DIR a w. split; [|split].
  - intros command.
    pose proof (FrameFacts.kept_execute_command E a w command) as K.
    destruct (V05.execute_command E a w command) as [[r a'] w'].
    exact (proj1 (proj2 K)).
  - intros cmd_name args.
    pose proof (FrameFacts.kept_execute_quick_command E a w cmd_name args) as K.
    destruct (V05.execute_quick_command E a w cmd_name args) as [[r a'] w'].
    exact (proj1 (proj2 K)).
  - intros response.
    pose proof (FrameFacts.kept_process_response E TEMPLATES SCRIPTS_DIR a w
                  response) as K.
    destruct (V05.process_response E TEMPLATES SCRIPTS_DIR a w response)
      as [[r a'] w'].
    exact (proj1 (proj2 K)).
Qed.

(** ** The first word of a command *)

Module LexingFacts.
Import Py Shlex Lexing.

Lemma lex_word (w : string) :
  forall tok rest : string,
    Strings.all word_char w = true ->
    lex InWord tok (w ++ String " " rest)
    = bind (lex InSpace "" rest) (fun l => Ret ((tok ++ w) :: l)).
Proof.
  induction w as [|c w IH]; intros tok rest Hw.
  - cbn [append lex]. rewrite StringFacts.append_nil_r. reflexivity.
  - cbn [Strings.all] in Hw. apply andb_true_iff in Hw.
    destruct Hw as [Hc Hw]. unfold word_char in Hc.
    apply andb_true_iff in Hc. destruct Hc as [Hc He].
    apply andb_true_iff in Hc. destruct Hc as [Hs Hq].
    apply negb_true_iff in Hs, Hq, He.
    cbn [append lex]. rewrite Hs, Hq, He, (IH _ _ Hw).
    unfold snoc. rewrite StringFacts.append_assoc. reflexivity.
Qed.

(** A bare word and a space put before a command line are its first
    word. *)
Lemma split_prefixed (w rest : string) :
  bare_word w = true ->
  Shlex.split (w ++ String " " rest)
  = bind (Shlex.split rest) (fun l => Ret (w :: l)).
Proof.
  intros Hw. unfold bare_word in Hw. apply andb_true_iff in Hw.
  destruct Hw as [Hne Hw]. destruct w as [|c w]; [discriminate|].
  cbn [Strings.all] in Hw. apply andb_true_iff in Hw. destruct Hw as [Hc Hw].
  unfold word_char in Hc.
  apply andb_true_iff in Hc. destruct Hc as [Hc He].
  apply andb_true_iff in Hc. destruct Hc as [Hs Hq].
  apply negb_true_iff in Hs, Hq, He.
  unfold Shlex.split. cbn [append lex]. rewrite Hs, Hq, He.
  apply (lex_word w (String c "") rest Hw).
Qed.

End LexingFacts.

(** X8.  The classifiers of the agents look at the first word of a command
    only: a bare word that is not in the list of dangerous commands, put
    with a space before any command line that can be split into words,
    gives a command that is classified as not dangerous, as long as the
    whole contains neither [>] nor [|].  So [sudo rm -rf /] is run without
    the operator being asked. *)
Theorem first_word_decides :
  forall (w rest : string) (parts : list string),
    Lexing.bare_word w = true ->
    Shlex.split rest = Py.Ret parts ->
    Py.contains ">" (w ++ String " " rest) = false ->
    Py.contains "|" (w ++ String " " rest) = false ->
    (Py.mem w V05.DANGEROUS_COMMANDS = false ->
     V05.is_dangerous_command (w ++ String " " rest) = Py.Ret false)
    /\ (forall a : V04.agent,
          Py.mem w (V04.dangerous_commands (V04.cfg a)) = false ->
          w <> "rm" ->
          V04.is_dangerous_command a (w ++ String " " rest) = Py.Ret false).
Proof.
  intros w rest parts Hw Hs Hgt Hpipe.
  pose proof (LexingFacts.split_prefixed w rest Hw) as Hsplit.
  rewrite Hs in Hsplit. cbn [Py.bind] in Hsplit.
  split.
  - intros Hmem. unfold V05.is_dangerous_command.
    rewrite Hsplit. cbn [Py.bind]. rewrite Hmem, Hgt, Hpipe. cbn [orb andb].
    destruct (String.eqb_spec w "rm") as [->|Hne]; [discriminate|reflexivity].
  - intros a Hmem Hne. unfold V04.is_dangerous_command.
    destruct (w ++ String " " rest) as [|c s] eqn:Hcmd.
    { destruct w; discriminate. }
    cbn [Py.is_empty]. rewrite Hsplit. cbn [Py.bind].
    rewrite Hmem, Hgt, Hpipe. cbn [orb andb].
    destruct (String.eqb_spec w "rm") as [->|_]; [contradiction|reflexivity].
Qed.

(** X8 at [sudo rm -rf /]. *)
Lemma first_word_decides_witness :
  V05.is_dangerous_command "sudo rm -rf /" = Py.Ret false
  /\ V04.is_dangerous_command Sample.agent04 "sudo rm -rf /" = Py.Ret false.
Proof.
  destruct (first_word_decides "sudo" "rm -rf /" ["rm"; "-rf"; "/"]
              eq_refl eq_refl eq_refl eq_refl) as [H5 H4].
  split.
  - exact (H5 eq_refl).
  - apply (H4 Sample.agent04 eq_refl). discriminate.
Defined.

(** ** Conversations made of exchanges *)

Module ExchangesFacts.
Import Py Sys Exchanges.

(** Induction over the exchanges of a history. *)
Lemma exchanges_ind (P : list message -> Prop) :
  P [] ->
  (forall u a rest,
      role u = "user" -> role a = "assistant" -> exchanges rest = true ->
      P rest -> P (u :: a :: rest)) ->
  forall h, exchanges h = true -> P h.
Proof.
  intros Hnil Hcons.
  assert (H : forall n h, List.length h <= n -> exchanges h = true -> P h).
  { induction n as [|n IH]; intros h Hlen Hh.
    - destruct h; [exact Hnil|cbn in Hlen; lia].
    - destruct h as [|u [|a rest]]; [exact Hnil|discriminate|].
      cbn [exchanges] in Hh.
      apply andb_true_iff in Hh. destruct Hh as [Hh Hrest].
      apply andb_true_iff in Hh. destruct Hh as [Hu Ha].
      apply String.eqb_eq in Hu, Ha.
      apply Hcons; try assumption.
      apply IH; [cbn [List.length] in Hlen; lia|exact Hrest]. }
  intros h. apply (H (List.length h)). apply le_n.
Qed.

Lemma exchanges_app (h1 h2 : list message) :
  exchanges h1 = true -> exchanges h2 = true ->
  exchanges (h1 ++ h2) = true.
Proof.
  intros H1 H2. revert h1 H1. apply exchanges_ind; [exact H2|].
  intros u a rest Hu Ha _ IH. cbn [app exchanges].
  rewrite Hu, Ha, IH. reflexivity.
Qed.

(** Dropping whole exchanges from the front leaves exchanges. *)
Lemma exchanges_skipn (k : nat) :
  forall h, exchanges h = true -> exchanges (skipn (2 * k) h) = true.
Proof.
  induction k as [|k IH]; intros h Hh; [exact Hh|].
  replace (2 * S k) with (S (S (2 * k))) by lia.
  destruct h as [|u [|a rest]]; [reflexivity|discriminate|].
  cbn [skipn]. apply IH. cbn [exchanges] in Hh.
  apply andb_true_iff in Hh. exact (proj2 Hh).
Qed.

Lemma exchanges_length (h : list message) :
  exchanges h = true -> exists k, List.length h = 2 * k.
Proof.
  revert h. apply exchanges_ind; [exists 0; reflexivity|].
  intros u a rest _ _ _ [k Hk]. exists (S k). cbn [List.length]. lia.
Qed.

(** The cut of a history of exchanges to an even number of messages. *)
Lemma exchanges_last_n (n : nat) (h : list message) :
  exchanges h = true ->
  exchanges (if Nat.ltb (n * 2) (List.length h) then last_n (n * 2) h else h)
  = true.
Proof.
  intros Hh. destruct (Nat.ltb_spec (n * 2) (List.length h)) as [Hlt|_];
    [|exact Hh].
  unfold last_n. destruct (n * 2) as [|m] eqn:Hn; [exact Hh|].
  destruct (exchanges_length h Hh) as [k Hk].
  replace (List.length h - S m) with (2 * (k - n)) by lia.
  apply exchanges_skipn. exact Hh.
Qed.

(** The cut made after an exchange was added drops whole exchanges from
    the front, and never the one just added. *)
Lemma cut_keeps_exchange (n : nat) (h : list message) (u a : message) :
  exchanges h = true ->
  exists k,
    2 * k <= List.length h
    /\ (if Nat.ltb (n * 2) (List.length (h ++ [u; a])%list)
        then last_n (n * 2) (h ++ [u; a])%list else (h ++ [u; a])%list)
       = (skipn (2 * k) h ++ [u; a])%list.
Proof.
  intros Hh.
  destruct (Nat.ltb_spec (n * 2) (List.length (h ++ [u; a])%list))
    as [Hlt|_]; [|exists 0; split; [lia|reflexivity]].
  unfold last_n. destruct (n * 2) as [|m] eqn:Hn;
    [exists 0; split; [lia|reflexivity]|].
  destruct (exchanges_length h Hh) as [j Hj].
  rewrite length_app in *. cbn [List.length] in *.
  exists (j + 1 - n). split; [lia|].
  replace (List.length h + 2 - S m) with (2 * (j + 1 - n)) by lia.
  rewrite skipn_app.
  replace (2 * (j + 1 - n) - List.length h) with 0 by lia.
  reflexivity.
Qed.

End ExchangesFacts.

(** X9.  The conversation history of the agents stays a run of exchanges,
    a message of the user followed by the answer of the assistant.  A call
    of the model that succeeds returns the answer and adds one exchange,
    the message and the answer, at the end of the history; the cut to
    twice the bound then drops whole exchanges from the front, and never
    the one just added, so the history sent to the model never starts with
    an answer.  A call that fails returns a message and leaves the agent
    as it was.  This holds for [call_mistral_api] of the v05 agent, and
    for [call_mistral_api] and [call_mistral_api_streaming] of the v04
    agent, whose bound is the setting [max_history], a natural number. *)
Theorem history_stays_in_exchanges :
  (forall (a : V05.agent) (user_message : string) (reply : V05.api_reply),
      Exchanges.exchanges (V05.conversation_history a) = true ->
      let '(r, a') := V05.call_mistral_api a user_message reply in
      Exchanges.exchanges (V05.conversation_history a') = true
      /\ match reply with
         | V05.ApiOk assistant_message =>
             r = assistant_message
             /\ exists k,
                  2 * k <= List.length (V05.conversation_history a)
                  /\ a' = V05.set_conversation_history a
                            (skipn (2 * k) (V05.conversation_history a)
                             ++ [Sys.Message "user" user_message;
                                 Sys.Message "assistant" assistant_message])%list
         | _ => a' = a
         end)
  /\ (forall (a : V04.agent) (user_message : string) (reply : V05.api_reply)
             (streaming : bool),
        Exchanges.exchanges (V04.conversation_history a) = true ->
        let '(r, a') :=
          if streaming
          then V04.call_mistral_api_streaming a user_message reply
          else V04.call_mistral_api a user_message reply in
        Exchanges.exchanges (V04.conversation_history a') = true
        /\ match reply with
           | V05.ApiOk assistant_message =>
               r = assistant_message
               /\ exists k,
                    2 * k <= List.length (V04.conversation_history a)
                    /\ a' = V04.set_conversation_history a
                              (skipn (2 * k) (V04.conversation_history a)
                               ++ [Sys.Message "user" user_message;
                                   Sys.Message "assistant" assistant_message])%list
           | _ => a' = a
           end).
Proof.
  split.
  - intros a user_message reply Hh.
    destruct reply as [assistant_message|status_code text|msg];
      [|split; [exact Hh|reflexivity]|split; [exact Hh|reflexivity]].
    unfold V05.call_mistral_api.
    destruct (ExchangesFacts.cut_keeps_exchange V05.MAX_HISTORY_ENTRIES
                (V05.conversation_history a)
                (Sys.Message "user" user_message)
                (Sys.Message "assistant" assistant_message) Hh)
      as (k & Hk & Hcut).
    split.
    + cbn [V05.set_conversation_history V05.conversation_history].
      apply ExchangesFacts.exchanges_last_n.
      apply ExchangesFacts.exchanges_app; [exact Hh|reflexivity].
    + split; [reflexivity|]. exists k. split; [exact Hk|].
      cbv zeta. rewrite Hcut. reflexivity.
  - intros a user_message reply streaming Hh.
    assert (Hup : forall assistant_message,
               Exchanges.exchanges
                 (V04.conversation_history
                    (V04.update_history a user_message assistant_message))
               = true
               /\ exists k,
                    2 * k <= List.length (V04.conversation_history a)
                    /\ V04.update_history a user_message assistant_message
                       = V04.set_conversation_history a
                           (skipn (2 * k) (V04.conversation_history a)
                            ++ [Sys.Message "user" user_message;
                                Sys.Message "assistant" assistant_message])%list).
    { intros assistant_message. unfold V04.update_history.
      destruct (ExchangesFacts.cut_keeps_exchange (V04.max_history (V04.cfg a))
                  (V04.conversation_history a)
                  (Sys.Message "user" user_message)
                  (Sys.Message "assistant" assistant_message) Hh)
        as (k & Hk & Hcut).
      split.
      - cbn [V04.set_conversation_history V04.conversation_history].
        apply ExchangesFacts.exchanges_last_n.
        apply ExchangesFacts.exchanges_app; [exact Hh|reflexivity].
      - exists k. split; [exact Hk|]. cbv zeta. rewrite Hcut. reflexivity. }
    destruct streaming;
      destruct reply as [assistant_message|status_code text|msg];
      cbn [V04.call_mistral_api V04.call_mistral_api_streaming];
      try (split; [exact Hh|reflexivity]);
      (destruct (Hup assistant_message) as [He Hk];
       split; [exact He|]; split; [reflexivity|exact Hk]).
Qed.

(** X9 on a history of twenty exchanges in the v05 agent, which is cut
    when the next exchange is added, and on an empty history in the v04
    agent with an answer that was streamed. *)
Lemma history_stays_in_exchanges_witness :
  (let '(r, a') :=
     V05.call_mistral_api
       (V05.set_conversation_history Sample.agent05 Exchanges20.history)
       "question" (V05.ApiOk "answer") in
   Exchanges.exchanges (V05.conversation_history a') = true
   /\ r = "answer"
   /\ exists k,
        2 * k <= List.length Exchanges20.history
        /\ a' = V05.set_conversation_history
                  (V05.set_conversation_history Sample.agent05
                     Exchanges20.history)
                  (skipn (2 * k) Exchanges20.history
                   ++ [Sys.Message "user" "question";
                       Sys.Message "assistant" "answer"])%list)
  /\ (let '(r, a') :=
        V04.call_mistral_api_streaming Sample.agent04 "question"
          (V05.ApiOk "answer") in
      Exchanges.exchanges (V04.conversation_history a') = true
      /\ r = "answer"
      /\ exists k,
           2 * k <= List.length (V04.conversation_history Sample.agent04)
           /\ a' = V04.set_conversation_history Sample.agent04
                     (skipn (2 * k) (V04.conversation_history Sample.agent04)
                      ++ [Sys.Message "user" "question";
                          Sys.Message "assistant" "answer"])%list).
Proof.
  split.
  - exact (proj1 history_stays_in_exchanges
             (V05.set_conversation_history Sample.agent05 Exchanges20.history)
             "question" (V05.ApiOk "answer") eq_refl).
  - exact (proj2 history_stays_in_exchanges Sample.agent04 "question"
             (V05.ApiOk "answer") true eq_refl).
Defined.

(** ** The files of the agents *)

Module FilesFacts.
Import Py Sys.

(** The cut made when a history is loaded. *)
Lemma loaded_most_recent (n : nat) (h : list message) :
  1 <= n ->
  (if Nat.ltb n (List.length h) then last_n n h else h)
  = History.most_recent n h.
Proof.
  intros Hn. destruct (Nat.ltb_spec n (List.length h)) as [Hlt|Hle].
  - apply HistoryFacts.last_n_most_recent. exact Hn.
  - symmetry. apply HistoryFacts.most_recent_all. exact Hle.
Qed.

(** The entry found under a key after the defaults have been filled in. *)
Lemma dict_get_fill_defaults (V : Type) (defaults : dict V) :
  forall (config : dict V) (k : string),
    dict_get (V04Files.fill_defaults V defaults config) k
    = match dict_get config k with
      | Some v => Some v
      | None => dict_get defaults k
      end.
Proof.
  induction defaults as [|[key value] rest IH]; intros config k.
  - cbn [V04Files.fill_defaults dict_get]. destruct (dict_get config k); reflexivity.
  - cbn [V04Files.fill_defaults]. rewrite IH. unfold dict_has. cbn [dict_get].
    destruct (dict_get config key) as [v|] eqn:Hkey.
    + destruct (dict_get config k) as [x|] eqn:Hk; [reflexivity|].
      destruct (String.eqb_spec k key) as [->|_]; [congruence|reflexivity].
    + destruct (String.eqb_spec k key) as [->|Hne].
      * rewrite DictFacts.dict_get_set_same, Hkey. reflexivity.
      * rewrite (DictFacts.dict_get_set_other _ _ _ _ Hne). reflexivity.
Qed.

End FilesFacts.

(** X10.  A restart keeps the most recent messages only: the history that
    [save_history] wrote is loaded cut to its [MAX_HISTORY_ENTRIES] most
    recent messages (the bound of the configuration in the v04 agent),
    although the running agent lets it grow to twice that; a history within
    the bound is restored as it was, and in the v05 agent a run of
    exchanges is restored as a run of exchanges. *)
Theorem restart_keeps_recent_history :
  (forall (f : Sys.fs_state) (a a0 : V05.agent) (file : V05Files.history_file),
      Sys.write_error f (V05Files.HISTORY_FILE f) = None ->
      let restored :=
        V05.conversation_history
          (V05Files.load_history a0 (V05Files.save_history f a file)) in
      restored
      = History.most_recent V05.MAX_HISTORY_ENTRIES (V05.conversation_history a)
      /\ (List.length (V05.conversation_history a) <= V05.MAX_HISTORY_ENTRIES ->
          restored = V05.conversation_history a)
      /\ (Exchanges.exchanges (V05.conversation_history a) = true ->
          Exchanges.exchanges restored = true))
  /\ (forall (f : Sys.fs_state) (a a0 : V04.agent)
             (file : V04Files.history_file),
        Sys.write_error f (V04Files.HISTORY_FILE f) = None ->
        1 <= V04.max_history (V04.cfg a0) ->
        let restored :=
          V04.conversation_history
            (V04Files.load_history a0 (V04Files.save_history f a file)) in
        restored
        = History.most_recent (V04.max_history (V04.cfg a0))
            (V04.conversation_history a)
        /\ (List.length (V04.conversation_history a)
            <= V04.max_history (V04.cfg a0) ->
            restored = V04.conversation_history a)).
Proof.
  split.
  - intros f a a0 file Hw restored. subst restored.
    unfold V05Files.save_history. rewrite Hw.
    cbn [V05Files.load_history V05.set_conversation_history
         V05.conversation_history].
    split; [|split].
    + apply FilesFacts.loaded_most_recent. unfold V05.MAX_HISTORY_ENTRIES. lia.
    + intros Hlen.
      destruct (Nat.ltb_spec V05.MAX_HISTORY_ENTRIES
                  (List.length (V05.conversation_history a))); [lia|reflexivity].
    + intros Hx.
      exact (ExchangesFacts.exchanges_last_n 10 (V05.conversation_history a) Hx).
  - intros f a a0 file Hw Hn restored. subst restored.
    unfold V04Files.save_history. rewrite Hw.
    cbn [V04Files.load_history V04.set_conversation_history
         V04.conversation_history].
    split.
    + apply FilesFacts.loaded_most_recent. exact Hn.
    + intros Hlen.
      destruct (Nat.ltb_spec (V04.max_history (V04.cfg a0))
                  (List.length (V04.conversation_history a))); [lia|reflexivity].
Qed.

(** X10 on the forty messages of twenty exchanges: twenty are restored. *)
Lemma restart_keeps_recent_history_witness :
  List.length
    (V05.conversation_history
       (V05Files.load_history Sample.agent05
          (V05Files.save_history Sample.fs0
             (V05.set_conversation_history Sample.agent05 Exchanges20.history)
             V05Files.Missing))) = 20.
Proof.
  rewrite (proj1 (proj1 restart_keeps_recent_history Sample.fs0
                    (V05.set_conversation_history Sample.agent05
                       Exchanges20.history)
                    Sample.agent05 V05Files.Missing eq_refl)).
  reflexivity.
Defined.

(** X11.  [load_config] of the v04 agent completes the configuration read
    from the file with the defaults: a key of the file keeps the value of
    the file, a key that only [DEFAULT_CONFIG] has gets its default, and a
    file that was read is not written.  A missing or unreadable file is
    replaced by the defaults, which are returned. *)
Theorem loaded_configuration_has_defaults :
  forall (V : Type) (DEFAULT_CONFIG : Py.dict V) (f : Sys.fs_state),
    (forall (config : Py.dict V) (k : string),
        snd (V04Files.load_config V DEFAULT_CONFIG f (V04Files.GoodConfig config))
        = V04Files.GoodConfig config
        /\ Py.dict_get
             (fst (V04Files.load_config V DEFAULT_CONFIG f
                     (V04Files.GoodConfig config))) k
           = match Py.dict_get config k with
             | Some v => Some v
             | None => Py.dict_get DEFAULT_CONFIG k
             end)
    /\ V04Files.load_config V DEFAULT_CONFIG f V04Files.NoConfig
       = (DEFAULT_CONFIG,
          match Sys.write_error f (V04Files.CONFIG_FILE f) with
          | None => V04Files.GoodConfig DEFAULT_CONFIG
          | Some _ => V04Files.NoConfig
          end)
    /\ V04Files.load_config V DEFAULT_CONFIG f V04Files.BadConfig
       = (DEFAULT_CONFIG,
          match Sys.write_error f (V04Files.CONFIG_FILE f) with
          | None => V04Files.GoodConfig DEFAULT_CONFIG
          | Some _ => V04Files.BadConfig
          end).
Proof.
  intros V DEFAULT_CONFIG f. split; [|split; reflexivity].
  intros config k. split; [reflexivity|].
  apply FilesFacts.dict_get_fill_defaults.
Qed.

(** ** The commands of a response of the assistant *)

Module SpansFacts.
Import Py Re Strings StringFacts Scan ReFacts Spans.

(** The pattern matches a command between its backticks, and captures
    it. *)
Lemma pattern_hit (c rest : string) :
  all not_backtick c = true -> all not_newline c = true ->
  match_at CommandHandler.pattern (render_span (Code c) ++ rest)
  = Some (String.length (render_span (Code c)), [(1, c)]).
Proof.
  intros Hb Hn. unfold match_at, CommandHandler.pattern, render_span.
  cbn [append]. rewrite append_assoc. cbn [append].
  rewrite ParserFacts.rmatch_seq, ParserFacts.rmatch_lit,
    ParserFacts.rmatch_seq, ParserFacts.rmatch_group, ParserFacts.rmatch_lazy.
  apply (lazy_exact _ not_newline not_backtick); try assumption.
  - intros ch s Hch. cbn [rmatch]. unfold not_backtick in Hch.
    apply negb_true_iff in Hch. rewrite Hch. reflexivity.
  - rewrite ParserFacts.rmatch_lit.
    change (String CommandHandler.backtick rest)
      with (String CommandHandler.backtick "" ++ rest).
    rewrite take_append. f_equal. f_equal.
    cbn [String.length]. rewrite !length_append. cbn [String.length]. lia.
Qed.

(** It matches nowhere inside prose. *)
Lemma prose_misses (t rest : string) :
  all not_backtick t = true -> misses CommandHandler.pattern t rest.
Proof.
  induction t as [|ch t IH]; intros Ht; [apply misses_nil|].
  cbn [all] in Ht. apply andb_true_iff in Ht. destruct Ht as [Hch Ht].
  apply misses_cons; [|exact (IH Ht)].
  apply match_at_lit_miss. apply negb_true_iff. exact Hch.
Qed.

(** [finditer] reports the commands of a response, in order. *)
Lemma spans_finditer (doc : list span) :
  forallb span_ok doc = true ->
  forall pos,
    map (fun m => match group (m_groups m) 1 with
                  | Some x => x
                  | None => ""
                  end)
      (finditer_go CommandHandler.pattern (render doc) pos 0)
    = codes doc.
Proof.
  induction doc as [|s doc IH]; intros Hok pos; [reflexivity|].
  cbn [forallb] in Hok. apply andb_true_iff in Hok. destruct Hok as [Hs Hok].
  cbn [render]. destruct s as [t|c]; cbn [span_ok codes] in *.
  - cbn [render_span]. rewrite finditer_go_miss by (apply prose_misses; exact Hs).
    apply IH. exact Hok.
  - apply andb_true_iff in Hs. destruct Hs as [Hb Hn].
    rewrite (finditer_go_hit _ _ _ pos [(1, c)]);
      [|discriminate|apply pattern_hit; assumption].
    cbn [map m_groups group Nat.eqb]. f_equal. apply IH. exact Hok.
Qed.

Lemma spans_findall (doc : list span) :
  forallb span_ok doc = true ->
  findall CommandHandler.pattern (render doc) = codes doc.
Proof.
  intros Hok. apply (spans_finditer doc Hok 0).
Qed.

End SpansFacts.

(** X12.  [_extract_commands] finds the commands of a response written
    between backticks: for a response made of prose without backticks and
    of texts between backticks that hold no line break, it returns, in
    the order of the response, the texts between backticks that hold a
    space or a slash, and says whether there are any. *)
Theorem backtick_commands_are_extracted :
  forall doc : list Spans.span,
    forallb Spans.span_ok doc = true ->
    CommandHandler._extract_commands (Spans.render doc)
    = (negb (PosixPath.is_nil
               (filter Spans.likely_command (Spans.codes doc))),
       filter Spans.likely_command (Spans.codes doc)).
Proof.
  intros doc Hok. unfold CommandHandler._extract_commands.
  rewrite (SpansFacts.spans_findall doc Hok). reflexivity.
Qed.

(** X12 on a response with three texts between backticks. *)
Lemma backtick_commands_are_extracted_witness :
  CommandHandler._extract_commands
    "Clean up with `rm -rf /tmp/x` after `ls` and `df -h`."
  = (true, ["rm -rf /tmp/x"; "df -h"]).
Proof.
  exact (backtick_commands_are_extracted Spans.advice eq_refl).
Defined.

Module HandlerFacts.
Import Py Sys Spans.

(** The response as it is recorded, for a response made of prose and
    commands. *)
Lemma checked_render (SIGN : string) (doc : list span) :
  forallb span_ok doc = true ->
  CommandHandler.checked SIGN (render doc)
  = render doc
    ++ (if PosixPath.is_nil (flagged doc) then ""
        else CommandHandler.warning SIGN (flagged doc)).
Proof.
  intros Hok. unfold CommandHandler.checked, CommandHandler._extract_commands.
  rewrite (SpansFacts.spans_findall doc Hok).
  fold likely_command. unfold flagged.
  destruct (filter likely_command (codes doc)) as [|cmd cmds] eqn:Hc.
  - cbn [PosixPath.is_nil negb filter]. rewrite StringFacts.append_nil_r.
    reflexivity.
  - cbn [PosixPath.is_nil negb].
    rewrite SafetyFacts.check_command_safety_filter.
    destruct (filter Words.listed (cmd :: cmds)) as [|u us];
      cbn [PosixPath.is_nil negb]; [|reflexivity].
    rewrite StringFacts.append_nil_r. reflexivity.
Qed.

End HandlerFacts.

(** X13.  An input that is not a slash command is recorded as a message
    of the user before anything else, and then the terminal shows that the
    answer is on its way.  When the model client hands back a text made of
    prose and commands between backticks, the answer is shown with a
    warning that names, in their order, the commands that hold a listed
    word, and without any addition when there is none; it is recorded once
    it has been shown, so when the terminal raises on it the call raises
    and only the input has been recorded.  When what the model client
    hands back is not a text the call raises and only the input has been
    recorded: this is what happens with the [OllamaClient] of the
    repository, whose [generate] is a generator function.  The same holds
    when the terminal raises on the first message. *)
Theorem unsafe_commands_are_flagged :
  forall (SIGN : string) (ui : CommandHandler.terminal)
         (ollama : CommandHandler.client) (f : Sys.fs_state)
         (session_history : bool)
         (_handle_command :
            Session.manager -> Session.files -> string ->
            Py.res unit * Session.manager * Session.files)
         (m : Session.manager) (d : Session.files)
         (user_input now later : string),
    Py.startswith user_input "/" = false ->
    let recorded :=
      ContextManager.add_message (Session.history_size m) (Session.messages m)
        "user" user_input now in
    let m1 := fst (Session.add_message f session_history m d "user" user_input now) in
    let answer :=
      CommandHandler.generate ollama user_input
        (CommandHandler.get_system_prompt ollama (Session.get_context_data m1)) in
    let '(r, m', d') :=
      CommandHandler.process_input SIGN ui ollama f session_history
        _handle_command m d user_input now later in
    match CommandHandler.print_info ui CommandHandler.generating with
    | Some e => r = Py.Raise e /\ Session.messages m' = recorded
    | None =>
        (forall doc : list Spans.span,
            forallb Spans.span_ok doc = true ->
            answer = CommandHandler.Said (Spans.render doc) ->
            let shown :=
              Spans.render doc
              ++ (if PosixPath.is_nil (Spans.flagged doc) then ""
                  else CommandHandler.warning SIGN (Spans.flagged doc)) in
            match CommandHandler.display_assistant_response ui shown with
            | None =>
                r = Py.Ret tt
                /\ Session.messages m'
                   = ContextManager.add_message (Session.history_size m)
                       recorded "assistant" shown later
            | Some e => r = Py.Raise e /\ Session.messages m' = recorded
            end)
        /\ (answer = CommandHandler.NotText ->
            (exists e, r = Py.Raise e) /\ Session.messages m' = recorded)
        /\ (forall get_system_prompt : Py.dict Session.data -> string,
            ollama = CommandHandler.OllamaClient get_system_prompt ->
            (exists e, r = Py.Raise e) /\ Session.messages m' = recorded)
    end.
Proof.
  intros SIGN ui ollama f session_history hc m d user_input now later Hslash
         recorded m1 answer.
  unfold CommandHandler.process_input.
  assert (Hgen : forall p, ollama = CommandHandler.OllamaClient p ->
                           answer = CommandHandler.NotText).
  { intros p ->. reflexivity. }
  subst answer m1. cbn [Session.add_message fst]. rewrite Hslash.
  unfold CommandHandler._handle_conversation.
  destruct (CommandHandler.print_info ui CommandHandler.generating) as [e|];
    [split; reflexivity|].
  destruct (CommandHandler.generate ollama user_input _) as [response|].
  - cbv zeta.
    destruct (CommandHandler.display_assistant_response ui
                (CommandHandler.checked SIGN response)) as [e|] eqn:Hdisp;
      cbn [Session.add_message Session.messages Session.history_size];
      (split; [|split; [discriminate|intros p Hp; discriminate (Hgen p Hp)]]);
      intros doc Hok Heq; inversion Heq; subst response;
      rewrite (HandlerFacts.checked_render SIGN doc Hok) in Hdisp;
      rewrite ?(HandlerFacts.checked_render SIGN doc Hok);
      rewrite Hdisp; split; reflexivity.
  - split; [discriminate|].
    split; intros; (split; [eexists; reflexivity|reflexivity]).
Qed.

(** X13 with a client that gives the sample advice and a terminal that
    shows everything. *)
Lemma unsafe_commands_are_flagged_witness :
  let '(r, m', d') :=
    CommandHandler.process_input "!" Spans.terminal0 Spans.adviser Sample.fs0
      true (fun m d _ => (Py.Ret tt, m, d)) Spans.manager0 Spans.files0
      "how do I clean up?" "t1" "t2" in
  r = Py.Ret tt
  /\ Session.messages m'
     = [ContextManager.Message "user" "how do I clean up?" "t1";
        ContextManager.Message "assistant"
          (Spans.render Spans.advice
           ++ CommandHandler.warning "!" ["rm -rf /tmp/x"]) "t2"].
Proof.
  exact (proj1 (unsafe_commands_are_flagged "!" Spans.terminal0 Spans.adviser
                  Sample.fs0 true (fun m d _ => (Py.Ret tt, m, d))
                  Spans.manager0 Spans.files0 "how do I clean up?" "t1" "t2"
                  eq_refl)
           Spans.advice eq_refl eq_refl).
Defined.

(** ** A script that cannot be saved *)

Module ScriptFacts.
Import Py Sys.

(** A text that starts with a letter is no [cd] command. *)
Lemma strip_letter (c : ascii) (s : string) :
  isspace c = false -> exists s', strip (String c s) = String c s'.
Proof.
  intros Hc. unfold strip. cbn [lstrip]. rewrite Hc. cbn [rstrip].
  destruct (rstrip s) as [|d r].
  - rewrite Hc. eexists. reflexivity.
  - eexists. reflexivity.
Qed.

End ScriptFacts.

(** X14.  When the script of a [SCRIPT] tag cannot be written,
    [save_script] returns the message of the failure where the path of the
    script is expected, and [process_response] goes on with it: once the
    console has shown it, for a
    shell script the operator is asked whether to run it and, on a yes,
    the message itself is handed to [execute_command], which, unless an
    alias applies or it is classified as dangerous, starts it as a process
    in the tracked directory. *)
Theorem failed_save_is_run_as_a_command :
  forall (E : Sys.env) (TEMPLATES : Py.dict string) (SCRIPTS_DIR : string)
         (a : V05.agent) (w : V05.world)
         (script_type script_name script_content msg : string),
    let failure := "Erreur lors de la sauvegarde: " ++ msg in
    Sys.write_error (V05.fs w)
      (PosixPath.join SCRIPTS_DIR
         (V05.with_extension (V05.lower script_type) script_name))
    = Some msg ->
    Py.mem (V05.lower script_type) ["bash"; "shell"; "sh"] = true ->
    Sys.console E (V05.screen w)
      (Sys.ScriptReport script_type failure script_content) = None ->
    Sys.operator E (V05.trace w) (Sys.RunScriptNow failure) = Py.Ret true ->
    V05.expand_alias (V05.aliases (V05.cfg a)) failure = failure ->
    V05.is_dangerous_command failure = Py.Ret false ->
    let '(r, a', w') :=
      V05.run_directive E TEMPLATES SCRIPTS_DIR a w
        (V05.Script script_type script_name script_content) in
    exists evs,
      V05.trace w'
      = (V05.trace w
         ++ Sys.Asked (Sys.RunScriptNow failure) true
            :: Sys.Spawn failure (V05.current_dir a) :: evs)%list.
Proof.
  intros E TEMPLATES SCRIPTS_DIR a w script_type script_name script_content
         msg failure Hw Hkind Hshow Hyes Halias Hsafe.
  cbn [V05.run_directive]. unfold V05.save_script. rewrite Hw.
  fold failure. unfold V05.show. rewrite Hshow.
  assert (Hexec : Py.mem (V05.lower script_type) V05.executable_kinds = true).
  { unfold V05.executable_kinds, Py.mem in *. cbn [existsb] in *.
    destruct (String.eqb (V05.lower script_type) "bash"); [reflexivity|].
    destruct (String.eqb (V05.lower script_type) "shell"); [reflexivity|].
    destruct (String.eqb (V05.lower script_type) "python"); [reflexivity|].
    destruct (String.eqb (V05.lower script_type) "sh"); [reflexivity|].
    discriminate. }
  assert (Hpy : Py.mem (V05.lower script_type) ["python"; "py"] = false).
  { unfold Py.mem in *. cbn [existsb] in *.
    destruct (String.eqb_spec (V05.lower script_type) "python") as [e|_].
    - rewrite e in Hkind. discriminate.
    - destruct (String.eqb_spec (V05.lower script_type) "py") as [e|_];
        [rewrite e in Hkind; discriminate|reflexivity]. }
  rewrite Hexec. unfold V05.ask. cbn [V05.shown V05.trace].
  rewrite Hyes, Hpy.
  set (w2 := V05.emit (V05.shown w _)
               (Sys.Asked (Sys.RunScriptNow failure) true)).
  unfold V05.reported, V05.execute_command. rewrite Halias.
  destruct (ScriptFacts.strip_letter "E" ("rreur lors de la sauvegarde: " ++ msg)
              eq_refl) as [s' Hs].
  change (Py.strip failure) with
    (Py.strip (String "E" ("rreur lors de la sauvegarde: " ++ msg))).
  rewrite Hs. cbn [Py.startswith String.prefix].
  destruct (Ascii.ascii_dec "c" "E") as [e|_]; [discriminate|].
  pose proof (EngineFacts.record_command_spec E a w2 failure) as Hspec.
  destruct (V05.record_command E a w2 failure) as [a1 w1].
  destruct Hspec as (Ht & Hf & Hg & Hd & _).
  rewrite Hsafe.
  pose proof (GateFacts.run_process_spec E a1 w1 failure) as Hrun.
  destruct (V05.run_process E a1 w1 failure) as [[r a3] w3].
  destruct Hrun as (evs & Hevs & _).
  assert (Hgoal : V05.trace w3
                  = (V05.trace w
                     ++ Sys.Asked (Sys.RunScriptNow failure) true
                        :: Sys.Spawn failure (V05.current_dir a) :: evs)%list).
  { rewrite Hevs, Ht, Hd. subst w2.
    cbn [V05.emit V05.shown V05.trace]. rewrite <- app_assoc. reflexivity. }
  unfold V05.show.
  destruct (Sys.console E (V05.screen w3) (Sys.ScriptResult r));
    exists evs; exact Hgoal.
Qed.

(** X14 with a scripts directory that cannot be written to and an
    operator who agrees. *)
Lemma failed_save_is_run_as_a_command_witness :
  let '(r, a', w') :=
    V05.run_directive Sample.env_yes [] "/scripts" Sample.agent05
      Readonly.world (V05.Script "bash" "fix" "echo fixed") in
  exists evs,
    V05.trace w'
    = Sys.Asked
        (Sys.RunScriptNow "Erreur lors de la sauvegarde: Permission denied")
        true
      :: Sys.Spawn "Erreur lors de la sauvegarde: Permission denied" "/a/b"
      :: evs.
Proof.
  exact (failed_save_is_run_as_a_command Sample.env_yes [] "/scripts"
           Sample.agent05 Readonly.world "bash" "fix" "echo fixed"
           "Permission denied" eq_refl eq_refl eq_refl eq_refl eq_refl
           eq_refl).
Defined.

(** X15.  The aliases of the v05 agent rewrite the command word and
    nothing else: a command that names none of the aliases is left as it
    is, and otherwise the first alias it names, in the order of the
    configuration, is replaced where it stands, after the white space the
    command starts with; the arguments are not touched and the result is
    not expanded again. *)
Theorem alias_rewrites_the_command_word :
  forall (before after : Py.dict string) (alias cmd command : string),
    (forall a c, In (a, c) before -> Aliases.names command a = false) ->
    (V05.expand_alias before command = command)
    /\ (Aliases.names command alias = true ->
        exists lead rest,
          command = lead ++ alias ++ rest
          /\ Strings.all Py.isspace lead = true
          /\ V05.expand_alias (before ++ (alias, cmd) :: after)%list command
             = lead ++ cmd ++ rest).
Proof.
  intros before after alias cmd command Hbefore.
  assert (Hskip : forall al,
             V05.expand_alias (before ++ al)%list command
             = V05.expand_alias al command).
  { intros al. induction before as [|[a c] before IH]; [reflexivity|].
    cbn [app V05.expand_alias].
    pose proof (Hbefore a c (or_introl eq_refl)) as Hn.
    unfold Aliases.names in Hn. rewrite Hn.
    apply IH. intros a' c' Hin. apply (Hbefore a' c'). right. exact Hin. }
  split.
  - rewrite <- (app_nil_r before). rewrite Hskip. reflexivity.
  - intros Hn. rewrite Hskip. cbn [V05.expand_alias].
    pose proof Hn as Hn'. unfold Aliases.names in Hn'. rewrite Hn'.
    destruct (AliasFacts.names_split command alias cmd Hn)
      as (lead & rest & Hc & Hl & Hr).
    exists lead, rest. auto.
Qed.

(** X15 on two aliases and a command that names the second. *)
Lemma alias_rewrites_the_command_word_witness :
  exists lead rest,
    "  ll /tmp ll" = lead ++ "ll" ++ rest
    /\ Strings.all Py.isspace lead = true
    /\ V05.expand_alias [("la", "ls -la"); ("ll", "ls -l")] "  ll /tmp ll"
       = lead ++ "ls -l" ++ rest.
Proof.
  refine (proj2 (alias_rewrites_the_command_word [("la", "ls -la")] []
                   "ll" "ls -l" "  ll /tmp ll" _) eq_refl).
  intros a c [H|[]]. inversion H. reflexivity.
Defined.

Module WordFacts.
Import Py Strings StringFacts.

(** The first word [split] returns is the start of the text, when the
    text starts with no white space. *)
Lemma split_go_first (s : string) :
  forall (tok hd : string) (tl : list string),
    split_go s tok = hd :: tl ->
    tok <> "" \/ match s with
                 | EmptyString => False
                 | String c _ => isspace c = false
                 end ->
    exists w r, s = w ++ r /\ hd = tok ++ w.
Proof.
  induction s as [|c s IH]; intros tok hd tl Hs Hstart.
  - cbn [split_go] in Hs. destruct tok as [|t tok]; [discriminate|].
    cbn [is_empty] in Hs. inversion Hs. exists "", "".
    split; [reflexivity|]. rewrite append_nil_r. reflexivity.
  - cbn [split_go] in Hs. destruct (isspace c) eqn:Hc.
    + destruct Hstart as [Htok|Hstart]; [|congruence].
      destruct tok as [|t tok]; [contradiction|]. cbn [is_empty] in Hs.
      inversion Hs. exists "", (String c s).
      split; [reflexivity|]. rewrite append_nil_r. reflexivity.
    + destruct (IH (tok ++ String c "") hd tl Hs) as (w & r & Hw & Hhd).
      { left. destruct tok; discriminate. }
      exists (String c w), r. cbn [append]. split; [congruence|].
      rewrite Hhd, append_assoc. reflexivity.
Qed.

End WordFacts.

(** X16.  The aliases of the v04 agent rewrite the command word and
    nothing else: the first word of the command is looked up; when it is
    no alias the command is left as it is, and when it is one the word is
    replaced where it stands, after the white space the command starts
    with.  A blank command has no first word, and the lookup raises an
    [IndexError], which leaves [execute_command] before anything else has
    happened. *)
Theorem alias_rewrites_the_first_word :
  forall (a : V04.agent) (command : string),
    match Py.split (Py.strip command) with
    | [] =>
        V04.expand_alias a command
        = Py.Raise (Py.IndexError "list index out of range")
        /\ forall (E : Sys.env) (w : V04.world),
             V04.execute_command E a w command
             = (Py.Raise (Py.IndexError "list index out of range"), a, w)
    | name :: _ =>
        match Py.dict_get (V04.aliases a) name with
        | None => V04.expand_alias a command = Py.Ret command
        | Some value =>
            exists lead rest,
              command = lead ++ name ++ rest
              /\ Strings.all Py.isspace lead = true
              /\ V04.expand_alias a command = Py.Ret (lead ++ value ++ rest)
        end
    end.
Proof.
  intros a command. unfold V04.execute_command, V04.expand_alias.
  destruct (Py.split (Py.strip command)) as [|name tl] eqn:Hsplit;
    [split; reflexivity|].
  destruct (Py.dict_get (V04.aliases a) name) as [value|]; [|reflexivity].
  destruct (AliasFacts.rstrip_split (Py.lstrip command)) as [trail Htrail].
  destruct (AliasFacts.lstrip_split command) as (lead & Hc & Hl).
  pose proof (AliasFacts.lstrip_starts command) as Hstart.
  fold (Py.strip command) in Htrail.
  destruct (Py.strip command) as [|c s] eqn:Hstrip; [discriminate|].
  rewrite Htrail in Hstart. cbn [append] in Hstart.
  unfold Py.split in Hsplit. cbn [Py.split_go] in Hsplit.
  rewrite Hstart in Hsplit.
  destruct (WordFacts.split_go_first s (String c "") name tl Hsplit)
    as (w & r & Hw & Hname).
  { left. discriminate. }
  cbn [append] in Hname.
  exists lead, (r ++ trail).
  assert (Hcommand : command = lead ++ name ++ r ++ trail).
  { rewrite Hc at 1. rewrite Htrail, Hw, Hname. cbn [append].
    rewrite StringFacts.append_assoc. reflexivity. }
  split; [exact Hcommand|]. split; [exact Hl|].
  rewrite Hcommand at 1. f_equal.
  apply AliasFacts.replace_first_lead; [exact Hl|].
  rewrite Hname. exact Hstart.
Qed.

(** ** The response of the model in the v04 agent *)

Module Frame04Facts.
Import Py Sys Frame04.

Lemma kept04_refl (a : V04.agent) (w : V04.world) : kept a w a w.
Proof.
  unfold kept, same_session.
  split; [repeat split|].
  exists []. rewrite app_nil_r. reflexivity.
Qed.

Lemma kept04_trans (a1 a2 a3 : V04.agent) (w1 w2 w3 : V04.world) :
  kept a1 w1 a2 w2 -> kept a2 w2 a3 w3 -> kept a1 w1 a3 w3.
Proof.
  unfold kept, same_session.
  intros ((Ha1 & Hb1 & Hc1 & Hd1) & (evs1 & Ht1))
         ((Ha2 & Hb2 & Hc2 & Hd2) & (evs2 & Ht2)).
  split; [repeat split; congruence|].
  exists (evs1 ++ evs2)%list. rewrite Ht2, Ht1, app_assoc. reflexivity.
Qed.

(** A call that changes the world only: events, files, what is shown. *)
Lemma kept04_world (a : V04.agent) (w w' : V04.world) :
  (exists evs, V04.trace w' = (V04.trace w ++ evs)%list) ->
  kept a w a w'.
Proof.
  intros Ht. unfold kept, same_session.
  split; [repeat split|assumption].
Qed.

Section Calls.
Variable E : env.
Variable scripts_dir : string.
Variable auto_execute_scripts : bool.
Variable use_streaming : bool.

Lemma kept04_show (a : V04.agent) (w : V04.world) (o : output) :
  kept a w a (snd (V04.show E w o)).
Proof.
  unfold V04.show. destruct (console E (V04.screen w) o);
    [apply kept04_refl|].
  apply kept04_world. exists []. rewrite app_nil_r. reflexivity.
Qed.

Lemma kept04_ask (a : V04.agent) (w : V04.world) (q : question) :
  kept a w a (snd (V04.ask E w q)).
Proof.
  unfold V04.ask. destruct (operator E (V04.trace w) q) as [answer|e];
    [|apply kept04_refl].
  apply kept04_world. eexists. reflexivity.
Qed.

Lemma kept04_reported (a a1 : V04.agent) (w w1 : V04.world) (r : res string)
  (report : string -> output) :
  kept a w a1 w1 ->
  let '(r', a', w') := V04Response.reported E (r, a1, w1) report in
  kept a w a' w'.
Proof.
  intros H. unfold V04Response.reported. destruct r as [result|e]; [|exact H].
  pose proof (kept04_show a1 w1 (report result)) as H2.
  destruct (V04.show E w1 (report result)) as [[e|] w2]; cbn [snd] in H2;
    exact (kept04_trans _ _ _ _ _ _ H H2).
Qed.

Lemma kept04_run_process (a : V04.agent) (w : V04.world) (command : string) :
  let '(r, a', w') := V04.run_process E a w command in kept a w a' w'.
Proof.
  unfold V04.run_process.
  destruct (shell E (V04.fs w) command (V04.current_dir a)) as [p o].
  assert (H : kept a w a
                (V04.set_fs (V04.emit w (Spawn command (V04.current_dir a))) o)).
  { apply kept04_world. eexists. reflexivity. }
  destruct p as [returncode stdout stderr|msg]; [|exact H].
  destruct (negb (Z.eqb returncode 0)); exact H.
Qed.

Lemma kept04_execute_command (a : V04.agent) (w : V04.world)
  (command : string) :
  let '(r, a', w') := V04.execute_command E a w command in kept a w a' w'.
Proof.
  unfold V04.execute_command.
  destruct (V04.expand_alias a command) as [c|e]; [|apply kept04_refl].
  destruct (startswith (strip c) "cd ").
  - unfold V04.change_directory.
    destruct (isdir (V04.fs w) (V04.cd_target a w c)); [|apply kept04_refl].
    destruct (chdir_error (V04.fs w) (V04.cd_target a w c));
      [apply kept04_refl|].
    unfold kept. split.
    + unfold same_session. repeat split.
    + eexists. reflexivity.
  - destruct (V04.is_dangerous_command a c) as [dangerous|e];
      [|apply kept04_refl].
    destruct dangerous.
    + pose proof (kept04_ask a w (ConfirmDangerous c)) as H1.
      destruct (V04.ask E w (ConfirmDangerous c)) as [[confirm|e] w1];
        cbn [snd] in H1; [|exact H1].
      destruct confirm; [|exact H1].
      pose proof (kept04_run_process a w1 c) as H2.
      destruct (V04.run_process E a w1 c) as [[r a2] w2].
      exact (kept04_trans _ _ _ _ _ _ H1 H2).
    + pose proof (kept04_run_process a w c) as H2.
      destruct (V04.run_process E a w c) as [[r a2] w2]. exact H2.
Qed.

Lemma kept04_save_script (a : V04.agent) (w : V04.world)
  (script_type filename content : string) :
  kept a w a
    (snd (V04Response.save_script scripts_dir w script_type filename content)).
Proof.
  unfold V04Response.save_script.
  destruct (write_error (V04.fs w) _); [apply kept04_refl|].
  destruct (mem (V05.lower script_type) V04Response.executable_kinds);
    apply kept04_world; cbn [snd V04.emit V04.trace].
  - rewrite <- app_assoc. eexists. reflexivity.
  - eexists. reflexivity.
Qed.

Lemma kept04_run_directive (a : V04.agent) (w : V04.world)
  (d : V05.directive) :
  let '(r, a', w') :=
    V04Response.run_directive E scripts_dir auto_execute_scripts a w d in
  kept a w a' w'.
Proof.
  destruct d as [command|script_type script_name script_content
                |template_type filename|cmd_name args|tool_name args];
    cbn [V04Response.run_directive]; try apply kept04_refl.
  - pose proof (kept04_execute_command a w command) as H.
    destruct (V04.execute_command E a w command) as [[r a1] w1].
    apply kept04_reported. exact H.
  - pose proof (kept04_save_script a w script_type script_name script_content)
      as H1.
    destruct (V04Response.save_script scripts_dir w script_type script_name
                script_content) as [filepath w1].
    cbn [snd] in H1.
    pose proof (kept04_show a w1
                  (ScriptReport script_type filepath script_content)) as H2.
    destruct (V04.show E w1 (ScriptReport script_type filepath script_content))
      as [[e|] w2]; cbn [snd] in H2;
      pose proof (kept04_trans _ _ _ _ _ _ H1 H2) as H12; [exact H12|].
    destruct (mem (V05.lower script_type) V04Response.executable_kinds
              && auto_execute_scripts); [|exact H12].
    pose proof (kept04_ask a w2 (RunScriptNow filepath)) as H3.
    destruct (V04.ask E w2 (RunScriptNow filepath)) as [[run|e] w3];
      cbn [snd] in H3;
      pose proof (kept04_trans _ _ _ _ _ _ H12 H3) as H13; [|exact H13].
    destruct run; [|exact H13].
    match goal with
    | |- context [V04.execute_command E a w3 ?cmd] =>
        pose proof (kept04_execute_command a w3 cmd) as H4;
        destruct (V04.execute_command E a w3 cmd) as [[r a4] w4]
    end.
    apply kept04_reported. exact (kept04_trans _ _ _ _ _ _ H13 H4).
Qed.

Lemma kept04_for_each (ds : list V05.directive) :
  forall (a : V04.agent) (w : V04.world),
    let '(r, a', w') :=
      V04Response.for_each E scripts_dir auto_execute_scripts ds a w in
    kept a w a' w'.
Proof.
  induction ds as [|d rest IH]; intros a w; [apply kept04_refl|].
  cbn [V04Response.for_each].
  pose proof (kept04_run_directive a w d) as H1.
  destruct (V04Response.run_directive E scripts_dir auto_execute_scripts a w d)
    as [[r a1] w1].
  destruct r as [x|e]; [|exact H1].
  specialize (IH a1 w1).
  destruct (V04Response.for_each E scripts_dir auto_execute_scripts rest a1 w1)
    as [[r2 a2] w2].
  exact (kept04_trans _ _ _ _ _ _ H1 IH).
Qed.

Lemma kept04_process_response (a : V04.agent) (w : V04.world)
  (response : string) :
  let '(r, a', w') :=
    V04Response.process_response E scripts_dir auto_execute_scripts
      use_streaming a w response in
  kept a w a' w'.
Proof.
  unfold V04Response.process_response.
  destruct (is_empty response); [apply kept04_refl|].
  pose proof (kept04_for_each (V05.exec_directives response) a w) as H1.
  destruct (V04Response.for_each E scripts_dir auto_execute_scripts
              (V05.exec_directives response) a w) as [[r1 a1] w1].
  destruct r1 as [e|]; [exact H1|].
  pose proof (kept04_for_each (V05.script_directives response) a1 w1) as H2.
  destruct (V04Response.for_each E scripts_dir auto_execute_scripts
              (V05.script_directives response) a1 w1) as [[r2 a2] w2].
  pose proof (kept04_trans _ _ _ _ _ _ H1 H2) as H12.
  destruct r2 as [e|]; [exact H12|].
  destruct use_streaming; [exact H12|].
  destruct (is_empty (V04Response.clean_response response)); [exact H12|].
  pose proof (kept04_show a2 w2 (Panel (V04Response.clean_response response)))
    as H3.
  destruct (V04.show E w2 (Panel (V04Response.clean_response response)))
    as [r3 w3].
  exact (kept04_trans _ _ _ _ _ _ H12 H3).
Qed.

End Calls.



End Frame04Facts.

(** X17.  In the v04 agent a command or a response of the model changes
    nothing of the agent but the tracked directory: the configuration,
    the aliases, the conversation history and the system instructions are
    what they were, whatever the console, the operator and the shell do;
    and the events recorded so far stay as they are, new ones come after
    them. *)
Theorem v04_calls_keep_the_agent :
  forall (E : Sys.env) (scripts_dir : string)
         (auto_execute_scripts use_streaming : bool)
         (a : V04.agent) (w : V04.world),
    (forall command : string,
        let '(r, a', w') := V04.execute_command E a w command in
        Frame04.same_session a a'
        /\ exists evs, V04.trace w' = (V04.trace w ++ evs)%list)
    /\ (forall response : string,
        let '(r, a', w') :=
          V04Response.process_response E scripts_dir auto_execute_scripts
            use_streaming a w response in
        Frame04.same_session a a'
        /\ exists evs, V04.trace w' = (V04.trace w ++ evs)%list).
Proof.
  intros E scripts_dir auto_execute_scripts use_streaming a w. split.
  - intros command.
    pose proof (Frame04Facts.kept04_execute_command E a w command) as K.
    destruct (V04.execute_command E a w command) as [[r a'] w'].
    exact K.
  - intros response.
    pose proof (Frame04Facts.kept04_process_response E scripts_dir
                  auto_execute_scripts use_streaming a w response) as K.
    destruct (V04Response.process_response E scripts_dir auto_execute_scripts
                use_streaming a w response) as [[r a'] w'].
    exact K.
Qed.

(** X17 on a response that goes up one directory. *)
Lemma v04_calls_keep_the_agent_witness :
  let '(r, a', w') :=
    V04Response.process_response Sample.env0 "/scripts" false true
      Sample.agent04 Sample.world04 "[EXEC]cd ..[/EXEC]" in
  Frame04.same_session Sample.agent04 a'
  /\ exists evs, V04.trace w' = (V04.trace Sample.world04 ++ evs)%list.
Proof.
  exact (proj2 (v04_calls_keep_the_agent Sample.env0 "/scripts" false
                  true Sample.agent04 Sample.world04)
           "[EXEC]cd ..[/EXEC]").
Defined.


(** ** Commands written without quotes *)

Module PlainFacts.
Import Py Shlex Classifier.


End PlainFacts.



(** ** Rewriting a command *)

Module SanitizerFacts.
Import Py Re Strings StringFacts Scan ReFacts Sanitizer.

Lemma sub_with_go_skip (r : regex) (repl : groups -> string)
  (x rest : string) :
  sub_with_go r repl (x ++ rest) (String.length x) = sub_with_go r repl rest 0.
Proof.
  induction x as [|c x IH]; simpl; [destruct rest; reflexivity|exact IH].
Qed.

Lemma sub_with_go_miss (r : regex) (repl : groups -> string)
  (x rest : string) :
  misses r x rest ->
  sub_with_go r repl (x ++ rest) 0 = x ++ sub_with_go r repl rest 0.
Proof.
  induction x as [|c x IH]; intros Hm; [reflexivity|].
  cbn [append sub_with_go]. rewrite (Hm "" c x eq_refl).
  rewrite IH by (apply (misses_tail r c); exact Hm). reflexivity.
Qed.

Lemma sub_with_go_hit (r : regex) (repl : groups -> string)
  (x rest : string) (g : groups) :
  x <> "" ->
  match_at r (x ++ rest) = Some (String.length x, g) ->
  sub_with_go r repl (x ++ rest) 0 = repl g ++ sub_with_go r repl rest 0.
Proof.
  intros Hne Hm. destruct x as [|c x]; [contradiction|].
  cbn [append sub_with_go]. cbn [append] in Hm. rewrite Hm.
  cbn [String.length]. rewrite sub_with_go_skip. reflexivity.
Qed.

(** A text in which the pattern is found nowhere is left as it is. *)
Lemma sub_with_none (r : regex) (repl : groups -> string) (x : string) :
  misses r x "" -> sub_with r repl x = x.
Proof.
  intros Hm. unfold sub_with.
  rewrite <- (append_nil_r x) at 1.
  rewrite (sub_with_go_miss r repl x "" Hm). apply append_nil_r.
Qed.

(** A text found in a suffix is found in the whole. *)
Lemma contains_suffix (t x s : string) :
  contains t s = true -> contains t (x ++ s) = true.
Proof.
  intros H. induction x as [|c x IH]; [exact H|].
  cbn [append contains]. rewrite IH. apply orb_true_r.
Qed.

Lemma contains_prefix (t s : string) :
  String.prefix t s = true -> contains t s = true.
Proof.
  intros H. destruct s; cbn [contains]; rewrite H; reflexivity.
Qed.

Lemma contains_drop (t : string) (n : nat) (s : string) :
  contains t (drop n s) = true -> contains t s = true.
Proof.
  revert s. induction n as [|n IH]; intros s H.
  - destruct s; exact H.
  - destruct s as [|c s]; [exact H|].
    cbn [drop] in H. cbn [contains]. rewrite (IH s H). apply orb_true_r.
Qed.

(** Where the greedy loop succeeds, the rest of the pattern matched after
    some of the text. *)
Lemma greedy_some (R : Type) (p : ascii -> bool) (s : string)
  (k : string -> option R) (r : R) :
  greedy R p s k = Some r -> exists n, k (drop n s) = Some r.
Proof.
  induction s as [|c s IH]; intros H.
  - exists 0. exact H.
  - cbn [greedy] in H. destruct (p c).
    + destruct (greedy R p s k) as [r'|].
      * destruct (IH H) as [n Hn]. exists (S n). exact Hn.
      * exists 0. exact H.
    + exists 0. exact H.
Qed.

(** [rm\s+-rf] is found only in a text that has [-rf]. *)
Lemma rm_rf_needs (s : string) (x : nat * groups) :
  match_at rm_rf s = Some x -> contains "-rf" s = true.
Proof.
  unfold match_at, rm_rf. cbn [lits rmatch]. intros H.
  destruct s as [|c1 s]; [discriminate|].
  destruct (Ascii.eqb c1 "r"); [|discriminate].
  destruct s as [|c2 s]; [discriminate|].
  destruct (Ascii.eqb c2 "m"); [|discriminate].
  destruct s as [|c3 s]; [discriminate|].
  destruct (isspace c3); [|discriminate].
  apply greedy_some in H. destruct H as [n H].
  apply (contains_suffix "-rf" (String c1 (String c2 (String c3 "")))).
  apply (contains_drop "-rf" n). apply contains_prefix.
  destruct (drop n s) as [|d1 t]; [discriminate|].
  destruct (Ascii.eqb d1 "-") eqn:E1; [|discriminate].
  destruct t as [|d2 t]; [discriminate|].
  destruct (Ascii.eqb d2 "r") eqn:E2; [|discriminate].
  destruct t as [|d3 t]; [discriminate|].
  destruct (Ascii.eqb d3 "f") eqn:E3; [|discriminate].
  apply Ascii.eqb_eq in E1, E2, E3. subst. destruct t; reflexivity.
Qed.

Lemma misses_rm_rf (x rest : string) :
  contains "-rf" (x ++ rest) = false -> misses rm_rf x rest.
Proof.
  intros H x1 c x2 ->.
  destruct (match_at rm_rf (String c (x2 ++ rest))) as [m|] eqn:Hm;
    [|reflexivity].
  apply rm_rf_needs in Hm.
  apply (contains_suffix "-rf" x1) in Hm.
  rewrite append_assoc in H. cbn [append] in H. congruence.
Qed.

(** Before [rm], a text without [rm] has no match. *)
Lemma misses_before_rm (pre rest : string) :
  contains "rm" pre = false -> misses rm_rf pre (String "r" rest).
Proof.
  intros H x1 c x2 ->.
  unfold match_at, rm_rf. cbn [lits rmatch].
  destruct (Ascii.eqb c "r") eqn:Ec; [|reflexivity].
  apply Ascii.eqb_eq in Ec. subst c.
  destruct x2 as [|d x2]; [reflexivity|].
  cbn [append].
  destruct (Ascii.eqb d "m") eqn:Ed; [|reflexivity].
  apply Ascii.eqb_eq in Ed. subst d.
  assert (Hc : contains "rm" (x1 ++ String "r" (String "m" x2)) = true)
    by (apply contains_suffix, contains_prefix; destruct x2; reflexivity).
  congruence.
Qed.

Lemma char_then_suffix (x : ascii) (p : ascii -> bool) (x1 s : string) :
  char_then x p (x1 ++ s) = false -> char_then x p s = false.
Proof.
  induction x1 as [|c x1 IH]; intros H; [exact H|].
  cbn [append char_then] in H.
  destruct (x1 ++ s) as [|d t] eqn:E.
  - destruct x1; [|discriminate]. cbn [append] in E. subst s. reflexivity.
  - apply orb_false_iff in H. apply IH. exact (proj2 H).
Qed.

(** A text without [>] before white space, going on with something else
    than white space, has no match of the redirection. *)
Lemma misses_redirection (x rest : string) :
  spaced_redirection x = false -> stops isspace rest = true ->
  misses redirection x rest.
Proof.
  intros H Hrest x1 c x2 ->. unfold spaced_redirection in H.
  apply char_then_suffix in H.
  unfold match_at, redirection. cbn [rmatch].
  destruct (Ascii.eqb c ">") eqn:Ec; [|reflexivity].
  destruct x2 as [|d x2]; cbn [append].
  - destruct rest as [|e rest]; [reflexivity|].
    cbn [stops] in Hrest. apply negb_true_iff in Hrest.
    rewrite Hrest. reflexivity.
  - cbn [char_then] in H. rewrite Ec in H. cbn [andb] in H.
    apply orb_false_iff in H. rewrite (proj1 H). reflexivity.
Qed.

Lemma char_then_append (x : ascii) (p : ascii -> bool) (s t : string) :
  char_then x p s = false -> char_then x p t = false ->
  stops p t = true -> char_then x p (s ++ t) = false.
Proof.
  intros Hs Ht Hstop. induction s as [|c s IH]; [exact Ht|].
  cbn [append char_then]. cbn [char_then] in Hs.
  destruct s as [|d s].
  - cbn [append]. destruct t as [|e t]; [reflexivity|].
    cbn [stops] in Hstop. apply negb_true_iff in Hstop.
    rewrite Hstop, andb_false_r. exact Ht.
  - apply orb_false_iff in Hs. destruct Hs as [H1 H2].
    cbn [append]. cbn [append] in IH. rewrite H1, (IH H2). reflexivity.
Qed.

(** The match of [rm\s+-rf]. *)
Lemma rm_rf_hit (ws post : string) :
  blank ws = true ->
  match_at rm_rf (("rm" ++ ws ++ "-rf") ++ post)
  = Some (String.length ("rm" ++ ws ++ "-rf"), []).
Proof.
  unfold blank. intros H. apply andb_true_iff in H. destruct H as [Hne Hws].
  destruct ws as [|d ws]; [discriminate|].
  cbn [all] in Hws. apply andb_true_iff in Hws. destruct Hws as [Hd Hws].
  unfold match_at, rm_rf. cbn [lits rmatch append Ascii.eqb Bool.eqb].
  rewrite Hd. rewrite append_assoc.
  rewrite (greedy_exact (nat * groups) isspace ws ("-rf" ++ post) _
             (String.length ("rm" ++ String d ws ++ "-rf"), [])).
  - reflexivity.
  - exact Hws.
  - reflexivity.
  - cbn [append Ascii.eqb Bool.eqb]. f_equal. f_equal.
    cbn [String.length]. rewrite !length_append. cbn [String.length]. lia.
Qed.

(** The match of the redirection, and the path it captures. *)
Lemma redirection_hit (ws path post : string) :
  blank ws = true -> slash_word path = true -> stops not_space post = true ->
  match_at redirection ((">" ++ ws ++ path) ++ post)
  = Some (String.length (">" ++ ws ++ path), [(1, path)]).
Proof.
  unfold blank. intros H Hpath Hpost.
  apply andb_true_iff in H. destruct H as [Hne Hws].
  destruct ws as [|d ws]; [discriminate|].
  cbn [all] in Hws. apply andb_true_iff in Hws. destruct Hws as [Hd Hws].
  destruct path as [|s0 w]; [discriminate|].
  cbn [slash_word] in Hpath.
  apply andb_true_iff in Hpath. destruct Hpath as [Hpath Hw].
  apply andb_true_iff in Hpath. destruct Hpath as [Hs0 Hwne].
  apply Ascii.eqb_eq in Hs0. subst s0.
  destruct w as [|e w]; [discriminate|].
  cbn [all] in Hw. apply andb_true_iff in Hw. destruct Hw as [He Hw].
  unfold match_at, redirection. cbn [rmatch append Ascii.eqb Bool.eqb].
  rewrite Hd. rewrite append_assoc.
  rewrite (greedy_exact (nat * groups) isspace ws
             (String "/" (String e w) ++ post) _
             (String.length (">" ++ String d ws ++ String "/" (String e w)),
              [(1, String "/" (String e w))])).
  - reflexivity.
  - exact Hws.
  - reflexivity.
  - cbn [append Ascii.eqb Bool.eqb]. rewrite He.
    rewrite (greedy_exact (nat * groups) not_space w post _
               (String.length (">" ++ String d ws ++ String "/" (String e w)),
                [(1, String "/" (String e w))])).
    + reflexivity.
    + exact Hw.
    + exact Hpost.
    + f_equal. f_equal.
      * cbn [String.length]. rewrite !length_append. cbn [String.length].
        rewrite !length_append. cbn [String.length]. lia.
      * f_equal. f_equal.
        change (String "/" (String e (w ++ post)))
          with (String "/" (String e w) ++ post).
        apply take_append.
Qed.

End SanitizerFacts.

(** X20.  [sanitize_command] rewrites two written forms.  A command
    without [-rf] and without [>] before white space is returned as it
    is.  The first [rm], white space, [-rf] of a command becomes
    [rm -i], the text around it being kept.  The first [>], white space
    and a word that starts with a slash become the pipe to [less] and the
    comment that names the word, the text around them being kept. *)
Theorem sanitize_command_rewrites :
  (forall command : string,
      Py.contains "-rf" command = false ->
      Sanitizer.spaced_redirection command = false ->
      Sanitizer.sanitize_command command = command)
  /\ (forall pre ws post : string,
        Py.contains "rm" pre = false ->
        Sanitizer.blank ws = true ->
        Py.contains "-rf" post = false ->
        Sanitizer.spaced_redirection pre = false ->
        Sanitizer.spaced_redirection post = false ->
        Sanitizer.sanitize_command (pre ++ "rm" ++ ws ++ "-rf" ++ post)
        = pre ++ "rm -i" ++ post)
  /\ (forall pre ws path post : string,
        Sanitizer.spaced_redirection pre = false ->
        Sanitizer.blank ws = true ->
        Sanitizer.slash_word path = true ->
        Strings.stops Sanitizer.not_space post = true ->
        Sanitizer.spaced_redirection post = false ->
        Py.contains "-rf" (pre ++ ">" ++ ws ++ path ++ post) = false ->
        Sanitizer.sanitize_command (pre ++ ">" ++ ws ++ path ++ post)
        = pre ++ Sanitizer.notice path ++ post).
Proof.
  split; [|split].
  - intros command Hrf Hgt. unfold Sanitizer.sanitize_command.
    rewrite (SanitizerFacts.sub_with_none Sanitizer.rm_rf).
    + apply SanitizerFacts.sub_with_none.
      apply SanitizerFacts.misses_redirection; [exact Hgt|reflexivity].
    + apply SanitizerFacts.misses_rm_rf.
      rewrite StringFacts.append_nil_r. exact Hrf.
  - intros pre ws post Hpre Hws Hpost Hgt1 Hgt2.
    unfold Sanitizer.sanitize_command.
    assert (Heq : "rm" ++ ws ++ "-rf" ++ post = ("rm" ++ ws ++ "-rf") ++ post).
    { cbn [append]. rewrite StringFacts.append_assoc. reflexivity. }
    assert (H1 : Sanitizer.sub_with Sanitizer.rm_rf (fun _ => "rm -i")
                   (pre ++ "rm" ++ ws ++ "-rf" ++ post)
                 = pre ++ "rm -i" ++ post).
    { unfold Sanitizer.sub_with.
      rewrite SanitizerFacts.sub_with_go_miss
        by (apply SanitizerFacts.misses_before_rm; exact Hpre).
      f_equal. rewrite Heq.
      rewrite (SanitizerFacts.sub_with_go_hit _ _ _ _ []);
        [|discriminate|apply SanitizerFacts.rm_rf_hit; exact Hws].
      f_equal.
      apply (SanitizerFacts.sub_with_none Sanitizer.rm_rf).
      apply SanitizerFacts.misses_rm_rf.
      rewrite StringFacts.append_nil_r. exact Hpost. }
    rewrite H1.
    apply SanitizerFacts.sub_with_none.
    apply SanitizerFacts.misses_redirection; [|reflexivity].
    unfold Sanitizer.spaced_redirection in *.
    apply SanitizerFacts.char_then_append; [exact Hgt1| |reflexivity].
    cbn [append Sanitizer.char_then Ascii.eqb Bool.eqb andb orb].
    destruct post as [|d post']; [reflexivity|exact Hgt2].
  - intros pre ws path post Hgt1 Hws Hpath Hstop Hgt2 Hrf.
    unfold Sanitizer.sanitize_command.
    rewrite (SanitizerFacts.sub_with_none Sanitizer.rm_rf)
      by (apply SanitizerFacts.misses_rm_rf;
          rewrite StringFacts.append_nil_r; exact Hrf).
    assert (Heq : ">" ++ ws ++ path ++ post = (">" ++ ws ++ path) ++ post).
    { cbn [append]. rewrite StringFacts.append_assoc. reflexivity. }
    unfold Sanitizer.sub_with.
    rewrite SanitizerFacts.sub_with_go_miss
      by (apply SanitizerFacts.misses_redirection; [exact Hgt1|reflexivity]).
    f_equal. rewrite Heq.
    rewrite (SanitizerFacts.sub_with_go_hit _ _ _ _ [(1, path)]);
      [|discriminate
       |apply SanitizerFacts.redirection_hit; assumption].
    cbn [Re.group Nat.eqb]. f_equal.
    apply (SanitizerFacts.sub_with_none Sanitizer.redirection).
    apply SanitizerFacts.misses_redirection; [exact Hgt2|reflexivity].
Qed.

(** X20 at [rm -fr /tmp/x >/dev/null], which is not rewritten, at
    [sudo rm  -rf /] and at [echo x > /etc/passwd]. *)
Lemma sanitize_command_rewrites_witness :
  Sanitizer.sanitize_command "rm -fr /tmp/x >/dev/null"
  = "rm -fr /tmp/x >/dev/null"
  /\ Sanitizer.sanitize_command "sudo rm  -rf /" = "sudo rm -i /"
  /\ Sanitizer.sanitize_command "echo x > /etc/passwd"
     = "echo x " ++ Sanitizer.notice "/etc/passwd".
Proof.
  split; [|split].
  - exact (proj1 sanitize_command_rewrites "rm -fr /tmp/x >/dev/null"
             eq_refl eq_refl).
  - exact (proj1 (proj2 sanitize_command_rewrites) "sudo " "  " " /"
             eq_refl eq_refl eq_refl eq_refl eq_refl).
  - exact (proj2 (proj2 sanitize_command_rewrites) "echo x " " "
             "/etc/passwd" "" eq_refl eq_refl eq_refl eq_refl eq_refl eq_refl).
Defined.
